(** * Screensaver core: curve engine, rain engine, governor and activity signal

    A shallow embedding of the animation widgets of the screensaver
    ([src/mystify_widget.py], the curve engine, and [src/sidekick_widget.py],
    the digital-rain engine) together with the properties stated about them.

    Modelling conventions.
    - Python [int] is [Z]; [//] and [%] on ints are [Z.div] and [Z.modulo]
      (both floor, sign of the divisor).
    - Python [float] is modelled by exact rationals [Q]: rounding error of
      IEEE doubles is outside the model.  [int(x)] truncates toward zero.
    - Attributes of a widget are fields of a record; a method that mutates
      [self] is a function returning the new record.
    - [random] is an explicit entropy source threaded through the code in
      source order; raised exceptions are values of [result].
    - [psutil] samples, the clock and the text of [/proc/interrupts] are
      inputs of the functions that read them. *)

From Stdlib Require Import ZArith QArith Qround Qminmax Qabs Lqa Lia.
From Stdlib Require Import String Ascii List Bool.
From stdpp Require Import base list gmap strings.

Local Open Scope Z_scope.

(** ** Python numerics *)

Module Py.

(** [x < y] on floats, as a boolean. *)
Definition Qltb (x y : Q) : bool := negb (Qle_bool y x).
Definition Qleb (x y : Q) : bool := Qle_bool x y.

(** [max(a, b)] returns [b] only when it is strictly larger, [min(a, b)]
    only when it is strictly smaller. *)
Definition max (a b : Q) : Q := if Qltb a b then b else a.
Definition min (a b : Q) : Q := if Qltb b a then b else a.

(** [int(x)] for a float [x]: truncation toward zero. *)
Definition int (x : Q) : Z := Z.quot (Qnum x) (Zpos (Qden x)).

(** [float(n)] / implicit int-to-float promotion. *)
Definition float (n : Z) : Q := inject_Z n.

(** [x % d] on floats for [d <> 0]: the result has the sign of [d]. *)
Definition fmod (x d : Q) : Q := (x - d * inject_Z (Qfloor (x / d)))%Q.

(** [sum(xs)] and [sum(xs) / len(xs)], in exact arithmetic: the float
    average of the code differs from [mean] by rounding, so [mean] is
    used for the branches it selects, not for its value. *)
Definition sum (xs : list Q) : Q := fold_left Qplus xs 0%Q.
Definition mean (xs : list Q) : Q :=
  (sum xs / inject_Z (Z.of_nat (length xs)))%Q.

(** Exceptions that the modelled code can raise. *)
Inductive exn : Set :=
| ValueError
| ZeroDivisionError
| IndexError.

Inductive result (A : Type) : Type :=
| Ok (a : A)
| Raise (e : exn).
Arguments Ok {A} a.
Arguments Raise {A} e.

End Py.

(** ** The [random] module

    The generator is an infinite sequence of raw integers and a cursor.
    Each library call consumes one raw integer, as [randbelow] and
    [random()] do in CPython. *)

Module Random.
Import Py.

Record rng : Type := { draws : nat -> Z; cursor : nat }.

(** Computations that draw random numbers and may raise. *)
Definition M (A : Type) : Type := rng -> result (A * rng).

Definition ret {A} (a : A) : M A := fun g => Ok (a, g).
Definition bind {A B} (m : M A) (k : A -> M B) : M B :=
  fun g => match m g with
           | Ok (a, g') => k a g'
           | Raise e => Raise e
           end.
Definition raise {A} (e : exn) : M A := fun _ => Raise e.

Definition next : M Z :=
  fun g => Ok (draws g (cursor g),
               {| draws := draws g; cursor := S (cursor g) |}).

(** [_randbelow(n)] for [n > 0]: uniform in [0, n). *)
Definition randbelow (n : Z) : M Z :=
  bind next (fun r => ret (r mod n)).

(** [random.random()]: a 53-bit fraction in [0, 1). *)
Definition random : M Q :=
  bind next (fun r => ret (Qmake (r mod 2 ^ 53) (2 ^ 53))).

(** [random.randint(a, b)]: both end points included; an empty range
    raises [ValueError]. *)
Definition randint (a b : Z) : M Z :=
  if b <? a then raise ValueError
  else bind (randbelow (b - a + 1)) (fun r => ret (a + r)).

(** [random.uniform(a, b) = a + (b - a) * random()]. *)
Definition uniform (a b : Q) : M Q :=
  bind random (fun u => ret (a + (b - a) * u)%Q).

(** [for x in xs: body(x)] threading an accumulator. *)
Fixpoint for_each {A S} (xs : list A) (body : A -> S -> M S) (s : S) : M S :=
  match xs with
  | [] => ret s
  | x :: rest => bind (body x s) (for_each rest body)
  end.

(** [range(n)]: empty when [n <= 0]. *)
Definition range (n : Z) : list nat := seq 0 (Z.to_nat n).

End Random.

Notation "'let*' x ':=' c 'in' k" := (Random.bind c (fun x => k))
  (at level 10, x name, c at level 200, k at level 200, only parsing).

(** ** Qt value types used by the engines *)

Module Qt.

Record QPointF : Type := { px : Q; py : Q }.

(** A painter path is the sequence of its construction calls. *)
Inductive path_element : Type :=
| moveTo (p : QPointF)
| lineTo (p : QPointF)
| cubicTo (c1 c2 p : QPointF)
| closeSubpath.

Definition QPainterPath : Type := list path_element.

Inductive QColor : Type :=
| Rgba (r g b a : Z)
| fromHsv (h s v : Z).

Definition setAlpha (a : Z) (c : QColor) : QColor :=
  match c with
  | Rgba r g b _ => Rgba r g b a
  | fromHsv h s v => fromHsv h s v
  end.

(** Signals a widget can emit. *)
Inductive signal : Set := exit_requested.

End Qt.

(** ** Reading the interrupt table

    The loop that sums the input-device lines of [/proc/interrupts] has
    the same text in [MystifyWidget.check_usb_activity] and in
    [MatrixWidget.check_usb_activity]; it is modelled once.  The table is
    ASCII text. *)

Module Interrupts.

Local Open Scope char_scope.

Definition lower_char (c : ascii) : ascii :=
  let n := nat_of_ascii c in
  if ((65 <=? n) && (n <=? 90))%nat then ascii_of_nat (n + 32) else c.

(** [s.lower()] *)
Fixpoint lower (s : string) : string :=
  match s with
  | EmptyString => EmptyString
  | String c rest => String (lower_char c) (lower rest)
  end.

(** [kw in s] *)
Definition contains (kw s : string) : bool :=
  match String.index 0 kw s with
  | Some _ => true
  | None => false
  end.

(** [s.split(sep)] for a one-character separator: empty fields are kept. *)
Fixpoint split_on (sep : ascii) (s : string) (cur : string) : list string :=
  match s with
  | EmptyString => [cur]
  | String c rest =>
      if Ascii.eqb c sep then cur :: split_on sep rest EmptyString
      else split_on sep rest (cur ++ String c EmptyString)%string
  end.

Definition isspace (c : ascii) : bool :=
  let n := nat_of_ascii c in
  (((9 <=? n) && (n <=? 13)) || ((28 <=? n) && (n <=? 32)))%nat.

(** [s.split()]: split on runs of whitespace, no empty fields. *)
Fixpoint split_ws (s : string) (cur : string) : list string :=
  match s with
  | EmptyString =>
      match cur with EmptyString => [] | _ => [cur] end
  | String c rest =>
      if isspace c then
        match cur with
        | EmptyString => split_ws rest EmptyString
        | _ => cur :: split_ws rest EmptyString
        end
      else split_ws rest (cur ++ String c EmptyString)%string
  end.

Definition is_digit_char (c : ascii) : bool :=
  let n := nat_of_ascii c in ((48 <=? n) && (n <=? 57))%nat.

Fixpoint all_digits (s : string) : bool :=
  match s with
  | EmptyString => true
  | String c rest => is_digit_char c && all_digits rest
  end.

(** [s.isdigit()]: non-empty and made of digits only. *)
Definition isdigit (s : string) : bool :=
  match s with
  | EmptyString => false
  | _ => all_digits s
  end.

(** [int(s)] for a string of digits. *)
Fixpoint int_digits (s : string) (acc : Z) : Z :=
  match s with
  | EmptyString => acc
  | String c rest =>
      int_digits rest (10 * acc + Z.of_nat (nat_of_ascii c - 48))
  end.

Definition keywords : list string :=
  ["usb"; "ehci"; "ohci"; "xhci"; "hid"; "input"; "mouse"; "keyboard"]%string.

Definition usb_keywords : list string :=
  ["usb"; "ehci"; "ohci"; "xhci"]%string.

(** The inner loop [for i in range(1, len(parts))]: add digit fields to
    the USB or the HID counter and stop at the first other field. *)
Fixpoint sum_columns (is_usb : bool) (fields : list string)
         (counters : Z * Z) : Z * Z :=
  match fields with
  | [] => counters
  | f :: rest =>
      if isdigit f then
        let '(usb_interrupts, hid_interrupts) := counters in
        sum_columns is_usb rest
          (if is_usb then (usb_interrupts + int_digits f 0, hid_interrupts)
           else (usb_interrupts, hid_interrupts + int_digits f 0))
      else counters
  end.

Definition scan_line (counters : Z * Z) (line : string) : Z * Z :=
  let line_lower := lower line in
  if existsb (fun keyword => contains keyword line_lower) keywords then
    match split_ws line EmptyString with
    | _ :: ((_ :: _) as columns) =>
        sum_columns
          (existsb (fun keyword => contains keyword line_lower) usb_keywords)
          columns counters
    | _ => counters
    end
  else counters.

(** [(usb_interrupts, hid_interrupts)] after the scan of the table. *)
Definition scan (content : string) : Z * Z :=
  fold_left scan_line (split_on "010" content EmptyString) (0, 0).

Definition total_interrupts (content : string) : Z :=
  let '(usb_interrupts, hid_interrupts) := scan content in
  usb_interrupts + hid_interrupts.

End Interrupts.

(** ** Statistics drift

    [calculate_drift_position] has the same text in both widgets.  The
    method reads the clock, the widget size and four attributes; they are
    the arguments here.  [stats_drift] is the value of
    [settings.get('stats_drift', True)]. *)

Module Drift.
Import Py.
Local Open Scope Q_scope.

Definition calculate_drift_position
           (stats_drift : bool) (current_time stats_drift_start_time : Q)
           (drift_cycle_duration drift_margin : Z)
           (screen_width screen_height : Z) : result (Z * Z) :=
  if negb stats_drift then Ok (10%Z, 30%Z)
  else if (drift_cycle_duration =? 0)%Z then Raise ZeroDivisionError
  else
    let elapsed := current_time - stats_drift_start_time in
    let cycle_progress :=
      fmod elapsed (float drift_cycle_duration) / float drift_cycle_duration in
    let margin := float drift_margin in
    let '(x, y) :=
      if Qltb cycle_progress 0.25 then
        let edge_progress := cycle_progress * 4 in
        (margin + edge_progress * (float screen_width - 2 * margin - 300),
         margin)
      else if Qltb cycle_progress 0.5 then
        let edge_progress := (cycle_progress - 0.25) * 4 in
        (float screen_width - margin - 300,
         margin + edge_progress * (float screen_height - 2 * margin - 80))
      else if Qltb cycle_progress 0.75 then
        let edge_progress := (cycle_progress - 0.5) * 4 in
        (float screen_width - margin - 300
           - edge_progress * (float screen_width - 2 * margin - 300),
         float screen_height - margin - 80)
      else
        let edge_progress := (cycle_progress - 0.75) * 4 in
        (margin,
         float screen_height - margin - 80
           - edge_progress * (float screen_height - 2 * margin - 80))
    in Ok (int x, int y).

End Drift.

(** ** Telemetry samples ([psutil]) *)

Module Psutil.
Import Py.

(** What [psutil.cpu_percent(interval=0)] may hand back, as far as the
    callers distinguish: a number, a per-CPU list, or something else. *)
Inductive cpu_reading : Type :=
| CpuNumber (c : Q)
| CpuList (cs : list Q)
| CpuOther.

Record sample : Type :=
  { cpu_percent : cpu_reading;
    memory_percent : Q }.

(** [sum(cs) / len(cs) if cs else 0.0] *)
Definition list_average (cs : list Q) : Q :=
  match cs with
  | [] => 0%Q
  | _ => mean cs
  end.

End Psutil.

(** ** The curve engine: [MystifyWidget] *)

Module Mystify.
Import Py Qt Random Psutil.
Local Open Scope Q_scope.

(** The keys of the settings dictionary that the engine reads; [None]
    is an absent key. *)
Record Settings : Type :=
  { mystify_shapes : option Z;
    mystify_trail_length : option Z;
    mystify_complexity : option Z;
    mystify_speed : option Z;
    fps_key : option Z;
    target_fps : option Z;
    show_stats : option bool;
    stats_drift : option bool;
    power_saving_mode : option bool;
    energy_efficient : option bool }.

(** [settings.get(key, dflt)] *)
Definition get {A} (value : option A) (dflt : A) : A := default dflt value.

(** One entry of [self.shapes]. *)
Record Shape : Type :=
  { control_points : list QPointF;
    velocities : list QPointF;
    control_velocities : list QPointF;
    color_hue : Q;
    color_shift : Q;
    size_factor : Q;
    curve_tension : Q }.

Record MystifyWidget : Type :=
  { settings : Settings;
    num_shapes : Z;
    trail_length : Z;
    shape_complexity : Z;
    speed : Q;
    shapes : list Shape;
    shape_trails : list (list QPainterPath);
    timer_interval : Z;
    usb_interrupt_baseline : option Z;
    screensaver_start_time : Q;
    frame_count : Z;
    frame_times : list Q;
    is_emergency_throttled : bool;
    quality_level : Q;
    frame_skip_ratio : Z;
    last_activity_check : option Q;
    stats_drift_start_time : Q;
    drift_cycle_duration : Z;
    drift_margin : Z }.

(** Attributes assigned once in [__init__]. *)
Definition cpu_threshold : Q := 40.
Definition memory_threshold : Q := 70.
Definition emergency_cpu_threshold : Q := 90.

(** *** Attribute assignment *)

Definition with_trail_length (v : Z) (w : MystifyWidget) : MystifyWidget :=
  {| settings := settings w; num_shapes := num_shapes w; trail_length := v;
     shape_complexity := shape_complexity w; speed := speed w;
     shapes := shapes w; shape_trails := shape_trails w;
     timer_interval := timer_interval w;
     usb_interrupt_baseline := usb_interrupt_baseline w;
     screensaver_start_time := screensaver_start_time w;
     frame_count := frame_count w; frame_times := frame_times w;
     is_emergency_throttled := is_emergency_throttled w;
     quality_level := quality_level w;
     frame_skip_ratio := frame_skip_ratio w;
     last_activity_check := last_activity_check w;
     stats_drift_start_time := stats_drift_start_time w;
     drift_cycle_duration := drift_cycle_duration w;
     drift_margin := drift_margin w |}.

Definition with_shapes (v : list Shape) (t : list (list QPainterPath))
           (w : MystifyWidget) : MystifyWidget :=
  {| settings := settings w; num_shapes := num_shapes w;
     trail_length := trail_length w;
     shape_complexity := shape_complexity w; speed := speed w;
     shapes := v; shape_trails := t;
     timer_interval := timer_interval w;
     usb_interrupt_baseline := usb_interrupt_baseline w;
     screensaver_start_time := screensaver_start_time w;
     frame_count := frame_count w; frame_times := frame_times w;
     is_emergency_throttled := is_emergency_throttled w;
     quality_level := quality_level w;
     frame_skip_ratio := frame_skip_ratio w;
     last_activity_check := last_activity_check w;
     stats_drift_start_time := stats_drift_start_time w;
     drift_cycle_duration := drift_cycle_duration w;
     drift_margin := drift_margin w |}.

(** [self.is_emergency_throttled = b; self.timer.setInterval(ms)] *)
Definition with_throttle (b : bool) (ms : Z) (w : MystifyWidget)
  : MystifyWidget :=
  {| settings := settings w; num_shapes := num_shapes w;
     trail_length := trail_length w;
     shape_complexity := shape_complexity w; speed := speed w;
     shapes := shapes w; shape_trails := shape_trails w;
     timer_interval := ms;
     usb_interrupt_baseline := usb_interrupt_baseline w;
     screensaver_start_time := screensaver_start_time w;
     frame_count := frame_count w; frame_times := frame_times w;
     is_emergency_throttled := b;
     quality_level := quality_level w;
     frame_skip_ratio := frame_skip_ratio w;
     last_activity_check := last_activity_check w;
     stats_drift_start_time := stats_drift_start_time w;
     drift_cycle_duration := drift_cycle_duration w;
     drift_margin := drift_margin w |}.

Definition with_usb_interrupt_baseline (v : option Z) (w : MystifyWidget)
  : MystifyWidget :=
  {| settings := settings w; num_shapes := num_shapes w;
     trail_length := trail_length w;
     shape_complexity := shape_complexity w; speed := speed w;
     shapes := shapes w; shape_trails := shape_trails w;
     timer_interval := timer_interval w;
     usb_interrupt_baseline := v;
     screensaver_start_time := screensaver_start_time w;
     frame_count := frame_count w; frame_times := frame_times w;
     is_emergency_throttled := is_emergency_throttled w;
     quality_level := quality_level w;
     frame_skip_ratio := frame_skip_ratio w;
     last_activity_check := last_activity_check w;
     stats_drift_start_time := stats_drift_start_time w;
     drift_cycle_duration := drift_cycle_duration w;
     drift_margin := drift_margin w |}.

Definition with_quality_level (v : Q) (w : MystifyWidget) : MystifyWidget :=
  {| settings := settings w; num_shapes := num_shapes w;
     trail_length := trail_length w;
     shape_complexity := shape_complexity w; speed := speed w;
     shapes := shapes w; shape_trails := shape_trails w;
     timer_interval := timer_interval w;
     usb_interrupt_baseline := usb_interrupt_baseline w;
     screensaver_start_time := screensaver_start_time w;
     frame_count := frame_count w; frame_times := frame_times w;
     is_emergency_throttled := is_emergency_throttled w;
     quality_level := v;
     frame_skip_ratio := frame_skip_ratio w;
     last_activity_check := last_activity_check w;
     stats_drift_start_time := stats_drift_start_time w;
     drift_cycle_duration := drift_cycle_duration w;
     drift_margin := drift_margin w |}.

Definition with_frame_skip_ratio (v : Z) (w : MystifyWidget)
  : MystifyWidget :=
  {| settings := settings w; num_shapes := num_shapes w;
     trail_length := trail_length w;
     shape_complexity := shape_complexity w; speed := speed w;
     shapes := shapes w; shape_trails := shape_trails w;
     timer_interval := timer_interval w;
     usb_interrupt_baseline := usb_interrupt_baseline w;
     screensaver_start_time := screensaver_start_time w;
     frame_count := frame_count w; frame_times := frame_times w;
     is_emergency_throttled := is_emergency_throttled w;
     quality_level := quality_level w;
     frame_skip_ratio := v;
     last_activity_check := last_activity_check w;
     stats_drift_start_time := stats_drift_start_time w;
     drift_cycle_duration := drift_cycle_duration w;
     drift_margin := drift_margin w |}.

Definition with_last_activity_check (v : option Q) (w : MystifyWidget)
  : MystifyWidget :=
  {| settings := settings w; num_shapes := num_shapes w;
     trail_length := trail_length w;
     shape_complexity := shape_complexity w; speed := speed w;
     shapes := shapes w; shape_trails := shape_trails w;
     timer_interval := timer_interval w;
     usb_interrupt_baseline := usb_interrupt_baseline w;
     screensaver_start_time := screensaver_start_time w;
     frame_count := frame_count w; frame_times := frame_times w;
     is_emergency_throttled := is_emergency_throttled w;
     quality_level := quality_level w;
     frame_skip_ratio := frame_skip_ratio w;
     last_activity_check := v;
     stats_drift_start_time := stats_drift_start_time w;
     drift_cycle_duration := drift_cycle_duration w;
     drift_margin := drift_margin w |}.

(** *** Construction *)

(** Body of the inner loop of [init_shapes]: one control point with its
    velocity and its handle velocity. *)
Definition init_control_point (width height : Z) (speed : Q)
           (j : nat) (shape : Shape) : M Shape :=
  let* x := randint 100 (width - 100) in
  let* y := randint 100 (height - 100) in
  let* vx := uniform (- speed) speed in
  let* vy := uniform (- speed) speed in
  let* cvx := uniform (- speed * 0.5) (speed * 0.5) in
  let* cvy := uniform (- speed * 0.5) (speed * 0.5) in
  ret {| control_points :=
           control_points shape ++ [{| px := float x; py := float y |}];
         velocities := velocities shape ++ [{| px := vx; py := vy |}];
         control_velocities :=
           control_velocities shape ++ [{| px := cvx; py := cvy |}];
         color_hue := color_hue shape;
         color_shift := color_shift shape;
         size_factor := size_factor shape;
         curve_tension := curve_tension shape |}.

(** Body of the outer loop of [init_shapes]. *)
Definition init_shape (width height : Z) (speed : Q) (shape_complexity : Z)
           (i : nat) (acc : list Shape * list (list QPainterPath))
  : M (list Shape * list (list QPainterPath)) :=
  let* hue := randint 0 360 in
  let* shift := uniform 0.5 2.0 in
  let* size := uniform 0.1 0.3 in
  let* tension := uniform 0.3 0.8 in
  let shape :=
    {| control_points := []; velocities := []; control_velocities := [];
       color_hue := float hue; color_shift := shift;
       size_factor := size; curve_tension := tension |} in
  let num_control_points := Z.max 3 (shape_complexity / 2) in
  let* shape := for_each (range num_control_points)
                    (init_control_point width height speed) shape in
  ret (fst acc ++ [shape], snd acc ++ [[]]).

(** [init_shapes]; [width] and [height] are the geometry of the primary
    screen. *)
Definition init_shapes (width height : Z) (w : MystifyWidget)
  : M MystifyWidget :=
  let* acc := for_each (range (num_shapes w))
                  (init_shape width height (speed w) (shape_complexity w))
                  ([], []) in
  ret (with_shapes (fst acc) (snd acc) w).

(** [fps = settings.get('fps', settings.get('target_fps', 30))], with 0
    (unlimited) replaced by 60. *)
Definition configured_fps (s : Settings) : Z :=
  let fps := get (fps_key s) (get (target_fps s) 30%Z) in
  if (fps =? 0)%Z then 60%Z else fps.

(** [MystifyWidget.__init__]: the attributes above, in the order the
    source assigns them.  The two clock readings and the screen size
    are arguments. *)
Definition __init__ (settings : Settings) (start_time drift_start_time : Q)
           (width height : Z) : M MystifyWidget :=
  let w :=
    {| settings := settings;
       num_shapes := get (mystify_shapes settings) 3%Z;
       trail_length := get (mystify_trail_length settings) 50%Z;
       shape_complexity := get (mystify_complexity settings) 6%Z;
       speed := float (get (mystify_speed settings) 2%Z);
       shapes := []; shape_trails := [];
       timer_interval := 0%Z;
       usb_interrupt_baseline := None;
       screensaver_start_time := start_time;
       frame_count := 0%Z; frame_times := [];
       is_emergency_throttled := false;
       quality_level := 1.0;
       frame_skip_ratio := 1%Z;
       last_activity_check := None;
       stats_drift_start_time := drift_start_time;
       drift_cycle_duration := (8 * 60)%Z;
       drift_margin := 50%Z |} in
  let* w := init_shapes width height w in
  ret (with_throttle false (1000 / configured_fps settings)%Z w).

(** *** Curves *)

(** [create_smooth_curve]: a closed cubic curve through the control
    points, or a polygon when there are fewer than three. *)
Definition create_smooth_curve (control_points : list QPointF) (tension : Q)
  : QPainterPath :=
  match control_points with
  | [] => []
  | first :: others =>
      let n := length control_points in
      if (n <? 3)%nat then
        moveTo first :: map lineTo others ++ [closeSubpath]
      else
        let item (k : nat) := nth k control_points first in
        let segment (i : nat) :=
          let current := item i in
          let next_point := item ((i + 1) mod n)%nat in
          let prev_point :=
            if (0 <? i)%nat then item (i - 1)%nat else item (n - 1)%nat in
          let next_next := item ((i + 2) mod n)%nat in
          cubicTo
            {| px := px current
                     + (px next_point - px prev_point) * tension * 0.25;
               py := py current
                     + (py next_point - py prev_point) * tension * 0.25 |}
            {| px := px next_point
                     - (px next_next - px current) * tension * 0.25;
               py := py next_point
                     - (py next_next - py current) * tension * 0.25 |}
            next_point in
        moveTo first :: map segment (seq 0 n) ++ [closeSubpath]
  end.

(** *** The animation step *)

(** [_apply_performance_optimizations]: the returned boolean tells the
    caller to skip the frame. *)
Definition _apply_performance_optimizations (current_time : Q)
           (w : MystifyWidget) : bool * MystifyWidget :=
  let power_saving := get (power_saving_mode (settings w)) false in
  if power_saving && negb (frame_count w mod 2 =? 0)%Z then (true, w)
  else
    let w :=
      if power_saving
      then with_quality_level (min 0.6 (quality_level w)) w
      else w in
    let energy_efficient := get (energy_efficient (settings w)) true in
    let w :=
      if energy_efficient && (frame_count w mod 5 =? 0)%Z then
        match last_activity_check w with
        | Some since =>
            let time_since_activity := current_time - since in
            if Qltb 30 time_since_activity
            then with_quality_level (min 0.7 (quality_level w)) w
            else w
        | None => with_last_activity_check (Some current_time) w
        end
      else w in
    (false, w).

(** The trail bounds computed in [_update_shape_animations]. *)
Definition min_trail (trail_length : Z) : Z := Z.max 5 (trail_length / 4).
Definition max_trail (trail_length : Z) (quality_level : Q) : Z :=
  Z.max (min_trail trail_length) (int (float trail_length * quality_level)).

(** "Store current curve in trail (reduced frequency at low quality)":
    the guard of the trail update. *)
Definition stores_curve (w : MystifyWidget) : bool :=
  Qltb 0.7 (quality_level w) || (frame_count w mod 2 =? 0)%Z.

(** The guarded block: the curve is appended and, when the trail is then
    longer than [max_trail], [pop(0)] drops the oldest entry. *)
Definition store_curve (w : MystifyWidget) (shape : Shape)
           (trail : list QPainterPath) : list QPainterPath :=
  let current_curve :=
    create_smooth_curve (control_points shape) (curve_tension shape) in
  let trail := trail ++ [current_curve] in
  if (max_trail (trail_length w) (quality_level w)
        <? Z.of_nat (length trail))%Z
  then tail trail
  else trail.

(** One coordinate of "Bounce off screen edges": the new position and
    the new velocity component. *)
Definition bounce (limit : Z) (position velocity speed_multiplier : Q)
  : Q * Q :=
  let new := position + velocity * speed_multiplier in
  if Qleb new 0 || Qleb (float limit) new
  then (max 0 (min (float limit) new), - velocity)
  else (new, velocity).

(** Body of [for j, point in enumerate(shape['control_points'])]. *)
Definition move_control_point (width height : Z) (speed_multiplier : Q)
           (j : nat) (shape : Shape) : M Shape :=
  match control_points shape !! j, velocities shape !! j with
  | Some point, Some velocity =>
      let '(new_x, vx) :=
        bounce width (px point) (px velocity) speed_multiplier in
      let '(new_y, vy) :=
        bounce height (py point) (py velocity) speed_multiplier in
      ret {| control_points :=
               <[j := {| px := new_x; py := new_y |}]> (control_points shape);
             velocities :=
               <[j := {| px := vx; py := vy |}]> (velocities shape);
             control_velocities := control_velocities shape;
             color_hue := color_hue shape;
             color_shift := color_shift shape;
             size_factor := size_factor shape;
             curve_tension := curve_tension shape |}
  | _, _ => raise IndexError
  end.

(** Tension random walk and hue update of one shape. *)
Definition evolve_shape (w : MystifyWidget) (shape : Shape) : M Shape :=
  let* step := uniform (-0.01) 0.01 in
  let tension := max 0.2 (min 1.0 (curve_tension shape + step)) in
  let hue :=
    if Qltb 0.7 (quality_level w) || (frame_count w mod 3 =? 0)%Z
    then fmod (color_hue shape + color_shift shape) 360
    else color_hue shape in
  ret {| control_points := control_points shape;
         velocities := velocities shape;
         control_velocities := control_velocities shape;
         color_hue := hue;
         color_shift := color_shift shape;
         size_factor := size_factor shape;
         curve_tension := tension |}.

(** Body of [for idx in range(shapes_per_frame)]. *)
Definition update_shape (width height : Z) (start_idx : Z)
           (idx : nat) (w : MystifyWidget) : M MystifyWidget :=
  let i :=
    Z.to_nat ((start_idx + Z.of_nat idx) mod Z.of_nat (length (shapes w))) in
  match shapes w !! i with
  | None => raise IndexError
  | Some shape =>
      let* trails :=
        if stores_curve w then
          match shape_trails w !! i with
          | Some trail =>
              ret (<[i := store_curve w shape trail]> (shape_trails w))
          | None => raise IndexError
          end
        else ret (shape_trails w) in
      let speed_multiplier :=
        if Qltb 0.5 (quality_level w) then quality_level w else 0.5 in
      let* shape :=
        for_each (seq 0 (length (control_points shape)))
                 (move_control_point width height speed_multiplier) shape in
      let* shape := evolve_shape w shape in
      ret (with_shapes (<[i := shape]> (shapes w)) trails w)
  end.

(** [_update_shape_animations]; [width] and [height] are the geometry
    of the primary screen. *)
Definition _update_shape_animations (width height : Z) (w : MystifyWidget)
  : M MystifyWidget :=
  let shapes_per_frame := length (shapes w) in
  if (length (shapes w) =? 0)%nat then raise ZeroDivisionError
  else
    let start_idx := (frame_count w mod Z.of_nat (length (shapes w)))%Z in
    for_each (seq 0 shapes_per_frame) (update_shape width height start_idx) w.

(** *** The performance governor *)

(** [check_emergency_cpu_throttle]; [psutil] is [None] when the import
    fails, otherwise the reading of [psutil.cpu_percent(interval=0)]. *)
Definition check_emergency_cpu_throttle (psutil : option cpu_reading)
           (w : MystifyWidget) : MystifyWidget :=
  match psutil with
  | None => w
  | Some CpuOther => w
  | Some reading =>
      let cpu_percent :=
        match reading with
        | CpuNumber c => c
        | CpuList cs => list_average cs
        | CpuOther => 0
        end in
      if Qltb emergency_cpu_threshold cpu_percent then
        if negb (is_emergency_throttled w)
        then with_throttle true 1000 w
        else w
      else
        if is_emergency_throttled w
        then with_throttle false (1000 / configured_fps (settings w))%Z w
        else w
  end.

(** [adaptive_performance_adjustment]; [psutil] is [None] when the
    import fails, otherwise the CPU and memory readings. *)
Definition adaptive_performance_adjustment (psutil : option sample)
           (w : MystifyWidget) : MystifyWidget :=
  match psutil with
  | None => w
  | Some readings =>
      let memory_percent := memory_percent readings in
      let cpu_percent :=
        match cpu_percent readings with
        | CpuNumber c => c
        | CpuList cs => list_average cs
        | CpuOther => 0.0
        end in
      let w :=
        match frame_times w with
        | [] => w
        | _ =>
            let avg_frame_time := mean (frame_times w) in
            let target_frame_time := 1.0 / 30.0 in
            if Qltb (target_frame_time * 2.0) avg_frame_time then
              with_quality_level (max 0.5 (quality_level w - 0.05)) w
            else if Qltb avg_frame_time (target_frame_time * 0.8) then
              with_quality_level (min 1.0 (quality_level w + 0.05)) w
            else w
        end in
      let w :=
        if Qltb cpu_threshold cpu_percent then
          let w := with_quality_level (max 0.3 (quality_level w - 0.1)) w in
          if Qltb 70 cpu_percent
          then with_frame_skip_ratio (Z.min 4 (frame_skip_ratio w + 1)) w
          else w
        else w in
      if Qltb memory_threshold memory_percent then
        let w := with_quality_level (max 0.3 (quality_level w - 0.1)) w in
        if Qltb 85 memory_percent
        then with_trail_length
               (Z.max 10 (int (float (trail_length w) * 0.8))) w
        else w
      else w
  end.

(** *** Statistics drift and activity polling *)

(** [calculate_drift_position]; the clock and the widget size are
    arguments. *)
Definition calculate_drift_position (current_time : Q)
           (screen_width screen_height : Z) (w : MystifyWidget)
  : result (Z * Z) :=
  Drift.calculate_drift_position
    (get (stats_drift (settings w)) true)
    current_time (stats_drift_start_time w)
    (drift_cycle_duration w) (drift_margin w) screen_width screen_height.

(** [check_usb_activity]: the strict variant.  [proc_interrupts] is the
    text of [/proc/interrupts], or [None] when reading it raises; the
    result carries the signals emitted by the poll. *)
Definition check_usb_activity (current_time : Q)
           (proc_interrupts : option string) (w : MystifyWidget)
  : MystifyWidget * list signal :=
  let time_since_start := current_time - screensaver_start_time w in
  if Qltb time_since_start 10.0 then (w, [])
  else
    match proc_interrupts with
    | None => (w, [])
    | Some content =>
        let total_interrupts := Interrupts.total_interrupts content in
        match usb_interrupt_baseline w with
        | None =>
            (with_usb_interrupt_baseline (Some total_interrupts) w, [])
        | Some baseline =>
            let interrupt_diff := (total_interrupts - baseline)%Z in
            if (50 <? interrupt_diff)%Z then
              (with_usb_interrupt_baseline (Some total_interrupts) w,
               [exit_requested])
            else
              (with_usb_interrupt_baseline (Some total_interrupts) w, [])
        end
    end.

End Mystify.

(** ** The rain engine: [MatrixColumn] and [MatrixWidget] *)

Module Matrix.
Import Py Qt Psutil.
Local Open Scope Q_scope.

(** The keys of [self.settings] read by the modelled methods.  ['color']
    and ['rainbow'] are read by subscript and are always present;
    the others are read with [get]. *)
Record Settings : Type :=
  { color : string;
    rainbow : bool;
    target_fps : option Z;
    show_stats : option bool;
    stats_drift : option bool }.

Definition get {A} (value : option A) (dflt : A) : A := default dflt value.

Record MatrixColumn : Type :=
  { x : Z;
    screen_height : Z;
    char_height : Z;
    characters : list string;
    char_positions : list Q;
    char_ages : list Z;
    head_position : Q;
    speed : Q;
    length_ : Z }.

Record MatrixWidget : Type :=
  { settings : Settings;
    columns : list MatrixColumn;
    timer_interval : Z;
    is_emergency_throttled : bool;
    usb_interrupt_baseline : option Z;
    last_usb_check : Q;
    primary_color : QColor;
    head_color : QColor;
    fade_colors : list QColor;
    stats_drift_start_time : Q;
    drift_cycle_duration : Z;
    drift_margin : Z }.

Definition emergency_cpu_threshold : Q := 90.

(** *** Attribute assignment *)

Definition with_throttle (b : bool) (ms : Z) (w : MatrixWidget)
  : MatrixWidget :=
  {| settings := settings w; columns := columns w;
     timer_interval := ms; is_emergency_throttled := b;
     usb_interrupt_baseline := usb_interrupt_baseline w;
     last_usb_check := last_usb_check w;
     primary_color := primary_color w; head_color := head_color w;
     fade_colors := fade_colors w;
     stats_drift_start_time := stats_drift_start_time w;
     drift_cycle_duration := drift_cycle_duration w;
     drift_margin := drift_margin w |}.

Definition with_usb_interrupt_baseline (v : option Z) (w : MatrixWidget)
  : MatrixWidget :=
  {| settings := settings w; columns := columns w;
     timer_interval := timer_interval w;
     is_emergency_throttled := is_emergency_throttled w;
     usb_interrupt_baseline := v;
     last_usb_check := last_usb_check w;
     primary_color := primary_color w; head_color := head_color w;
     fade_colors := fade_colors w;
     stats_drift_start_time := stats_drift_start_time w;
     drift_cycle_duration := drift_cycle_duration w;
     drift_margin := drift_margin w |}.

Definition with_last_usb_check (v : Q) (w : MatrixWidget) : MatrixWidget :=
  {| settings := settings w; columns := columns w;
     timer_interval := timer_interval w;
     is_emergency_throttled := is_emergency_throttled w;
     usb_interrupt_baseline := usb_interrupt_baseline w;
     last_usb_check := v;
     primary_color := primary_color w; head_color := head_color w;
     fade_colors := fade_colors w;
     stats_drift_start_time := stats_drift_start_time w;
     drift_cycle_duration := drift_cycle_duration w;
     drift_margin := drift_margin w |}.

Definition with_colors (primary head : QColor) (fade : list QColor)
           (w : MatrixWidget) : MatrixWidget :=
  {| settings := settings w; columns := columns w;
     timer_interval := timer_interval w;
     is_emergency_throttled := is_emergency_throttled w;
     usb_interrupt_baseline := usb_interrupt_baseline w;
     last_usb_check := last_usb_check w;
     primary_color := primary; head_color := head;
     fade_colors := fade;
     stats_drift_start_time := stats_drift_start_time w;
     drift_cycle_duration := drift_cycle_duration w;
     drift_margin := drift_margin w |}.

(** *** Construction *)

Definition base_colors : list (string * QColor) :=
  [("green", Rgba 0 255 0 255); ("red", Rgba 255 0 0 255);
   ("blue", Rgba 0 0 255 255); ("cyan", Rgba 0 255 255 255);
   ("magenta", Rgba 255 0 255 255); ("yellow", Rgba 255 255 0 255);
   ("white", Rgba 255 255 255 255)]%string.

(** [base_colors.get(name, base_colors['green'])] *)
Definition base_color (name : string) : QColor :=
  match find (fun entry => String.eqb (fst entry) name) base_colors with
  | Some entry => snd entry
  | None => Rgba 0 255 0 255
  end.

(** [setup_colors]: a white head and twenty fading copies of the
    primary colour. *)
Definition setup_colors (w : MatrixWidget) : MatrixWidget :=
  let primary := base_color (color (settings w)) in
  with_colors primary (Rgba 255 255 255 255)
    (map (fun i => setAlpha (Z.max 50 (255 - Z.of_nat i * 12)) primary)
         (seq 0 20))
    w.

(** The timer interval for a target frame rate: [int(1000 / target_fps)]
    when positive, 1 ms otherwise. *)
Definition fps_interval (target_fps : Z) : Z :=
  if (0 <? target_fps)%Z then int (1000 / float target_fps) else 1%Z.

Definition default_settings : Settings :=
  {| color := "green"; rainbow := false; target_fps := Some 10%Z;
     show_stats := Some true; stats_drift := Some true |}.

(** [MatrixWidget.__init__]; the clock readings are arguments. *)
Definition __init__ (usb_check_time drift_start_time : Q) : MatrixWidget :=
  setup_colors
    {| settings := default_settings;
       columns := [];
       timer_interval := fps_interval (get (target_fps default_settings) 60%Z);
       is_emergency_throttled := false;
       usb_interrupt_baseline := None;
       last_usb_check := usb_check_time;
       primary_color := Rgba 0 255 0 255;
       head_color := Rgba 255 255 255 255;
       fade_colors := [];
       stats_drift_start_time := drift_start_time;
       drift_cycle_duration := (8 * 60)%Z;
       drift_margin := 50%Z |}.

(** *** Rendering *)

(** One [painter.setPen(color); painter.drawText(x, y, char)] pair. *)
Record draw_text : Type :=
  { pen : QColor; text_x : Z; text_y : Z; text : string }.

(** [seq[k]] with Python's negative subscripts. *)
Definition item {A} (seq : list A) (k : Z) : result A :=
  let n := Z.of_nat (length seq) in
  let k := if (k <? 0)%Z then (k + n)%Z else k in
  if (k <? 0)%Z then Raise IndexError
  else match seq !! Z.to_nat k with
       | Some a => Ok a
       | None => Raise IndexError
       end.

(** "Determine color based on position in trail". *)
Definition trail_color (w : MatrixWidget) (base_hue : Q) (i : nat)
  : result QColor :=
  if (i =? 0)%nat then
    if rainbow (settings w)
    then Ok (fromHsv (int base_hue) 255 255)
    else Ok (head_color w)
  else
    if rainbow (settings w) then
      let hue := int (fmod (base_hue + float (Z.of_nat i * 30)) 360) in
      let brightness := Z.max 30 (255 - Z.of_nat i * 25) in
      Ok (fromHsv hue 255 brightness)
    else
      let fade_index :=
        Z.min (Z.of_nat i) (Z.of_nat (length (fade_colors w)) - 1) in
      item (fade_colors w) fade_index.

(** The loop of [draw_column] from index [i] on: the draw calls issued,
    and the exception that ended the loop early, if any. *)
Fixpoint draw_chars (w : MatrixWidget) (screen_height : Z) (base_hue : Q)
         (column_x : Z) (i : nat) (entries : list (string * Q * Z))
  : list draw_text * option exn :=
  match entries with
  | [] => ([], None)
  | (char, pos, age) :: rest =>
      if Qltb pos (-50) || Qltb (float screen_height + 50) pos then
        draw_chars w screen_height base_hue column_x (S i) rest
      else if (10 <? i)%nat then ([], None)
      else
        match trail_color w base_hue i with
        | Raise e => ([], Some e)
        | Ok color =>
            let '(calls, e) :=
              draw_chars w screen_height base_hue column_x (S i) rest in
            ({| pen := color; text_x := column_x; text_y := int pos;
                text := char |} :: calls, e)
        end
  end.

(** [zip(column.characters, column.char_positions, column.char_ages)] *)
Definition zip3 (column : MatrixColumn) : list (string * Q * Z) :=
  combine (combine (characters column) (char_positions column))
          (char_ages column).

(** [draw_column]; [screen_height] is [self.height()]. *)
Definition draw_column (current_time : Q) (screen_height : Z)
           (w : MatrixWidget) (column : MatrixColumn)
  : list draw_text * option exn :=
  let base_hue := fmod (current_time * 100 + float (x column)) 360 in
  draw_chars w screen_height base_hue (x column) 0 (zip3 column).

(** *** The emergency throttle *)

Definition check_emergency_cpu_throttle (psutil : option cpu_reading)
           (w : MatrixWidget) : MatrixWidget :=
  match psutil with
  | Some (CpuNumber cpu_percent) =>
      if Qltb emergency_cpu_threshold cpu_percent then
        if negb (is_emergency_throttled w)
        then with_throttle true 1000 w
        else w
      else
        if is_emergency_throttled w
        then with_throttle false
               (fps_interval (get (target_fps (settings w)) 15%Z)) w
        else w
  | _ => w
  end.

(** [check_and_adjust_fps] returns at once. *)
Definition check_and_adjust_fps (w : MatrixWidget) : MatrixWidget := w.

(** *** Statistics drift and activity polling *)

Definition calculate_drift_position (current_time : Q)
           (screen_width screen_height : Z) (w : MatrixWidget)
  : result (Z * Z) :=
  Drift.calculate_drift_position
    (get (stats_drift (settings w)) true)
    current_time (stats_drift_start_time w)
    (drift_cycle_duration w) (drift_margin w) screen_width screen_height.

(** [check_usb_activity]: the permissive variant. *)
Definition check_usb_activity (current_time : Q)
           (proc_interrupts : option string) (w : MatrixWidget)
  : MatrixWidget * list signal :=
  match proc_interrupts with
  | None =>
      let elapsed := current_time - last_usb_check w in
      if Qltb 5 elapsed then (with_last_usb_check current_time w, [])
      else (w, [])
  | Some content =>
      let total_interrupts := Interrupts.total_interrupts content in
      match usb_interrupt_baseline w with
      | None => (with_usb_interrupt_baseline (Some total_interrupts) w, [])
      | Some baseline =>
          let interrupt_diff := (total_interrupts - baseline)%Z in
          if (0 <? interrupt_diff)%Z then
            (with_usb_interrupt_baseline (Some total_interrupts) w,
             [exit_requested])
          else
            (with_usb_interrupt_baseline (Some total_interrupts) w, [])
      end
  end.

End Matrix.

(** ** Runs of a governor

    A periodic check is a step function on the widget driven by one sample
    per call.  [trace] lists the states after each call; [transitions a]
    counts the calls on which the watched flag leaves the value [a]. *)

Section Runs.
Context {S I : Type} (step : I -> S -> S) (flag : S -> bool).

Fixpoint trace (s : S) (inputs : list I) : list S :=
  match inputs with
  | [] => []
  | i :: rest => step i s :: trace (step i s) rest
  end.

Definition final (s : S) (inputs : list I) : S :=
  fold_left (fun s i => step i s) inputs s.

Fixpoint transitions (a : bool) (s : S) (inputs : list I) : nat :=
  match inputs with
  | [] => 0%nat
  | i :: rest =>
      ((if Bool.eqb (flag s) a && Bool.eqb (flag (step i s)) (negb a)
        then 1 else 0)
       + transitions a (step i s) rest)%nat
  end.

End Runs.

(** A load episode: a run of samples above the emergency threshold
    followed by a run of samples at or below it. *)
Definition episode : Type := (list Q * list Q)%type.

Definition hot (c : Q) : Prop := (90 < c)%Q.
Definition calm (c : Q) : Prop := (c <= 90)%Q.

Definition well_formed_episode (e : episode) : Prop :=
  fst e <> [] /\ snd e <> [] /\ Forall hot (fst e) /\ Forall calm (snd e).

Definition samples_of (episodes : list episode) : list Q :=
  concat (map (fun e => fst e ++ snd e) episodes).

(** The throttle checks driven by numeric CPU samples. *)
Definition mystify_throttle_step (c : Q) (w : Mystify.MystifyWidget)
  : Mystify.MystifyWidget :=
  Mystify.check_emergency_cpu_throttle (Some (Psutil.CpuNumber c)) w.

Definition matrix_throttle_step (c : Q) (w : Matrix.MatrixWidget)
  : Matrix.MatrixWidget :=
  Matrix.check_emergency_cpu_throttle (Some (Psutil.CpuNumber c)) w.

(** The range of the quality level. *)
Definition quality_in_range (q : Q) : Prop := (0.3 <= q /\ q <= 1.0)%Q.

(** The range of a hue. *)
Definition hue_in_range (h : Q) : Prop := (0 <= h /\ h < 360)%Q.

(** A shape with [n] control points and a velocity for each of them. *)
Definition points_and_velocities (n : nat) (shape : Mystify.Shape) : Prop :=
  length (Mystify.control_points shape) = n /\
  length (Mystify.velocities shape) = n.

(** The state in which the animation step finds the engine: at least one
    shape, a trail per shape, a velocity per control point. *)
Definition well_formed (w : Mystify.MystifyWidget) : Prop :=
  Mystify.shapes w <> [] /\
  length (Mystify.shape_trails w) = length (Mystify.shapes w) /\
  Forall (fun shape => length (Mystify.velocities shape)
                       = length (Mystify.control_points shape))
         (Mystify.shapes w).

Definition hues_in_range (shapes : list Mystify.Shape) : Prop :=
  Forall (fun shape => hue_in_range (Mystify.color_hue shape)) shapes.

(** Moving the control points of a shape keeps their number and the
    colour attributes. *)
Definition same_outline (shape shape1 : Mystify.Shape) : Prop :=
  length (Mystify.control_points shape1)
  = length (Mystify.control_points shape) /\
  length (Mystify.velocities shape1) = length (Mystify.velocities shape) /\
  Mystify.color_hue shape1 = Mystify.color_hue shape /\
  Mystify.color_shift shape1 = Mystify.color_shift shape.

(** The effect of the loop over the shapes: the widget changes in
    [shapes] and [shape_trails] only, the two lists keep their lengths,
    and hues that were in [0, 360) stay there. *)
Definition step_of (w w1 : Mystify.MystifyWidget) : Prop :=
  exists shapes1 trails1,
    w1 = Mystify.with_shapes shapes1 trails1 w /\
    length shapes1 = length (Mystify.shapes w) /\
    length trails1 = length (Mystify.shape_trails w) /\
    (hues_in_range (Mystify.shapes w) -> hues_in_range shapes1).

(** [n] animation steps in a row on a screen of the given size. *)
Fixpoint animate (n : nat) (width height : Z) (w : Mystify.MystifyWidget)
  : Random.M Mystify.MystifyWidget :=
  match n with
  | O => Random.ret w
  | S k =>
      let* w := Mystify._update_shape_animations width height w in
      animate k width height w
  end.

(** ** Concrete inputs *)

Module Sample.
Import Py Qt.
Local Open Scope string_scope.

Definition nl : string := String "010" EmptyString.

(** A small interrupt table: one USB host-controller line, one line of
    an unrelated device and one keyboard line. *)
Definition table : string :=
  "           CPU0       CPU1" ++ nl ++
  " 11:       1234          5     GICv2  65 Level     xhci-hcd:usb1" ++ nl ++
  " 12:        100          0     GICv2  66 Level     mmc0" ++ nl ++
  " 13:         10         20     GICv2  67 Edge      i8042 Keyboard" ++ nl.

Definition settings : Mystify.Settings :=
  {| Mystify.mystify_shapes := Some 3; Mystify.mystify_trail_length := None;
     Mystify.mystify_complexity := Some 6; Mystify.mystify_speed := None;
     Mystify.fps_key := None; Mystify.target_fps := Some 15;
     Mystify.show_stats := None; Mystify.stats_drift := None;
     Mystify.power_saving_mode := None; Mystify.energy_efficient := None |}.

(** An entropy source whose raw integers are all 360. *)
Definition rng360 : Random.rng :=
  {| Random.draws := fun _ => 360; Random.cursor := 0 |}.

Definition triangle : Mystify.Shape :=
  {| Mystify.control_points :=
       [ {| px := 100; py := 100 |}; {| px := 300; py := 120 |};
         {| px := 200; py := 400 |} ];
     Mystify.velocities :=
       [ {| px := 2; py := -1 |}; {| px := -2; py := 1 |};
         {| px := 1; py := 2 |} ];
     Mystify.control_velocities :=
       [ {| px := 1; py := 1 |}; {| px := 1; py := 1 |};
         {| px := 1; py := 1 |} ];
     Mystify.color_hue := 120; Mystify.color_shift := 1.5;
     Mystify.size_factor := 0.2; Mystify.curve_tension := 0.5 |}.

(** A curve-engine widget with three shapes, a full trail of 50 curves
    for each and the given quality level. *)
Definition mystify (quality : Q) : Mystify.MystifyWidget :=
  {| Mystify.settings := settings;
     Mystify.num_shapes := 3; Mystify.trail_length := 50;
     Mystify.shape_complexity := 6; Mystify.speed := 2;
     Mystify.shapes := [triangle; triangle; triangle];
     Mystify.shape_trails := [repeat [] 50; repeat [] 50; repeat [] 50];
     Mystify.timer_interval := 66;
     Mystify.usb_interrupt_baseline := None;
     Mystify.screensaver_start_time := 0;
     Mystify.frame_count := 0; Mystify.frame_times := [0.03%Q; 0.03%Q];
     Mystify.is_emergency_throttled := false;
     Mystify.quality_level := quality;
     Mystify.frame_skip_ratio := 1;
     Mystify.last_activity_check := None;
     Mystify.stats_drift_start_time := 0;
     Mystify.drift_cycle_duration := 480;
     Mystify.drift_margin := 50 |}.

(** Telemetry of a busy machine: CPU above the adaptive threshold and
    below the emergency one, memory low. *)
Definition busy : Psutil.sample :=
  {| Psutil.cpu_percent := Psutil.CpuNumber 50;
     Psutil.memory_percent := 10 |}.

(** One shape with a configured trail length of 10. *)
Definition short_trail : Mystify.Settings :=
  {| Mystify.mystify_shapes := Some 1;
     Mystify.mystify_trail_length := Some 10;
     Mystify.mystify_complexity := Some 6; Mystify.mystify_speed := None;
     Mystify.fps_key := None; Mystify.target_fps := Some 15;
     Mystify.show_stats := None; Mystify.stats_drift := None;
     Mystify.power_saving_mode := None; Mystify.energy_efficient := None |}.

(** A session on a 1920 by 1080 screen: construction, ten animation
    steps at full quality, one adaptive adjustment on a busy machine,
    one more animation step.  The result is the widget before the
    adjustment and the widget at the end. *)
Definition quality_drop
  : Random.M (Mystify.MystifyWidget * Mystify.MystifyWidget) :=
  let* w := Mystify.__init__ short_trail 0 0 1920 1080 in
  let* full := animate 10 1920 1080 w in
  let* after :=
    Mystify._update_shape_animations
      1920 1080
      (Mystify.adaptive_performance_adjustment (Some busy) full) in
  Random.ret (full, after).

(** Two load episodes. *)
Definition episodes : list episode :=
  [ ([95%Q; 99%Q], [50%Q]); ([91%Q], [90%Q; 10%Q]) ].

Definition column : Matrix.MatrixColumn :=
  {| Matrix.x := 40; Matrix.screen_height := 1080; Matrix.char_height := 20;
     Matrix.characters := ["A"; "B"; "C"; "D"];
     Matrix.char_positions := [1100%Q; 1080%Q; 20%Q; (-60)%Q];
     Matrix.char_ages := [0; 1; 2; 3];
     Matrix.head_position := 1100; Matrix.speed := 1;
     Matrix.length_ := 4 |}.

(** The rain-engine widget as constructed, with one column. *)
Definition matrix : Matrix.MatrixWidget :=
  let w := Matrix.__init__ 0 0 in
  {| Matrix.settings := Matrix.settings w;
     Matrix.columns := [column];
     Matrix.timer_interval := Matrix.timer_interval w;
     Matrix.is_emergency_throttled := Matrix.is_emergency_throttled w;
     Matrix.usb_interrupt_baseline := Matrix.usb_interrupt_baseline w;
     Matrix.last_usb_check := Matrix.last_usb_check w;
     Matrix.primary_color := Matrix.primary_color w;
     Matrix.head_color := Matrix.head_color w;
     Matrix.fade_colors := Matrix.fade_colors w;
     Matrix.stats_drift_start_time := Matrix.stats_drift_start_time w;
     Matrix.drift_cycle_duration := Matrix.drift_cycle_duration w;
     Matrix.drift_margin := Matrix.drift_margin w |}.

End Sample.

(** ** The animation tick of the curve engine

    [update_animation] and the helpers it calls that are not modelled
    above.  The attributes they read and write beside those of
    [Mystify.MystifyWidget] are the other fields of [Ticking]; both
    records together are the one widget object of the source.
    [_update_debug_info] only logs and is left out. *)

Module MystifyTick.
Import Py Qt Random Psutil.
Local Open Scope Q_scope.

(** The readings taken by [_update_stats_display]: the system CPU and
    memory, and the values of the two process expressions (0.0 when
    [psutil] reports no process). *)
Record stats_sample : Type :=
  { stats_cpu : cpu_reading;
    stats_memory_percent : Q;
    process_cpu : Q;
    process_memory_mb : Q }.

Record Ticking : Type :=
  { core : Mystify.MystifyWidget;
    last_update : Q;
    last_emergency_check : Q;
    last_performance_check : Q;
    skip_frame_counter : Z;
    fps : Z;
    last_fps_update : Q;
    stats_cpu_samples : list Q;
    displayed_cpu : Q;
    displayed_memory : Z;
    displayed_process_cpu : Q;
    displayed_process_memory : Q;
    last_stats_update : Q }.

(** Attributes assigned once in [__init__]. *)
Definition emergency_check_interval : Q := 2.0.
Definition performance_check_interval : Q := 5.0.

(** [a >= b] on floats. *)
Definition Qgeb (a b : Q) : bool := Qle_bool b a.

Definition with_core (c : Mystify.MystifyWidget) (t : Ticking) : Ticking :=
  {| core := c; last_update := last_update t;
     last_emergency_check := last_emergency_check t;
     last_performance_check := last_performance_check t;
     skip_frame_counter := skip_frame_counter t;
     fps := fps t; last_fps_update := last_fps_update t;
     stats_cpu_samples := stats_cpu_samples t;
     displayed_cpu := displayed_cpu t;
     displayed_memory := displayed_memory t;
     displayed_process_cpu := displayed_process_cpu t;
     displayed_process_memory := displayed_process_memory t;
     last_stats_update := last_stats_update t |}.

Definition with_frame_count (v : Z) (w : Mystify.MystifyWidget)
  : Mystify.MystifyWidget :=
  {| Mystify.settings := Mystify.settings w;
     Mystify.num_shapes := Mystify.num_shapes w;
     Mystify.trail_length := Mystify.trail_length w;
     Mystify.shape_complexity := Mystify.shape_complexity w;
     Mystify.speed := Mystify.speed w;
     Mystify.shapes := Mystify.shapes w;
     Mystify.shape_trails := Mystify.shape_trails w;
     Mystify.timer_interval := Mystify.timer_interval w;
     Mystify.usb_interrupt_baseline := Mystify.usb_interrupt_baseline w;
     Mystify.screensaver_start_time := Mystify.screensaver_start_time w;
     Mystify.frame_count := v;
     Mystify.frame_times := Mystify.frame_times w;
     Mystify.is_emergency_throttled := Mystify.is_emergency_throttled w;
     Mystify.quality_level := Mystify.quality_level w;
     Mystify.frame_skip_ratio := Mystify.frame_skip_ratio w;
     Mystify.last_activity_check := Mystify.last_activity_check w;
     Mystify.stats_drift_start_time := Mystify.stats_drift_start_time w;
     Mystify.drift_cycle_duration := Mystify.drift_cycle_duration w;
     Mystify.drift_margin := Mystify.drift_margin w |}.

Definition with_frame_times (v : list Q) (w : Mystify.MystifyWidget)
  : Mystify.MystifyWidget :=
  {| Mystify.settings := Mystify.settings w;
     Mystify.num_shapes := Mystify.num_shapes w;
     Mystify.trail_length := Mystify.trail_length w;
     Mystify.shape_complexity := Mystify.shape_complexity w;
     Mystify.speed := Mystify.speed w;
     Mystify.shapes := Mystify.shapes w;
     Mystify.shape_trails := Mystify.shape_trails w;
     Mystify.timer_interval := Mystify.timer_interval w;
     Mystify.usb_interrupt_baseline := Mystify.usb_interrupt_baseline w;
     Mystify.screensaver_start_time := Mystify.screensaver_start_time w;
     Mystify.frame_count := Mystify.frame_count w;
     Mystify.frame_times := v;
     Mystify.is_emergency_throttled := Mystify.is_emergency_throttled w;
     Mystify.quality_level := Mystify.quality_level w;
     Mystify.frame_skip_ratio := Mystify.frame_skip_ratio w;
     Mystify.last_activity_check := Mystify.last_activity_check w;
     Mystify.stats_drift_start_time := Mystify.stats_drift_start_time w;
     Mystify.drift_cycle_duration := Mystify.drift_cycle_duration w;
     Mystify.drift_margin := Mystify.drift_margin w |}.

(** "Track frame timing for adaptive quality": append the frame time
    and, when more than 60 are held, [pop(0)]. *)
Definition record_frame_time (delta_time : Q) (frame_times : list Q)
  : list Q :=
  let frame_times := frame_times ++ [delta_time] in
  if (60 <? length frame_times)%nat then tail frame_times else frame_times.

(** [samples[-10:]] *)
Definition last_ten (samples : list Q) : list Q :=
  skipn (length samples - 10) samples.

(** "Add to CPU samples for averaging" and "Keep only last 10 samples",
    as in [_update_stats_display] and in [MatrixWidget.draw_fps]. *)
Definition record_cpu_sample (cpu_percent : Q) (samples : list Q) : list Q :=
  let samples := samples ++ [cpu_percent] in
  if (10 <? length samples)%nat then last_ten samples else samples.

(** [_update_stats_display]; [psutil] is [None] when the import fails. *)
Definition _update_stats_display (current_time : Q)
           (psutil : option stats_sample) (t : Ticking) : Ticking :=
  if negb (Mystify.get (Mystify.show_stats (Mystify.settings (core t))) false)
  then t
  else
    match psutil with
    | None => t
    | Some readings =>
        if Qgeb (current_time - last_stats_update t) 1.0 then
          let cpu_percent :=
            match stats_cpu readings with
            | CpuNumber c => c
            | _ => 0.0
            end in
          let samples := record_cpu_sample cpu_percent (stats_cpu_samples t) in
          {| core := core t; last_update := last_update t;
             last_emergency_check := last_emergency_check t;
             last_performance_check := last_performance_check t;
             skip_frame_counter := skip_frame_counter t;
             fps := fps t; last_fps_update := last_fps_update t;
             stats_cpu_samples := samples;
             displayed_cpu :=
               match samples with
               | [] => displayed_cpu t
               | _ => mean samples
               end;
             displayed_memory := int (stats_memory_percent readings);
             displayed_process_cpu := process_cpu readings;
             displayed_process_memory := process_memory_mb readings;
             last_stats_update := current_time |}
        else t
    end.

(** [_update_performance_tracking] *)
Definition _update_performance_tracking (current_time : Q) (t : Ticking)
  : Ticking :=
  let frame_count := (Mystify.frame_count (core t) + 1)%Z in
  if Qgeb (current_time - last_fps_update t) 1.0 then
    {| core := with_frame_count 0 (core t); last_update := last_update t;
       last_emergency_check := last_emergency_check t;
       last_performance_check := last_performance_check t;
       skip_frame_counter := skip_frame_counter t;
       fps := frame_count; last_fps_update := current_time;
       stats_cpu_samples := stats_cpu_samples t;
       displayed_cpu := displayed_cpu t;
       displayed_memory := displayed_memory t;
       displayed_process_cpu := displayed_process_cpu t;
       displayed_process_memory := displayed_process_memory t;
       last_stats_update := last_stats_update t |}
  else with_core (with_frame_count frame_count (core t)) t.

(** What one call of [update_animation] reads from outside: the clock,
    the three [psutil] readings (each used only if its check is due) and
    the geometry of the primary screen. *)
Record tick_input : Type :=
  { current_time : Q;
    emergency_reading : option cpu_reading;
    adaptive_reading : option sample;
    stats_reading : option stats_sample;
    screen_width : Z;
    screen_height : Z }.

(** The part of [update_animation] before the frame-skip test: clocks,
    emergency check, frame-time window, adaptive adjustment. *)
Definition begin_tick (i : tick_input) (t : Ticking) : Ticking :=
  let delta_time := current_time i - last_update t in
  let emergency_due :=
    Qgeb (current_time i - last_emergency_check t) emergency_check_interval in
  let c := core t in
  let c :=
    if emergency_due
    then Mystify.check_emergency_cpu_throttle (emergency_reading i) c
    else c in
  let c :=
    with_frame_times (record_frame_time delta_time (Mystify.frame_times c)) c in
  let adaptive_due :=
    Qgeb (current_time i - last_performance_check t)
         performance_check_interval in
  let c :=
    if adaptive_due
    then Mystify.adaptive_performance_adjustment (adaptive_reading i) c
    else c in
  {| core := c; last_update := current_time i;
     last_emergency_check :=
       if emergency_due then current_time i else last_emergency_check t;
     last_performance_check :=
       if adaptive_due then current_time i else last_performance_check t;
     skip_frame_counter := (skip_frame_counter t + 1)%Z;
     fps := fps t; last_fps_update := last_fps_update t;
     stats_cpu_samples := stats_cpu_samples t;
     displayed_cpu := displayed_cpu t;
     displayed_memory := displayed_memory t;
     displayed_process_cpu := displayed_process_cpu t;
     displayed_process_memory := displayed_process_memory t;
     last_stats_update := last_stats_update t |}.

(** [update_animation]; the boolean tells whether [self.update()]
    requested a repaint. *)
Definition update_animation (i : tick_input) (t : Ticking)
  : M (Ticking * bool) :=
  let t := begin_tick i t in
  let '(skip, c) :=
    Mystify._apply_performance_optimizations (current_time i) (core t) in
  let t := with_core c t in
  if skip then ret (t, false)
  else
    let t := _update_stats_display (current_time i) (stats_reading i) t in
    let* c :=
      Mystify._update_shape_animations (screen_width i) (screen_height i)
                                       (core t) in
    let t := with_core c t in
    ret (_update_performance_tracking (current_time i) t, true).

End MystifyTick.


(** ** Painting the curves

    [get_shape_color] and the loop "Draw each shape's trail" of
    [MystifyWidget.paintEvent].  The statistics text drawn after the loop
    is not modelled. *)

Module MystifyPaint.
Import Py Qt.
Local Open Scope Q_scope.

(** A colour with its alpha channel. *)
Inductive color : Type :=
| Hsva (h s v a : Z)
| Rgb_alpha (r g b a : Z).

(** The attributes and settings that choose the colours: [color_mode],
    the red, green and blue of [primary_color] and [secondary_color],
    Qt's [primary_color.hue()], and [settings.get('mystify_fill', False)]. *)
Record Palette : Type :=
  { color_mode : string;
    primary_color : Z * Z * Z;
    secondary_color : Z * Z * Z;
    primary_hue : Z;
    mystify_fill : bool }.

Definition alpha_of (c : color) : Z :=
  match c with
  | Hsva _ _ _ a => a
  | Rgb_alpha _ _ _ a => a
  end.

(** [QColor(c)] followed by [setAlpha(a)]. *)
Definition with_alpha (c : Z * Z * Z) (a : Z) : color :=
  let '(r, g, b) := c in Rgb_alpha r g b a.

(** [max(50, min(255, int(255 * (1 - age_factor))))] *)
Definition base_alpha (age_factor : Q) : Z :=
  Z.max 50 (Z.min 255 (int (255 * (1 - age_factor)))).

(** [get_shape_color] *)
Definition get_shape_color (p : Palette) (shape : Mystify.Shape)
           (age_factor : Q) : color :=
  let alpha := base_alpha age_factor in
  if String.eqb (color_mode p) "rainbow" then
    Hsva (int (Mystify.color_hue shape)) 255 255 alpha
  else if String.eqb (color_mode p) "single" then
    Hsva (primary_hue p) 255 255 alpha
  else
    if Qltb (fmod (Mystify.color_hue shape) 60) 30
    then with_alpha (primary_color p) alpha
    else with_alpha (secondary_color p) alpha.

(** One [painter.drawPath] with its pen, and the fill that follows it
    when filling is on: the colour and the value given to [setAlphaF]. *)
Record draw_path : Type :=
  { pen_color : color;
    pen_width : Z;
    path : QPainterPath;
    fill : option (color * Q) }.

(** The number of trail entries the loop may visit. *)
Definition trail_segments (trail_len : nat) (quality_level : Q) : Z :=
  let min_segments := Z.max 3 (Z.of_nat trail_len / 4) in
  Z.max min_segments (int (float (Z.of_nat trail_len) * quality_level)).

(** [fade_factor = j / len(trail)] *)
Definition fade_factor (trail_len j : nat) : Q :=
  float (Z.of_nat j) / float (Z.of_nat trail_len).

(** [pen_width = max(1, int(3 * fade_factor))] *)
Definition stroke_width (fade : Q) : Z := Z.max 1 (int (3 * fade)).

(** Body of [for j in range(trail_segments)] for the entry [trail[j]].
    [isEmpty] is Qt's [QPainterPath.isEmpty]. *)
Definition draw_curve (isEmpty : QPainterPath -> bool)
           (p : Palette) (shape : Mystify.Shape)
           (trail_len : nat) (j : nat) (curve_path : QPainterPath)
  : list draw_path :=
  if isEmpty curve_path then []
  else
    let fade := fade_factor trail_len j in
    let color := get_shape_color p shape fade in
    [ {| pen_color := color;
         pen_width := stroke_width fade;
         path := curve_path;
         fill := if mystify_fill p then Some (color, fade * 0.2) else None |} ].

(** The inner loop from index [j] on, over the entries from [j] on;
    [budget] is what is left of [range(trail_segments)].  The loop ends
    at the end of the range or of the trail. *)
Fixpoint draw_trail_from (isEmpty : QPainterPath -> bool)
         (p : Palette) (shape : Mystify.Shape)
         (trail_len : nat) (budget : nat) (j : nat)
         (entries : list QPainterPath) : list draw_path :=
  match budget, entries with
  | S budget', curve_path :: rest =>
      draw_curve isEmpty p shape trail_len j curve_path
      ++ draw_trail_from isEmpty p shape trail_len budget' (S j) rest
  | _, _ => []
  end.

(** What the loop draws for one shape and its trail. *)
Definition draw_trail (isEmpty : QPainterPath -> bool)
           (p : Palette) (quality_level : Q)
           (shape : Mystify.Shape) (trail : list QPainterPath)
  : list draw_path :=
  if (length trail <? 2)%nat then []
  else
    draw_trail_from isEmpty p shape (length trail)
                    (Z.to_nat (trail_segments (length trail) quality_level))
                    0 trail.

(** The loop over the shapes: the calls issued and the exception that
    ended it early, if any ([shape_trails[i]] out of range). *)
Fixpoint draw_shapes (isEmpty : QPainterPath -> bool)
         (p : Palette) (quality_level : Q)
         (shapes : list Mystify.Shape) (trails : list (list QPainterPath))
  : list draw_path * option exn :=
  match shapes with
  | [] => ([], None)
  | shape :: shapes' =>
      match trails with
      | [] => ([], Some IndexError)
      | trail :: trails' =>
          let '(calls, e) :=
            draw_shapes isEmpty p quality_level shapes' trails' in
          (draw_trail isEmpty p quality_level shape trail ++ calls, e)
      end
  end.

(** The shape part of [paintEvent]: whether antialiasing is switched
    on, and the drawing calls. *)
Definition paint_shapes (isEmpty : QPainterPath -> bool)
           (p : Palette) (w : Mystify.MystifyWidget)
  : bool * (list draw_path * option exn) :=
  (Qltb 0.7 (Mystify.quality_level w),
   draw_shapes isEmpty p (Mystify.quality_level w)
               (Mystify.shapes w) (Mystify.shape_trails w)).

End MystifyPaint.


(** ** The columns of the rain engine

    The methods of [MatrixColumn] and the loops of [MatrixWidget] that
    create and advance the columns.  [Column] adds to
    [Matrix.MatrixColumn] the attributes that these methods use and
    [draw_column] does not. *)

Module Rain.
Import Py Qt Random.
Local Open Scope Q_scope.

Record Column : Type :=
  { base : Matrix.MatrixColumn;
    max_chars : Z;
    use_katakana : bool;
    last_update : Q;
    update_interval : Z }.

(** [random.choice(seq)] *)
Definition choice {A} (seq : list A) : M A :=
  match seq with
  | [] => raise IndexError
  | d :: _ =>
      let* r := randbelow (Z.of_nat (length seq)) in
      ret (nth (Z.to_nat r) seq d)
  end.

(** The two glyph sets of [get_character_set], one string per character,
    as the source file spells them. *)
Definition katakana_set : list string :=
  [ "Ô"; "Ω"; "±"; "Ô"; "Ω"; "≤"; "Ô"; "Ω"; "≥"; "Ô"; "Ω"; "¥";
    "Ô"; "Ω"; "µ"; "Ô"; "Ω"; "∂"; "Ô"; "Ω"; "∑"; "Ô"; "Ω"; "∏";
    "Ô"; "Ω"; "π"; "Ô"; "Ω"; "∫"; "Ô"; "Ω"; "ª"; "Ô"; "Ω"; "º";
    "Ô"; "Ω"; "Ω"; "Ô"; "Ω"; "æ"; "Ô"; "Ω"; "ø"; "Ô"; "æ"; "Ä";
    "Ô"; "æ"; "Å"; "Ô"; "æ"; "Ç"; "Ô"; "æ"; "É"; "Ô"; "æ"; "Ñ";
    "Ô"; "æ"; "Ö"; "Ô"; "æ"; "Ü"; "Ô"; "æ"; "á"; "Ô"; "æ"; "à";
    "Ô"; "æ"; "â"; "Ô"; "æ"; "ä"; "Ô"; "æ"; "ã"; "Ô"; "æ"; "å";
    "Ô"; "æ"; "ç"; "Ô"; "æ"; "é"; "Ô"; "æ"; "è"; "Ô"; "æ"; "ê";
    "Ô"; "æ"; "ë"; "Ô"; "æ"; "í"; "Ô"; "æ"; "ì"; "Ô"; "æ"; "î";
    "Ô"; "æ"; "ï"; "Ô"; "æ"; "ñ"; "Ô"; "æ"; "ó"; "Ô"; "æ"; "ò";
    "Ô"; "æ"; "ô"; "Ô"; "æ"; "ö"; "Ô"; "æ"; "õ"; "Ô"; "æ"; "ú";
    "Ô"; "Ω"; "¶"; "Ô"; "æ"; "ù"; "0"; "1"; "2"; "3"; "4"; "5";
    "6"; "7"; "8"; "9"; "A"; "B"; "C"; "D"; "E"; "F"; "G"; "H";
    "I"; "J"; "K"; "L"; "M"; "N"; "O"; "P"; "Q"; "R"; "S"; "T";
    "U"; "V"; "W"; "X"; "Y"; "Z" ]%string.

Definition plain_set : list string :=
  [ "0"; "1"; "2"; "3"; "4"; "5"; "6"; "7"; "8"; "9"; "A"; "B";
    "C"; "D"; "E"; "F"; "G"; "H"; "I"; "J"; "K"; "L"; "M"; "N";
    "O"; "P"; "Q"; "R"; "S"; "T"; "U"; "V"; "W"; "X"; "Y"; "Z";
    "!"; "@"; "#"; "$"; "%"; "^"; "&"; "*"; "("; ")"; "_"; "+";
    "-"; "="; "["; "]"; "{"; "}"; "|"; ";"; ":"; ","; "."; "<";
    ">"; "?" ]%string.

Definition get_character_set (c : Column) : list string :=
  if use_katakana c then katakana_set else plain_set.

(** The attributes that [reset_column] assigns. *)
Definition with_drop (head : Q) (speed : Q) (length : Z)
           (characters : list string) (positions : list Q) (ages : list Z)
           (c : Column) : Column :=
  {| base :=
       {| Matrix.x := Matrix.x (base c);
          Matrix.screen_height := Matrix.screen_height (base c);
          Matrix.char_height := Matrix.char_height (base c);
          Matrix.characters := characters;
          Matrix.char_positions := positions;
          Matrix.char_ages := ages;
          Matrix.head_position := head;
          Matrix.speed := speed;
          Matrix.length_ := length |};
     max_chars := max_chars c; use_katakana := use_katakana c;
     last_update := last_update c; update_interval := update_interval c |}.

(** Body of the loop of [reset_column]: one more character with its
    position and age. *)
Definition add_character (head : Z) (char_height : Z)
           (matrix_chars : list string) (i : nat)
           (acc : list string * list Q * list Z)
  : M (list string * list Q * list Z) :=
  let '(characters, positions, ages) := acc in
  let* char := choice matrix_chars in
  let pos := (head - Z.of_nat i * char_height)%Z in
  let age := Z.of_nat i in
  ret (characters ++ [char], positions ++ [float pos], ages ++ [age]).

(** [MatrixColumn.reset_column] *)
Definition reset_column (c : Column) : M Column :=
  let* head := randint (-100) (-20) in
  let* speed := uniform 0.3 1.5 in
  let* length := randint 3 15 in
  let matrix_chars := get_character_set c in
  let* acc :=
    for_each (range length)
             (add_character head (Matrix.char_height (base c)) matrix_chars)
             ([], [], []) in
  let '(characters, positions, ages) := acc in
  ret (with_drop (float head) speed length characters positions ages c).

(** [MatrixColumn.__init__] *)
Definition new_column (x screen_height char_height : Z) (katakana : bool)
  : M Column :=
  if (char_height =? 0)%Z then raise ZeroDivisionError
  else
    let* speed := uniform 0.3 1.5 in
    let* length := randint 3 15 in
    let* update_interval := randint 100 250 in
    reset_column
      {| base :=
           {| Matrix.x := x; Matrix.screen_height := screen_height;
              Matrix.char_height := char_height;
              Matrix.characters := []; Matrix.char_positions := [];
              Matrix.char_ages := [];
              Matrix.head_position := -50;
              Matrix.speed := speed; Matrix.length_ := length |};
         max_chars := (screen_height / char_height + 5)%Z;
         use_katakana := katakana;
         last_update := 0;
         update_interval := update_interval |}.

(** Body of the loop of [update] over [range(len(self.char_positions))]:
    the entry [i] moves and ages, and its character is redrawn with
    probability 0.02. *)
Definition advance_character (movement : Q) (matrix_chars : list string)
           (i : nat) (acc : list string * list Q * list Z)
  : M (list string * list Q * list Z) :=
  let '(characters, positions, ages) := acc in
  match positions !! i, ages !! i with
  | Some pos, Some age =>
      let positions := <[i := pos + movement]> positions in
      let ages := <[i := (age + 1)%Z]> ages in
      let* u := random in
      if Qltb u 0.02 then
        let* char := choice matrix_chars in
        if (i <? length characters)%nat
        then ret (<[i := char]> characters, positions, ages)
        else raise IndexError
      else ret (characters, positions, ages)
  | _, _ => raise IndexError
  end.

(** [MatrixColumn.update]; [now] is the reading of [time.time()].  The
    result tells whether the column needs a reset. *)
Definition update (now : Q) (delta_time : Q) (c : Column) : M (bool * Column) :=
  let current_time := now * 1000 in
  if Qltb (current_time - last_update c) (float (update_interval c))
  then ret (false, c)
  else
    let movement := Matrix.speed (base c) * delta_time * 60 in
    let head := Matrix.head_position (base c) + movement in
    let* acc :=
      for_each (seq 0 (length (Matrix.char_positions (base c))))
               (advance_character movement (get_character_set c))
               (Matrix.characters (base c), Matrix.char_positions (base c),
                Matrix.char_ages (base c)) in
    let '(characters, positions, ages) := acc in
    let c :=
      {| base :=
           {| Matrix.x := Matrix.x (base c);
              Matrix.screen_height := Matrix.screen_height (base c);
              Matrix.char_height := Matrix.char_height (base c);
              Matrix.characters := characters;
              Matrix.char_positions := positions;
              Matrix.char_ages := ages;
              Matrix.head_position := head;
              Matrix.speed := Matrix.speed (base c);
              Matrix.length_ := Matrix.length_ (base c) |};
         max_chars := max_chars c; use_katakana := use_katakana c;
         last_update := current_time;
         update_interval := update_interval c |} in
    ret (Qltb (float (Matrix.screen_height (base c)) + 100) head, c).

(** Body of "Batch update all columns" in [MatrixWidget.update_animation]:
    [if column.update(delta_time): column.reset_column()]. *)
Definition update_column (now : Q) (delta_time : Q) (c : Column) : M Column :=
  let* r := update now delta_time c in
  if fst r then reset_column (snd r) else ret (snd r).

(** The loop over [self.columns]; [clock i] is the reading of
    [time.time()] in the call for column [i]. *)
Fixpoint update_columns (clock : nat -> Q) (delta_time : Q) (i : nat)
         (columns : list Column) : M (list Column) :=
  match columns with
  | [] => ret []
  | c :: rest =>
      let* c := update_column (clock i) delta_time c in
      let* rest := update_columns clock delta_time (S i) rest in
      ret (c :: rest)
  end.

(** Body of the loop of [setup_columns]. *)
Definition add_column (height char_height : Z) (katakana : bool)
           (column_spacing : Q) (i : nat) (columns : list Column)
  : M (list Column) :=
  let x := int (float (Z.of_nat i) * column_spacing) in
  let* column := new_column x height char_height katakana in
  let* stagger := randint 0 height in
  let b := base column in
  ret (columns ++
       [ {| base :=
              {| Matrix.x := Matrix.x b;
                 Matrix.screen_height := Matrix.screen_height b;
                 Matrix.char_height := Matrix.char_height b;
                 Matrix.characters := Matrix.characters b;
                 Matrix.char_positions := Matrix.char_positions b;
                 Matrix.char_ages := Matrix.char_ages b;
                 Matrix.head_position := Matrix.head_position b - float stagger;
                 Matrix.speed := Matrix.speed b;
                 Matrix.length_ := Matrix.length_ b |};
            max_chars := max_chars column;
            use_katakana := use_katakana column;
            last_update := last_update column;
            update_interval := update_interval column |} ]).

(** [num_columns = max(20, max_columns // 2)] *)
Definition num_columns (width char_width : Z) : Z :=
  Z.max 20 ((width / char_width) / 2).

(** [setup_columns]; [width] and [height] are the size of the widget,
    [char_width] and [char_height] the metrics of the font, and
    [katakana] the value of [settings.get('use_katakana', True)].
    On a widget without area the columns stay as they are. *)
Definition setup_columns (width height char_width char_height : Z)
           (katakana : bool) (columns : list Column) : M (list Column) :=
  if (width <=? 0)%Z || (height <=? 0)%Z then ret columns
  else if (char_width =? 0)%Z then raise ZeroDivisionError
  else
    let column_spacing :=
      float width / float (num_columns width char_width) in
    for_each (range (num_columns width char_width))
             (add_column height char_height katakana column_spacing) [].

End Rain.


(** ** Settings updates and input events of the rain engine *)

Module MatrixEvents.
Import Py Qt.
Local Open Scope Q_scope.

(** The dictionary passed to [update_settings], as far as it holds keys
    of [Matrix.Settings]: [None] is a key that the dictionary lacks. *)
Record SettingsUpdate : Type :=
  { new_color : option string;
    new_rainbow : option bool;
    new_target_fps : option Z;
    new_show_stats : option bool;
    new_stats_drift : option bool }.

(** [self.settings.update(settings)] *)
Definition merge (new : SettingsUpdate) (s : Matrix.Settings)
  : Matrix.Settings :=
  {| Matrix.color := default (Matrix.color s) (new_color new);
     Matrix.rainbow := default (Matrix.rainbow s) (new_rainbow new);
     Matrix.target_fps :=
       match new_target_fps new with
       | Some v => Some v
       | None => Matrix.target_fps s
       end;
     Matrix.show_stats :=
       match new_show_stats new with
       | Some v => Some v
       | None => Matrix.show_stats s
       end;
     Matrix.stats_drift :=
       match new_stats_drift new with
       | Some v => Some v
       | None => Matrix.stats_drift s
       end |}.

Definition with_settings (s : Matrix.Settings) (w : Matrix.MatrixWidget)
  : Matrix.MatrixWidget :=
  {| Matrix.settings := s; Matrix.columns := Matrix.columns w;
     Matrix.timer_interval := Matrix.timer_interval w;
     Matrix.is_emergency_throttled := Matrix.is_emergency_throttled w;
     Matrix.usb_interrupt_baseline := Matrix.usb_interrupt_baseline w;
     Matrix.last_usb_check := Matrix.last_usb_check w;
     Matrix.primary_color := Matrix.primary_color w;
     Matrix.head_color := Matrix.head_color w;
     Matrix.fade_colors := Matrix.fade_colors w;
     Matrix.stats_drift_start_time := Matrix.stats_drift_start_time w;
     Matrix.drift_cycle_duration := Matrix.drift_cycle_duration w;
     Matrix.drift_margin := Matrix.drift_margin w |}.

(** [column.speed *= speed_factor] *)
Definition scale_speed (speed_factor : Q) (c : Matrix.MatrixColumn)
  : Matrix.MatrixColumn :=
  {| Matrix.x := Matrix.x c;
     Matrix.screen_height := Matrix.screen_height c;
     Matrix.char_height := Matrix.char_height c;
     Matrix.characters := Matrix.characters c;
     Matrix.char_positions := Matrix.char_positions c;
     Matrix.char_ages := Matrix.char_ages c;
     Matrix.head_position := Matrix.head_position c;
     Matrix.speed := Matrix.speed c * speed_factor;
     Matrix.length_ := Matrix.length_ c |}.

(** [update_settings].  [speed] is [self.settings['speed']] after the
    merge; the font attributes that the method also sets are not
    modelled. *)
Definition update_settings (new : SettingsUpdate) (speed : Z)
           (w : Matrix.MatrixWidget) : Matrix.MatrixWidget :=
  let w := Matrix.setup_colors (with_settings (merge new (Matrix.settings w)) w) in
  let interval :=
    Matrix.fps_interval
      (Matrix.get (Matrix.target_fps (Matrix.settings w)) 60%Z) in
  let speed_factor := float speed / 25.0 in
  {| Matrix.settings := Matrix.settings w;
     Matrix.columns := map (scale_speed speed_factor) (Matrix.columns w);
     Matrix.timer_interval := interval;
     Matrix.is_emergency_throttled := Matrix.is_emergency_throttled w;
     Matrix.usb_interrupt_baseline := Matrix.usb_interrupt_baseline w;
     Matrix.last_usb_check := Matrix.last_usb_check w;
     Matrix.primary_color := Matrix.primary_color w;
     Matrix.head_color := Matrix.head_color w;
     Matrix.fade_colors := Matrix.fade_colors w;
     Matrix.stats_drift_start_time := Matrix.stats_drift_start_time w;
     Matrix.drift_cycle_duration := Matrix.drift_cycle_duration w;
     Matrix.drift_margin := Matrix.drift_margin w |}.

(** The keys that [keyPressEvent] tells apart. *)
Inductive key : Type :=
| Key_F
| Key_Escape
| Key_Q
| Key_other (code : Z).

(** [keyPressEvent] *)
Definition keyPressEvent (k : key) (w : Matrix.MatrixWidget)
  : Matrix.MatrixWidget * list signal :=
  match k with
  | Key_F =>
      let s := Matrix.settings w in
      let current_stats := Matrix.get (Matrix.show_stats s) false in
      (with_settings
         {| Matrix.color := Matrix.color s; Matrix.rainbow := Matrix.rainbow s;
            Matrix.target_fps := Matrix.target_fps s;
            Matrix.show_stats := Some (negb current_stats);
            Matrix.stats_drift := Matrix.stats_drift s |} w,
       [])
  | _ => (w, [exit_requested])
  end.

(** [mouseMoveEvent]; the state is [self.last_mouse_pos], the argument
    the position of the event. *)
Definition mouseMoveEvent (current_pos : Z * Z) (last_mouse_pos : option (Z * Z))
  : option (Z * Z) * list signal :=
  match last_mouse_pos with
  | None => (Some current_pos, [])
  | Some last =>
      let dx := Z.abs (fst current_pos - fst last) in
      let dy := Z.abs (snd current_pos - snd last) in
      if (5 <? dx)%Z || (5 <? dy)%Z
      then (last_mouse_pos, [exit_requested])
      else (last_mouse_pos, [])
  end.

(** The signals of a sequence of mouse moves, event by event. *)
Fixpoint mouse_moves (positions : list (Z * Z)) (last_mouse_pos : option (Z * Z))
  : list (list signal) :=
  match positions with
  | [] => []
  | p :: rest =>
      let '(state, signals) := mouseMoveEvent p last_mouse_pos in
      signals :: mouse_moves rest state
  end.

End MatrixEvents.

(** ** Loading the saved settings

    [load_saved_settings] of both widget files: a table of defaults,
    over which [settings.update(saved_settings)] writes what
    [json.load] returned, inside a [try] whose handler keeps the
    dictionary as it is at that point. *)

Module SavedSettings.

(** The values that [json.load] returns.  An object is the list of its
    members in the order of the file; strings are UTF-8 text.  No
    induction over values is needed. *)
Local Unset Elimination Schemes.
Inductive json : Type :=
| JNull
| JBool (b : bool)
| JInt (n : Z)
| JFloat (x : Q)
| JStr (s : string)
| JArray (items : list json)
| JObject (members : list (string * json)).
Local Set Elimination Schemes.

(** What the loader finds: no file, a file that [open] or [json.load]
    rejects, or a file holding a JSON value. *)
Inductive config_file : Type :=
| Missing
| Unreadable
| Saved (content : json).

Local Open Scope string_scope.

(** The bytes [10xxxxxx] that continue a UTF-8 character. *)
Definition is_continuation (c : ascii) : bool :=
  let n := nat_of_ascii c in ((128 <=? n) && (n <? 192))%nat.

Fixpoint characters_from (current : string) (s : string) : list string :=
  match s with
  | EmptyString => [current]
  | String c rest =>
      if is_continuation c
      then characters_from (current ++ String c EmptyString) rest
      else current :: characters_from (String c EmptyString) rest
  end.

(** [list(s)]: the characters of a string, one string each. *)
Definition characters (s : string) : list string :=
  match s with
  | EmptyString => []
  | String c rest => characters_from (String c EmptyString) rest
  end.

(** [list(d)] for a decoded object: its distinct keys in the order of
    their first occurrence. *)
Definition keys (members : list (string * json)) : list string :=
  fold_left (fun seen member =>
               if existsb (String.eqb (fst member)) seen then seen
               else (seen ++ [fst member])%list)
            members [].

(** What [dict.update] does with one element of a sequence: it assigns
    a value to a string key, assigns to a key that is not a string (of
    no concern here: the settings are read by string keys only), or
    raises because the element is not a sequence of length two
    ([TypeError], [ValueError]) or its first item cannot be hashed
    ([TypeError]). *)
Inductive update_step : Type :=
| Assign (key : string) (v : json)
| Skip
| Stop.

Definition update_element (item : json) : update_step :=
  match item with
  | JArray [JStr key; v] => Assign key v
  | JArray [JArray _; _] | JArray [JObject _; _] => Stop
  | JArray [_; _] => Skip
  | JStr s =>
      match characters s with
      | [key; v] => Assign key (JStr v)
      | _ => Stop
      end
  | JObject members =>
      match keys members with
      | [key; v] => Assign key (JStr v)
      | _ => Stop
      end
  | _ => Stop
  end.

(** The assignments to string keys made for the elements of an array up
    to the first element that raises. *)
Fixpoint leading_assignments (items : list json) : list (string * json) :=
  match items with
  | [] => []
  | item :: rest =>
      match update_element item with
      | Assign key v => (key, v) :: leading_assignments rest
      | Skip => leading_assignments rest
      | Stop => []
      end
  end.

(** The assignments to string keys that [settings.update(content)]
    makes, in order, before it returns or raises: all members of an
    object, the leading pairs of an array, none for any other value (a
    non-empty string raises at its first character, a number, a boolean
    or [null] is not iterable). *)
Definition update_assignments (content : json) : list (string * json) :=
  match content with
  | JObject members => members
  | JArray items => leading_assignments items
  | _ => []
  end.

(** [settings[key] = v] *)
Definition assign (settings : gmap string json) (member : string * json)
  : gmap string json :=
  <[fst member := snd member]> settings.

(** The defaults of [mystify_widget.load_saved_settings]. *)
Definition mystify_defaults : gmap string json :=
  list_to_map
    [ ("enabled", JBool true); ("screensaver_type", JStr "Mystify");
      ("mystify_mode", JBool true); ("mystify_shapes", JInt 3);
      ("mystify_trail_length", JInt 50); ("mystify_trails", JInt 8);
      ("mystify_complexity", JInt 6); ("mystify_speed", JInt 2);
      ("mystify_color_mode", JStr "rainbow"); ("mystify_fill", JBool false);
      ("mystify_color_hue", JInt 240); ("mystify_color_hue1", JInt 240);
      ("mystify_color_hue2", JInt 60); ("target_fps", JInt 15);
      ("fps", JInt 60); ("show_stats", JBool false);
      ("stats_drift", JBool true); ("auto_cpu_limit", JBool false);
      ("display_target", JStr "both"); ("physical_only", JBool true);
      ("start_on_boot", JBool false); ("dark_mode", JBool true) ].

(** The defaults of [sidekick_widget.load_saved_settings]. *)
Definition matrix_defaults : gmap string json :=
  list_to_map
    [ ("enabled", JBool true); ("effect", JStr "matrix");
      ("matrix_mode", JBool true); ("color", JStr "green");
      ("speed", JInt 25); ("bold_text", JBool true); ("bold", JBool true);
      ("rainbow_mode", JBool false); ("rainbow", JBool false);
      ("font_size", JInt 14); ("show_fps", JBool false);
      ("show_stats", JBool false); ("stats_drift", JBool true);
      ("use_katakana", JBool true); ("target_fps", JInt 15);
      ("auto_cpu_limit", JBool false); ("async_scroll", JBool true);
      ("display_target", JStr "both"); ("physical_only", JBool true);
      ("lock_timeout", JInt 300); ("display_timeout", JInt 600);
      ("start_on_boot", JBool false); ("show_taskbar_icon", JBool true);
      ("start_maximized", JBool false); ("dark_mode", JBool true);
      ("auto_shutdown", JBool false); ("shutdown_timeout", JInt 60);
      ("auto_update_check", JBool true); ("screensaver_type", JStr "Matrix");
      ("mystify_mode", JBool false); ("slideshow_mode", JBool false);
      ("video_mode", JBool false) ].

(** The assignments that a configuration file causes. *)
Definition assignments (file : config_file) : list (string * json) :=
  match file with
  | Saved content => update_assignments content
  | _ => []
  end.

(** The body shared by the two loaders.  Whether [update] returns or
    raises, the function returns the dictionary with the assignments
    made so far. *)
Definition load (defaults : gmap string json) (file : config_file)
  : gmap string json :=
  fold_left assign (assignments file) defaults.

Definition mystify_load_saved_settings (file : config_file)
  : gmap string json := load mystify_defaults file.

Definition matrix_load_saved_settings (file : config_file)
  : gmap string json := load matrix_defaults file.

(** The value that a list of assignments leaves under a key, if any. *)
Definition last_assigned (key : string) (pairs : list (string * json))
  : option json :=
  fold_left (fun found member =>
               if String.eqb (fst member) key then Some (snd member)
               else found)
            pairs None.

(** [bool(v)] *)
Definition truthy (v : json) : bool :=
  match v with
  | JNull => false
  | JBool b => b
  | JInt n => negb (n =? 0)%Z
  | JFloat x => negb (Qeq_bool x 0)
  | JStr s => negb (String.eqb s "")
  | JArray items => match items with [] => false | _ => true end
  | JObject members => match members with [] => false | _ => true end
  end.

(** [settings.get(key)] for a setting used as a number: an integer, or
    a boolean, which Python counts as 1 or 0.  [None] is an absent key.
    A member of any other type is read here as absent, whereas the
    engine fails with [TypeError] where it computes with it (or
    computes with the float): the view is that of files whose numeric
    members are numbers. *)
Definition int_setting (settings : gmap string json) (key : string)
  : option Z :=
  match settings !! key with
  | Some (JInt n) => Some n
  | Some (JBool b) => Some (Z.b2z b)
  | _ => None
  end.

(** [settings.get(key)] for a setting used as a condition: the truth
    value of whatever is stored. *)
Definition bool_setting (settings : gmap string json) (key : string)
  : option bool :=
  match settings !! key with
  | Some v => Some (truthy v)
  | None => None
  end.

(** The dictionary handed to [MystifyWidget] as the typed record of the
    keys that the engine reads. *)
Definition mystify_settings (settings : gmap string json)
  : Mystify.Settings :=
  {| Mystify.mystify_shapes := int_setting settings "mystify_shapes";
     Mystify.mystify_trail_length := int_setting settings "mystify_trail_length";
     Mystify.mystify_complexity := int_setting settings "mystify_complexity";
     Mystify.mystify_speed := int_setting settings "mystify_speed";
     Mystify.fps_key := int_setting settings "fps";
     Mystify.target_fps := int_setting settings "target_fps";
     Mystify.show_stats := bool_setting settings "show_stats";
     Mystify.stats_drift := bool_setting settings "stats_drift";
     Mystify.power_saving_mode := bool_setting settings "power_saving_mode";
     Mystify.energy_efficient := bool_setting settings "energy_efficient" |}.

End SavedSettings.


(** ** Predicates of the further properties *)

(** A control point on the screen. *)
Definition in_screen (width height : Z) (p : Qt.QPointF) : Prop :=
  (0 <= Qt.px p /\ Qt.px p <= inject_Z width /\
   0 <= Qt.py p /\ Qt.py p <= inject_Z height)%Q.

(** A velocity no faster than [speed] along either axis. *)
Definition within_speed (speed : Q) (v : Qt.QPointF) : Prop :=
  (Qabs (Qt.px v) <= Qabs speed /\ Qabs (Qt.py v) <= Qabs speed)%Q.

(** The shape invariant of the curve engine on a screen of the given
    size: control points on the screen, velocities within the configured
    speed, tension in [0.2, 1.0]. *)
Definition shape_invariant (width height : Z) (speed : Q)
           (shape : Mystify.Shape) : Prop :=
  Forall (in_screen width height) (Mystify.control_points shape) /\
  Forall (within_speed speed) (Mystify.velocities shape) /\
  (0.2 <= Mystify.curve_tension shape /\
   Mystify.curve_tension shape <= 1.0)%Q.

Definition shapes_invariant (width height : Z) (w : Mystify.MystifyWidget)
  : Prop :=
  Forall (shape_invariant width height (Mystify.speed w)) (Mystify.shapes w).

(** A sequence of calls of [update_animation]: the final state and the
    repaint flag of each call. *)
Fixpoint run_ticks (inputs : list MystifyTick.tick_input)
         (t : MystifyTick.Ticking)
  : Random.M (MystifyTick.Ticking * list bool) :=
  match inputs with
  | [] => Random.ret (t, [])
  | i :: rest =>
      let* r := MystifyTick.update_animation i t in
      let* r' := run_ticks rest (fst r) in
      Random.ret (fst r', snd r :: snd r')
  end.

(** The state of the curve engine between two timer ticks, with [n]
    shapes on a screen of the given size. *)
Definition engine_invariant (n : nat) (width height : Z)
           (w : Mystify.MystifyWidget) : Prop :=
  length (Mystify.shapes w) = n /\
  well_formed w /\ shapes_invariant width height w /\
  quality_in_range (Mystify.quality_level w).

(** Ticks on a screen of constant size. *)
Definition on_screen (width height : Z) (i : MystifyTick.tick_input) : Prop :=
  MystifyTick.screen_width i = width /\ MystifyTick.screen_height i = height.

(** The CPU reading that [_update_stats_display] records: anything that
    is not a number counts as 0.0. *)
Definition recorded_cpu (readings : MystifyTick.stats_sample) : Q :=
  match MystifyTick.stats_cpu readings with
  | Psutil.CpuNumber c => c
  | _ => 0.0%Q
  end.

(** A drop whose three lists have one entry per character. *)
Definition drop_aligned (c : Rain.Column) : Prop :=
  length (Matrix.characters (Rain.base c))
  = length (Matrix.char_positions (Rain.base c)) /\
  length (Matrix.char_ages (Rain.base c))
  = length (Matrix.char_positions (Rain.base c)).

(** A column between two animation frames: an aligned drop on a screen
    of non-negative height whose head has not passed the line at which
    the column is reset. *)
Definition column_on_track (c : Rain.Column) : Prop :=
  drop_aligned c /\
  0 <= Matrix.screen_height (Rain.base c) /\
  (Matrix.head_position (Rain.base c)
   <= inject_Z (Matrix.screen_height (Rain.base c)) + 100)%Q.

(** A column as [setup_columns] leaves it: the drop starts between 100
    and 20 pixels above the screen, and the head position is the one of
    the drop moved up by the stagger. *)
Definition staggered (height : Z) (c : Rain.Column) : Prop :=
  exists head stagger : Z,
    Matrix.char_positions (Rain.base c) !! 0%nat = Some (inject_Z head) /\
    -100 <= head <= -20 /\ 0 <= stagger <= height /\
    Matrix.head_position (Rain.base c)
    = (inject_Z head - inject_Z stagger)%Q.

(** A colour whose channels are in the ranges that Qt accepts: 0..255
    for red, green, blue, alpha, saturation and value, 0..359 for the
    hue. *)
Definition valid_color (c : Qt.QColor) : Prop :=
  match c with
  | Qt.Rgba r g b a =>
      0 <= r <= 255 /\ 0 <= g <= 255 /\ 0 <= b <= 255 /\ 0 <= a <= 255
  | Qt.fromHsv h s v => 0 <= h <= 359 /\ 0 <= s <= 255 /\ 0 <= v <= 255
  end.

(** ** Further concrete inputs *)

Module Scenario.
Import Py Qt MystifyTick.

(** The state of the tick machinery around the sample widget, all clocks
    at 0. *)
Definition ticking (c : Mystify.MystifyWidget) : Ticking :=
  {| core := c; last_update := 0; last_emergency_check := 0;
     last_performance_check := 0; skip_frame_counter := 0;
     fps := 0; last_fps_update := 0; stats_cpu_samples := [];
     displayed_cpu := 0; displayed_memory := 0;
     displayed_process_cpu := 0; displayed_process_memory := 0;
     last_stats_update := 0 |}.

(** A timer tick at the given time on a quiet machine with a 1920 by
    1080 screen. *)
Definition tick (now : Q) : tick_input :=
  {| current_time := now;
     emergency_reading := Some (Psutil.CpuNumber 20);
     adaptive_reading :=
       Some {| Psutil.cpu_percent := Psutil.CpuNumber 20;
               Psutil.memory_percent := 10 |};
     stats_reading :=
       Some {| stats_cpu := Psutil.CpuNumber 20;
               stats_memory_percent := 10;
               process_cpu := 1; process_memory_mb := 64 |};
     screen_width := 1920; screen_height := 1080 |}.

(** Settings with the power-saving mode and the statistics overlay on. *)
Definition power_saving : Mystify.Settings :=
  {| Mystify.mystify_shapes := Some 1;
     Mystify.mystify_trail_length := Some 10;
     Mystify.mystify_complexity := Some 6; Mystify.mystify_speed := None;
     Mystify.fps_key := None; Mystify.target_fps := Some 15;
     Mystify.show_stats := Some true; Mystify.stats_drift := None;
     Mystify.power_saving_mode := Some true;
     Mystify.energy_efficient := None |}.

(** The widget constructed from these settings. *)
Definition saver : Mystify.MystifyWidget :=
  match Mystify.__init__ power_saving 0 0 1920 1080 Sample.rng360 with
  | Ok (w, _) => w
  | Raise _ => Sample.mystify 1
  end.

(** A two-colour palette without fill. *)
Definition palette : MystifyPaint.Palette :=
  {| MystifyPaint.color_mode := "duo"%string;
     MystifyPaint.primary_color := (0, 255, 0);
     MystifyPaint.secondary_color := (255, 0, 255);
     MystifyPaint.primary_hue := 120;
     MystifyPaint.mystify_fill := false |}.

(** A trail of six curves, the oldest first. *)
Definition trail : list QPainterPath :=
  map (fun x => [moveTo {| px := x; py := 0 |};
                 lineTo {| px := x; py := 10 |}])
      [1%Q; 2%Q; 3%Q; 4%Q; 5%Q; 6%Q].

(** A column of the rain engine around the sample drop. *)
Definition rain_column : Rain.Column :=
  {| Rain.base := Sample.column; Rain.max_chars := 59;
     Rain.use_katakana := false; Rain.last_update := 0;
     Rain.update_interval := 100 |}.

(** An update that raises the target frame rate to 30. *)
Definition faster : MatrixEvents.SettingsUpdate :=
  {| MatrixEvents.new_color := None; MatrixEvents.new_rainbow := None;
     MatrixEvents.new_target_fps := Some 30;
     MatrixEvents.new_show_stats := None;
     MatrixEvents.new_stats_drift := None |}.

End Scenario.

(** An engine that runs at its configured frame rate: not throttled,
    and the timer interval is the one that the release of the throttle
    would set. *)
Definition mystify_steady (w : Mystify.MystifyWidget) : Prop :=
  Mystify.is_emergency_throttled w = false /\
  Mystify.timer_interval w
  = 1000 / Mystify.configured_fps (Mystify.settings w).

Definition matrix_steady (w : Matrix.MatrixWidget) : Prop :=
  Matrix.is_emergency_throttled w = false /\
  Matrix.timer_interval w
  = Matrix.fps_interval
      (Matrix.get (Matrix.target_fps (Matrix.settings w)) 15).

(** What one line of the interrupt table adds to the total. *)
Definition line_total (line : string) : Z :=
  let '(usb_interrupts, hid_interrupts) :=
    Interrupts.scan_line (0, 0) line in
  usb_interrupts + hid_interrupts.

(** A configuration file that assigns nothing to the key ["fps"]. *)
Definition lacks_fps (file : SavedSettings.config_file) : Prop :=
  SavedSettings.last_assigned "fps" (SavedSettings.assignments file) = None.

(** * Properties *)

(** Case analysis on the conditionals of the goal. *)
Ltac case_conditionals :=
  repeat match goal with
         | |- context [if ?c then _ else _] => destruct c
         | |- context [match ?o with Some _ => _ | None => _ end] =>
             destruct o
         end.

Create HintDb quality.

(** ** Facts about the Python numerics *)

Section PyFacts.
Import Py.
Local Open Scope Q_scope.

Lemma Qltb_lt (x y : Q) : Qltb x y = true <-> x < y.
Proof.
  unfold Qltb. rewrite negb_true_iff. split.
  - intros H. apply Qnot_le_lt. intros Hle.
    apply Qle_bool_iff in Hle. congruence.
  - intros H. destruct (Qle_bool y x) eqn:E; [|reflexivity].
    apply Qle_bool_iff in E. exfalso. exact (Qlt_not_le _ _ H E).
Qed.

Lemma Qltb_ge (x y : Q) : Qltb x y = false <-> y <= x.
Proof.
  unfold Qltb. rewrite negb_false_iff. apply Qle_bool_iff.
Qed.

Global Instance Qltb_proper : Proper (Qeq ==> Qeq ==> eq) Qltb.
Proof. intros x x' Hx y y' Hy. unfold Qltb. now rewrite Hx, Hy. Qed.

(** Case analysis on a float comparison. *)
Lemma Qltb_spec (x y : Q) : reflect (x < y) (Qltb x y).
Proof.
  destruct (Qltb x y) eqn:E; constructor.
  - now apply Qltb_lt.
  - apply Qltb_ge in E. now apply Qle_not_lt.
Qed.

Lemma max_bounds (a b lo hi : Q) :
  lo <= a -> a <= hi -> b <= hi -> lo <= max a b /\ max a b <= hi.
Proof.
  intros Hlo Ha Hb. unfold max.
  destruct (Qltb_spec a b) as [Hlt|Hge]; split; try assumption.
  apply Qle_trans with a; [assumption | now apply Qlt_le_weak].
Qed.

Lemma min_bounds (a b lo hi : Q) :
  lo <= a -> a <= hi -> lo <= b -> lo <= min a b /\ min a b <= hi.
Proof.
  intros Hlo Ha Hb. unfold min.
  destruct (Qltb_spec b a) as [Hlt|Hge]; split; try assumption.
  apply Qle_trans with a; [now apply Qlt_le_weak | assumption].
Qed.

(** [int] is the floor on non-negative floats and the ceiling on
    negative ones. *)
Lemma int_floor (x : Q) : 0 <= x -> int x = Qfloor x.
Proof.
  destruct x as [n d]. unfold Qle, int, Qfloor. simpl. intros H.
  apply Z.quot_div_nonneg; lia.
Qed.

Lemma int_ceiling (x : Q) : x <= 0 -> int x = Qceiling x.
Proof.
  destruct x as [n d]. unfold Qle, int, Qceiling, Qfloor. simpl. intros H.
  rewrite <- (Z.opp_involutive n) at 1.
  rewrite Z.quot_opp_l by lia.
  rewrite Z.quot_div_nonneg by lia. reflexivity.
Qed.

Global Instance int_proper : Proper (Qeq ==> eq) int.
Proof.
  intros x y Hxy. destruct (Qlt_le_dec x 0) as [Hneg|Hpos].
  - rewrite !int_ceiling.
    + now rewrite Hxy.
    + rewrite <- Hxy. now apply Qlt_le_weak.
    + now apply Qlt_le_weak.
  - rewrite !int_floor.
    + now rewrite Hxy.
    + now rewrite <- Hxy.
    + assumption.
Qed.

Lemma int_float (n : Z) : int (float n) = n.
Proof. unfold int, float. simpl. apply Z.quot_1_r. Qed.

Lemma fmod_range (x d : Q) : 0 < d -> 0 <= fmod x d /\ fmod x d < d.
Proof.
  intros Hd. unfold fmod.
  assert (Hne : ~ d == 0) by (intros E; rewrite E in Hd; discriminate).
  assert (Hx : d * (x / d) == x) by (field; assumption).
  pose proof (Qfloor_le (x / d)) as Hlo.
  pose proof (Qlt_floor (x / d)) as Hhi.
  rewrite inject_Z_plus in Hhi.
  apply (Qmult_le_l _ _ d Hd) in Hlo.
  apply (Qmult_lt_l _ _ d Hd) in Hhi.
  rewrite Hx in Hlo, Hhi.
  rewrite Qmult_plus_distr_r in Hhi.
  change (inject_Z 1) with 1 in Hhi. rewrite Qmult_1_r in Hhi.
  set (m := d * inject_Z (Qfloor (x / d))) in *.
  split; lra.
Qed.


End PyFacts.

(** ** The trail of a shape *)

Section Trail.
Import Py Qt Mystify.

(** The cap computed before truncation is the documented formula. *)
Lemma max_trail_formula (L : Z) (q : Q) :
  (0 <= q)%Q ->
  max_trail L q = Z.max (Z.max 5 (L / 4)) (Qfloor (inject_Z L * q)).
Proof.
  intros Hq. unfold max_trail, min_trail, float.
  destruct (Z_le_gt_dec 0 L) as [Hpos|Hneg].
  - rewrite int_floor; [reflexivity|].
    apply Qmult_le_0_compat; [|assumption].
    change 0%Q with (inject_Z 0). now rewrite <- Zle_Qle.
  - assert (Hx : (inject_Z L * q <= 0)%Q).
    { assert (HL : (inject_Z L <= 0)%Q).
      { change 0%Q with (inject_Z 0). rewrite <- Zle_Qle. lia. }
      nra. }
    rewrite (int_ceiling _ Hx).
    pose proof (Qceiling_resp_le _ _ Hx) as Hc.
    pose proof (Qfloor_resp_le _ _ Hx) as Hf.
    change (Qceiling 0) with 0 in Hc. change (Qfloor 0) with 0 in Hf.
    lia.
Qed.

(** Length of the trail after the guarded block. *)
Lemma store_curve_length (w : MystifyWidget) (shape : Shape)
      (trail : list QPainterPath) :
  length (store_curve w shape trail) =
  if max_trail (trail_length w) (quality_level w)
       <? Z.of_nat (length trail) + 1
  then length trail
  else S (length trail).
Proof.
  unfold store_curve. rewrite length_app. simpl length.
  replace (Z.of_nat (length trail + 1)) with (Z.of_nat (length trail) + 1)
    by lia.
  destruct (_ <? _).
  - destruct trail; simpl; [reflexivity|].
    rewrite length_app. simpl. lia.
  - rewrite length_app. simpl. lia.
Qed.

(** A trail that respects the cap before the step respects it after. *)
Lemma store_curve_within_cap (w : MystifyWidget) (shape : Shape)
      (trail : list QPainterPath) :
  Z.of_nat (length trail) <= max_trail (trail_length w) (quality_level w) ->
  Z.of_nat (length (store_curve w shape trail))
  <= max_trail (trail_length w) (quality_level w).
Proof.
  intros H. rewrite store_curve_length.
  destruct (Z.ltb_spec (max_trail (trail_length w) (quality_level w))
                       (Z.of_nat (length trail) + 1)); lia.
Qed.

(** A trail longer than the cap keeps its length: one curve comes in and
    one goes out. *)
Lemma store_curve_above_cap (w : MystifyWidget) (shape : Shape)
      (trail : list QPainterPath) :
  max_trail (trail_length w) (quality_level w) <= Z.of_nat (length trail) ->
  length (store_curve w shape trail) = length trail.
Proof.
  intros H. rewrite store_curve_length.
  destruct (Z.ltb_spec (max_trail (trail_length w) (quality_level w))
                       (Z.of_nat (length trail) + 1)); [reflexivity|lia].
Qed.

End Trail.

Section TrailScenario.
Import Py Qt Mystify.

(** Claim C1 against the code.  The engine is constructed with one shape
    and a trail length of 10 and runs ten animation steps at full
    quality: the trail holds 10 curves and the cap is 10.  One adaptive
    adjustment on a busy machine lowers the quality to 0.9 and the cap
    to 9.  After the next animation step the trail still holds 10
    curves: the step appends one curve and pops a single one. *)
Theorem C1_trail_exceeds_cap_after_quality_drop :
  match Sample.quality_drop Sample.rng360 with
  | Ok ((full, after), _) =>
      map (@length _) (shape_trails full) = [10%nat] /\
      max_trail (trail_length full) (quality_level full) = 10 /\
      Qred (quality_level after) = 0.9%Q /\
      max_trail (trail_length after) (quality_level after) = 9 /\
      map (@length _) (shape_trails after) = [10%nat]
  | Raise _ => False
  end.
Proof. vm_compute. repeat split. Qed.

End TrailScenario.

(** ** The activity signal *)

Section Activity.
Import Py Qt.

(** Past the start-up grace period the strict variant reads the table. *)
Lemma mystify_poll_after_grace (now : Q) (content : string)
      (w : Mystify.MystifyWidget) :
  (10 <= now - Mystify.screensaver_start_time w)%Q ->
  Mystify.check_usb_activity now (Some content) w =
  let total := Interrupts.total_interrupts content in
  (Mystify.with_usb_interrupt_baseline (Some total) w,
   match Mystify.usb_interrupt_baseline w with
   | None => []
   | Some baseline => if 50 <? total - baseline then [exit_requested] else []
   end).
Proof.
  intros Hgrace. unfold Mystify.check_usb_activity.
  assert (E : Qltb (now - Mystify.screensaver_start_time w) 10.0 = false).
  { apply Qltb_ge. lra. }
  rewrite E. cbv zeta.
  destruct (Mystify.usb_interrupt_baseline w) as [baseline|];
    [destruct (50 <? _)|]; reflexivity.
Qed.

(** Inside the grace period the strict variant returns at once. *)
Lemma mystify_poll_in_grace (now : Q) (source : option string)
      (w : Mystify.MystifyWidget) :
  (now - Mystify.screensaver_start_time w < 10)%Q ->
  Mystify.check_usb_activity now source w = (w, []).
Proof.
  intros Hgrace. unfold Mystify.check_usb_activity.
  assert (E : Qltb (now - Mystify.screensaver_start_time w) 10.0 = true).
  { apply Qltb_lt. lra. }
  now rewrite E.
Qed.

Lemma mystify_poll_unset_silent (now : Q) (source : option string)
      (w : Mystify.MystifyWidget) :
  Mystify.usb_interrupt_baseline w = None ->
  snd (Mystify.check_usb_activity now source w) = [].
Proof.
  intros Hb. unfold Mystify.check_usb_activity.
  destruct (Qltb _ _); [reflexivity|].
  destruct source; [|reflexivity]. now rewrite Hb.
Qed.

(** The permissive variant reads the table on every poll. *)
Lemma matrix_poll (now : Q) (content : string) (w : Matrix.MatrixWidget) :
  Matrix.check_usb_activity now (Some content) w =
  let total := Interrupts.total_interrupts content in
  (Matrix.with_usb_interrupt_baseline (Some total) w,
   match Matrix.usb_interrupt_baseline w with
   | None => []
   | Some baseline => if 0 <? total - baseline then [exit_requested] else []
   end).
Proof.
  unfold Matrix.check_usb_activity. cbv zeta.
  destruct (Matrix.usb_interrupt_baseline w) as [baseline|];
    [destruct (0 <? _)|]; reflexivity.
Qed.

Lemma matrix_poll_unset_silent (now : Q) (source : option string)
      (w : Matrix.MatrixWidget) :
  Matrix.usb_interrupt_baseline w = None ->
  snd (Matrix.check_usb_activity now source w) = [].
Proof.
  intros Hb. unfold Matrix.check_usb_activity.
  destruct source.
  - now rewrite Hb.
  - now destruct (Qltb _ _).
Qed.

(** Claim C2 as stated fails on the curve engine: its first polls fall in
    the 10 s grace period, return before the table is read and leave the
    baseline unset.  Here the widget was started at time 0 and is polled
    at time 2, the first tick of its 2000 ms timer. *)
Lemma C2_poll_in_grace_period_sets_no_baseline :
  ~ (forall (now : Q) (content : string) (w : Mystify.MystifyWidget),
        Mystify.usb_interrupt_baseline w = None ->
        Mystify.usb_interrupt_baseline
          (fst (Mystify.check_usb_activity now (Some content) w))
        = Some (Interrupts.total_interrupts content)).
Proof.
  intros H.
  specialize (H 2%Q Sample.table (Sample.mystify 1.0) eq_refl).
  vm_compute in H. discriminate H.
Qed.

(** Claim C2, amended.  A poll made while the baseline is unset reports
    no activity, whatever the counter source holds and whether or not it
    can be read.  When the table is read the poll establishes the
    baseline from the current total: in the rain engine on every
    readable table, in the curve engine once 10 s have passed since the
    start.  A poll of the curve engine before that returns at once: the
    widget, and with it the unset baseline, stays as it is. *)
Theorem C2_unset_baseline_poll
        (now : Q) (source : option string)
        (mw : Mystify.MystifyWidget) (xw : Matrix.MatrixWidget) :
  Mystify.usb_interrupt_baseline mw = None ->
  Matrix.usb_interrupt_baseline xw = None ->
  snd (Mystify.check_usb_activity now source mw) = [] /\
  snd (Matrix.check_usb_activity now source xw) = [] /\
  ((now - Mystify.screensaver_start_time mw < 10)%Q ->
   Mystify.check_usb_activity now source mw = (mw, []) /\
   Mystify.usb_interrupt_baseline
     (fst (Mystify.check_usb_activity now source mw)) = None) /\
  forall content : string,
    source = Some content ->
    Matrix.usb_interrupt_baseline
      (fst (Matrix.check_usb_activity now source xw))
    = Some (Interrupts.total_interrupts content) /\
    ((10 <= now - Mystify.screensaver_start_time mw)%Q ->
     Mystify.usb_interrupt_baseline
       (fst (Mystify.check_usb_activity now source mw))
     = Some (Interrupts.total_interrupts content)).
Proof.
  intros Hm Hx. split; [|split; [|split]].
  - now apply mystify_poll_unset_silent.
  - now apply matrix_poll_unset_silent.
  - intros Hgrace. rewrite (mystify_poll_in_grace now source mw Hgrace).
    split; [reflexivity | exact Hm].
  - intros content ->. split.
    + now rewrite matrix_poll.
    + intros Hgrace. now rewrite mystify_poll_after_grace.
Qed.

Lemma C2_unset_baseline_poll_witness :
  snd (Mystify.check_usb_activity 12 (Some Sample.table)
                                  (Sample.mystify 1.0)) = [] /\
  Matrix.usb_interrupt_baseline
    (fst (Matrix.check_usb_activity 12 (Some Sample.table) Sample.matrix))
  = Some 1269 /\
  Mystify.usb_interrupt_baseline
    (fst (Mystify.check_usb_activity 12 (Some Sample.table)
                                     (Sample.mystify 1.0)))
  = Some 1269 /\
  Mystify.check_usb_activity 2 (Some Sample.table) (Sample.mystify 1.0)
  = (Sample.mystify 1.0, []).
Proof.
  destruct (C2_unset_baseline_poll 12 (Some Sample.table)
              (Sample.mystify 1.0) Sample.matrix eq_refl eq_refl)
    as (Hsilent & _ & _ & Hset).
  destruct (C2_unset_baseline_poll 2 (Some Sample.table)
              (Sample.mystify 1.0) Sample.matrix eq_refl eq_refl)
    as (_ & _ & Hgrace & _).
  destruct (Hset Sample.table eq_refl) as [Hx Hm].
  split; [exact Hsilent|]. split; [exact Hx|]. split.
  - apply Hm. vm_compute. discriminate.
  - apply Hgrace. reflexivity.
Defined.

(** Claim C3.  With an established baseline [B] and a table whose input
    lines sum to [T], the poll emits the exit signal exactly when
    [T - B] exceeds the threshold (50 in the strict variant of the curve
    engine, 0 in the permissive variant of the rain engine), and the
    stored baseline is [T] afterwards in either case.  The strict
    variant sums the table once its 10 s grace period is over. *)
Theorem C3_poll_detects_above_threshold
        (now : Q) (content : string) (B : Z)
        (mw : Mystify.MystifyWidget) (xw : Matrix.MatrixWidget) :
  Mystify.usb_interrupt_baseline mw = Some B ->
  Matrix.usb_interrupt_baseline xw = Some B ->
  (10 <= now - Mystify.screensaver_start_time mw)%Q ->
  let T := Interrupts.total_interrupts content in
  let strict := Mystify.check_usb_activity now (Some content) mw in
  let permissive := Matrix.check_usb_activity now (Some content) xw in
  (snd strict = [exit_requested] <-> T - B > 50) /\
  (snd strict = [] <-> ~ T - B > 50) /\
  Mystify.usb_interrupt_baseline (fst strict) = Some T /\
  (snd permissive = [exit_requested] <-> T - B > 0) /\
  (snd permissive = [] <-> ~ T - B > 0) /\
  Matrix.usb_interrupt_baseline (fst permissive) = Some T.
Proof.
  intros Hm Hx Hgrace T strict permissive. subst strict permissive.
  rewrite mystify_poll_after_grace by assumption.
  rewrite matrix_poll. cbv zeta. fold T. rewrite Hm, Hx. simpl.
  destruct (Z.ltb_spec 50 (T - B)); destruct (Z.ltb_spec 0 (T - B));
    repeat split; intros; try reflexivity; try discriminate; try lia.
Qed.

Lemma C3_poll_detects_above_threshold_witness :
  snd (Mystify.check_usb_activity 12 (Some Sample.table)
         (Mystify.with_usb_interrupt_baseline (Some 1200)
                                              (Sample.mystify 1.0)))
  = [exit_requested] /\
  Mystify.usb_interrupt_baseline
    (fst (Mystify.check_usb_activity 12 (Some Sample.table)
            (Mystify.with_usb_interrupt_baseline (Some 1200)
                                                 (Sample.mystify 1.0))))
  = Some 1269.
Proof.
  destruct (C3_poll_detects_above_threshold 12 Sample.table 1200
              (Mystify.with_usb_interrupt_baseline (Some 1200)
                                                   (Sample.mystify 1.0))
              (Matrix.with_usb_interrupt_baseline (Some 1200) Sample.matrix)
              eq_refl eq_refl)
    as (Hexit & _ & Hbase & _).
  - vm_compute. discriminate.
  - split.
    + apply Hexit. vm_compute. reflexivity.
    + exact Hbase.
Defined.

End Activity.

(** ** The emergency throttle *)

Section RunFacts.
Import Py.
Context {S : Type} (step : Q -> S -> S) (flag : S -> bool).

(** The flag after a check records whether the sample was above 90. *)
Hypothesis flag_tracks_sample :
  forall (c : Q) (s : S), flag (step c s) = Qltb 90 c.

Lemma final_app (s : S) (xs ys : list Q) :
  final step s (xs ++ ys) = final step (final step s xs) ys.
Proof. unfold final. apply fold_left_app. Qed.

Lemma transitions_app (a : bool) (s : S) (xs ys : list Q) :
  transitions step flag a s (xs ++ ys) =
  (transitions step flag a s xs
   + transitions step flag a (final step s xs) ys)%nat.
Proof.
  revert s. induction xs as [|x xs IH]; intros s; simpl; [reflexivity|].
  rewrite IH. unfold final. simpl. lia.
Qed.

Lemma trace_flags (s : S) (cs : list Q) :
  map flag (trace step s cs) = map (Qltb 90) cs.
Proof.
  revert s. induction cs as [|c cs IH]; intros s; simpl; [reflexivity|].
  now rewrite flag_tracks_sample, IH.
Qed.

Lemma transitions_cons (a : bool) (s : S) (c : Q) (cs : list Q) :
  transitions step flag a s (c :: cs) =
  ((if Bool.eqb (flag s) a && Bool.eqb (flag (step c s)) (negb a)
    then 1 else 0)
   + transitions step flag a (step c s) cs)%nat.
Proof. reflexivity. Qed.

Lemma final_cons (s : S) (c : Q) (cs : list Q) :
  final step s (c :: cs) = final step (step c s) cs.
Proof. reflexivity. Qed.

(** Samples on the side of the threshold where the state already is
    change nothing. *)
Lemma settled_run (b a : bool) (s : S) (cs : list Q) :
  Forall (fun c => Qltb 90 c = b) cs -> flag s = b ->
  transitions step flag a s cs = 0%nat /\ flag (final step s cs) = b.
Proof.
  intros Hcs. revert s.
  induction Hcs as [|c cs Hc _ IH]; intros s Hs; [now split|].
  assert (Hflag : flag (step c s) = b)
    by now rewrite flag_tracks_sample.
  destruct (IH _ Hflag) as [Hcount Hfinal].
  rewrite transitions_cons, final_cons, Hcount, Hflag, Hs.
  split; [|exact Hfinal]. now destruct a, b.
Qed.

(** A non-empty run of samples on one side of the threshold moves the
    state to that side on its first sample, if it was on the other side,
    and never moves it back. *)
Lemma steady_run (b : bool) (s : S) (cs : list Q) :
  cs <> [] -> Forall (fun c => Qltb 90 c = b) cs ->
  transitions step flag (negb b) s cs
  = (if Bool.eqb (flag s) b then 0 else 1)%nat /\
  transitions step flag b s cs = 0%nat /\
  flag (final step s cs) = b.
Proof.
  intros Hne Hcs. destruct Hcs as [|c cs Hc Hcs]; [congruence|].
  assert (Hflag : flag (step c s) = b)
    by now rewrite flag_tracks_sample.
  destruct (settled_run b (negb b) _ cs Hcs Hflag) as [Hin Hfinal].
  destruct (settled_run b b _ cs Hcs Hflag) as [Hout _].
  rewrite !transitions_cons, final_cons, Hin, Hout, Hflag.
  repeat split; [|  |exact Hfinal]; now destruct (flag s), b.
Qed.

(** A run of hot samples enters the throttled state on its first sample
    (unless already there) and never leaves it. *)
Lemma hot_run (s : S) (cs : list Q) :
  cs <> [] -> Forall hot cs ->
  transitions step flag false s cs = (if flag s then 0 else 1)%nat /\
  transitions step flag true s cs = 0%nat /\
  flag (final step s cs) = true.
Proof.
  intros Hne Hhot.
  destruct (steady_run true s cs Hne) as (Hin & Hout & Hfinal).
  - eapply Forall_impl; [exact Hhot|]. intros c Hc. now apply Qltb_lt.
  - cbn [negb] in Hin. rewrite Hin. now destruct (flag s).
Qed.

(** A run of calm samples leaves the throttled state on its first sample
    (if it was entered) and never enters it. *)
Lemma calm_run (s : S) (cs : list Q) :
  cs <> [] -> Forall calm cs ->
  transitions step flag true s cs = (if flag s then 1 else 0)%nat /\
  transitions step flag false s cs = 0%nat /\
  flag (final step s cs) = false.
Proof.
  intros Hne Hcalm.
  destruct (steady_run false s cs Hne) as (Hout & Hin & Hfinal).
  - eapply Forall_impl; [exact Hcalm|]. intros c Hc. now apply Qltb_ge.
  - cbn [negb] in Hout. rewrite Hout. now destruct (flag s).
Qed.

(** Over a sequence of load episodes started outside the throttled
    state, each episode contributes one entry and one exit. *)
Lemma episodes_run (s : S) (episodes : list episode) :
  flag s = false -> Forall well_formed_episode episodes ->
  transitions step flag false s (samples_of episodes) = length episodes /\
  transitions step flag true s (samples_of episodes) = length episodes /\
  flag (final step s (samples_of episodes)) = false.
Proof.
  intros Hs Hwf. revert s Hs.
  induction Hwf as [|[high low] es (Hh & Hl & Hhot & Hcalm) Hes IH];
    intros s Hs.
  - simpl. auto.
  - simpl in Hh, Hl, Hhot, Hcalm.
    change (samples_of ((high, low) :: es))
      with ((high ++ low) ++ samples_of es).
    destruct (hot_run s high Hh Hhot) as (Hin1 & Hout1 & Hf1).
    destruct (calm_run (final step s high) low Hl Hcalm)
      as (Hout2 & Hin2 & Hf2).
    destruct (IH _ Hf2) as (Hin3 & Hout3 & Hf3).
    rewrite !transitions_app, !final_app.
    rewrite Hin1, Hout1, Hin2, Hout2, Hin3, Hout3, Hs, Hf1, Hf3.
    simpl. auto.
Qed.

(** An invariant of every check holds along every trace. *)
Lemma trace_invariant (P : S -> Prop) :
  (forall (c : Q) (s : S), P s -> P (step c s)) ->
  forall (s : S) (cs : list Q), P s -> Forall P (trace step s cs).
Proof.
  intros Hstep s cs. revert s.
  induction cs as [|c cs IH]; intros s Hs; simpl; constructor; auto.
Qed.

End RunFacts.

Section Throttle.
Import Py Psutil.

Lemma mystify_flag_tracks_sample (c : Q) (w : Mystify.MystifyWidget) :
  Mystify.is_emergency_throttled (mystify_throttle_step c w) = Qltb 90 c.
Proof.
  unfold mystify_throttle_step, Mystify.check_emergency_cpu_throttle,
    Mystify.emergency_cpu_threshold.
  destruct (Qltb 90 c); destruct (Mystify.is_emergency_throttled w) eqn:E;
    simpl; auto.
Qed.

Lemma matrix_flag_tracks_sample (c : Q) (w : Matrix.MatrixWidget) :
  Matrix.is_emergency_throttled (matrix_throttle_step c w) = Qltb 90 c.
Proof.
  unfold matrix_throttle_step, Matrix.check_emergency_cpu_throttle,
    Matrix.emergency_cpu_threshold.
  destruct (Qltb 90 c); destruct (Matrix.is_emergency_throttled w) eqn:E;
    simpl; auto.
Qed.

(** While the flag is set the timer runs at 1000 ms: every check keeps
    this, whatever [psutil] hands back. *)
Lemma mystify_throttled_interval (psutil : option cpu_reading)
      (w : Mystify.MystifyWidget) :
  (Mystify.is_emergency_throttled w = true ->
   Mystify.timer_interval w = 1000) ->
  Mystify.is_emergency_throttled
    (Mystify.check_emergency_cpu_throttle psutil w) = true ->
  Mystify.timer_interval (Mystify.check_emergency_cpu_throttle psutil w)
  = 1000.
Proof.
  intros Hinv. unfold Mystify.check_emergency_cpu_throttle.
  destruct psutil as [[c|cs|]|]; try exact Hinv;
    destruct (Qltb _ _);
    destruct (Mystify.is_emergency_throttled w) eqn:E; simpl;
    auto; try discriminate; rewrite ?E; auto.
Qed.

Lemma matrix_throttled_interval (psutil : option cpu_reading)
      (w : Matrix.MatrixWidget) :
  (Matrix.is_emergency_throttled w = true ->
   Matrix.timer_interval w = 1000) ->
  Matrix.is_emergency_throttled
    (Matrix.check_emergency_cpu_throttle psutil w) = true ->
  Matrix.timer_interval (Matrix.check_emergency_cpu_throttle psutil w)
  = 1000.
Proof.
  intros Hinv. unfold Matrix.check_emergency_cpu_throttle.
  destruct psutil as [[c|cs|]|]; try exact Hinv;
    destruct (Qltb _ _);
    destruct (Matrix.is_emergency_throttled w) eqn:E; simpl;
    auto; try discriminate; rewrite ?E; auto.
Qed.

(** Leaving the throttled state restores the interval of the configured
    frame rate. *)
Lemma mystify_release_interval (c : Q) (w : Mystify.MystifyWidget) :
  Mystify.is_emergency_throttled w = true -> calm c ->
  Mystify.timer_interval (mystify_throttle_step c w)
  = 1000 / Mystify.configured_fps (Mystify.settings w).
Proof.
  intros Hw Hc. unfold mystify_throttle_step,
    Mystify.check_emergency_cpu_throttle, Mystify.emergency_cpu_threshold.
  assert (E : Qltb 90 c = false) by now apply Qltb_ge.
  now rewrite E, Hw.
Qed.

Lemma matrix_release_interval (c : Q) (w : Matrix.MatrixWidget) :
  Matrix.is_emergency_throttled w = true -> calm c ->
  Matrix.timer_interval (matrix_throttle_step c w)
  = Matrix.fps_interval
      (Matrix.get (Matrix.target_fps (Matrix.settings w)) 15).
Proof.
  intros Hw Hc. unfold matrix_throttle_step,
    Matrix.check_emergency_cpu_throttle, Matrix.emergency_cpu_threshold.
  assert (E : Qltb 90 c = false) by now apply Qltb_ge.
  now rewrite E, Hw.
Qed.

(** Claim C4.  The throttle check of either engine is run over a
    sequence of load episodes, each a non-empty run of samples above 90
    followed by a non-empty run of samples at or below 90, from a state
    that is not throttled.  The flag after each check tells whether its
    sample was above 90; the state is entered once per episode and left
    once per episode; and every state of the run in which the flag is
    set has a timer interval of 1000 ms, for all settings. *)
Theorem C4_emergency_throttle_episodes
        (mw : Mystify.MystifyWidget) (xw : Matrix.MatrixWidget)
        (episodes : list episode) :
  Mystify.is_emergency_throttled mw = false ->
  Matrix.is_emergency_throttled xw = false ->
  Forall well_formed_episode episodes ->
  let cs := samples_of episodes in
  (map Mystify.is_emergency_throttled (trace mystify_throttle_step mw cs)
   = map (Qltb 90) cs /\
   transitions mystify_throttle_step Mystify.is_emergency_throttled
               false mw cs = length episodes /\
   transitions mystify_throttle_step Mystify.is_emergency_throttled
               true mw cs = length episodes /\
   Forall (fun w => Mystify.is_emergency_throttled w = true ->
                    Mystify.timer_interval w = 1000)
          (trace mystify_throttle_step mw cs)) /\
  (map Matrix.is_emergency_throttled (trace matrix_throttle_step xw cs)
   = map (Qltb 90) cs /\
   transitions matrix_throttle_step Matrix.is_emergency_throttled
               false xw cs = length episodes /\
   transitions matrix_throttle_step Matrix.is_emergency_throttled
               true xw cs = length episodes /\
   Forall (fun w => Matrix.is_emergency_throttled w = true ->
                    Matrix.timer_interval w = 1000)
          (trace matrix_throttle_step xw cs)).
Proof.
  intros Hm Hx Hwf cs. split.
  - destruct (episodes_run mystify_throttle_step
                Mystify.is_emergency_throttled
                mystify_flag_tracks_sample mw episodes Hm Hwf)
      as (Hin & Hout & _).
    repeat split; try assumption.
    + apply trace_flags, mystify_flag_tracks_sample.
    + apply trace_invariant.
      * intros c s. apply mystify_throttled_interval.
      * rewrite Hm. discriminate.
  - destruct (episodes_run matrix_throttle_step
                Matrix.is_emergency_throttled
                matrix_flag_tracks_sample xw episodes Hx Hwf)
      as (Hin & Hout & _).
    repeat split; try assumption.
    + apply trace_flags, matrix_flag_tracks_sample.
    + apply trace_invariant.
      * intros c s. apply matrix_throttled_interval.
      * rewrite Hx. discriminate.
Qed.

Lemma C4_emergency_throttle_episodes_witness :
  let cs := samples_of Sample.episodes in
  transitions mystify_throttle_step Mystify.is_emergency_throttled
              false (Sample.mystify 1.0) cs = 2%nat /\
  transitions matrix_throttle_step Matrix.is_emergency_throttled
              true Sample.matrix cs = 2%nat.
Proof.
  assert (Hwf : Forall well_formed_episode Sample.episodes).
  { repeat constructor; try discriminate; vm_compute; reflexivity. }
  destruct (C4_emergency_throttle_episodes
              (Sample.mystify 1.0) Sample.matrix Sample.episodes
              eq_refl eq_refl Hwf)
    as ((_ & Hin & _) & (_ & _ & Hout & _)).
  split; [exact Hin | exact Hout].
Defined.

End Throttle.

(** ** The quality level *)

Section Quality.
Import Py Psutil Mystify.
Local Open Scope Q_scope.

Lemma lower_quality_in_range (floor step q : Q) :
  0.3 <= floor -> floor <= 1.0 -> 0 <= step ->
  quality_in_range q -> quality_in_range (max floor (q - step)).
Proof.
  intros Hlo Hhi Hstep [Hq1 Hq2]. unfold quality_in_range.
  apply max_bounds; lra.
Qed.

Lemma raise_quality_in_range (step q : Q) :
  0 <= step -> quality_in_range q -> quality_in_range (min 1.0 (q + step)).
Proof.
  intros Hstep [Hq1 Hq2]. unfold quality_in_range.
  apply min_bounds; lra.
Qed.

Lemma clamp_quality_in_range (ceiling q : Q) :
  0.3 <= ceiling -> ceiling <= 1.0 ->
  quality_in_range q -> quality_in_range (min ceiling q).
Proof.
  intros Hlo Hhi [Hq1 Hq2]. unfold quality_in_range.
  apply min_bounds; lra.
Qed.

#[local] Hint Resolve lower_quality_in_range raise_quality_in_range
  clamp_quality_in_range : quality.
#[local] Hint Extern 1 (_ <= _)%Q => lra : quality.

Lemma adaptive_quality_in_range (psutil : option sample) (w : MystifyWidget) :
  quality_in_range (quality_level w) ->
  quality_in_range (quality_level (adaptive_performance_adjustment psutil w)).
Proof.
  intros Hq. unfold adaptive_performance_adjustment.
  destruct psutil as [readings|]; [|assumption].
  cbv zeta.
  set (w1 := match frame_times w with [] => w | _ => _ end).
  assert (H1 : quality_in_range (quality_level w1)).
  { subst w1. destruct (frame_times w); [assumption|].
    case_conditionals; cbn [quality_level with_quality_level];
      auto with quality. }
  clearbody w1.
  set (w2 := if Qltb cpu_threshold _ then _ else w1).
  assert (H2 : quality_in_range (quality_level w2)).
  { subst w2. case_conditionals;
      cbn [quality_level with_quality_level with_frame_skip_ratio];
      auto with quality. }
  clearbody w2.
  case_conditionals;
    cbn [quality_level with_quality_level with_trail_length];
    auto with quality.
Qed.

Lemma optimizations_quality_in_range (now : Q) (w : MystifyWidget) :
  quality_in_range (quality_level w) ->
  quality_in_range
    (quality_level (snd (_apply_performance_optimizations now w))).
Proof.
  intros Hq. unfold _apply_performance_optimizations.
  destruct (get (power_saving_mode (settings w)) false);
    destruct (get (energy_efficient (settings w)) true);
    destruct (frame_count w mod 2 =? 0)%Z;
    destruct (frame_count w mod 5 =? 0)%Z;
    cbn [andb negb snd quality_level with_quality_level
         last_activity_check with_last_activity_check];
    try assumption;
    case_conditionals;
    cbn [snd quality_level with_quality_level with_last_activity_check];
    auto 6 with quality.
Qed.

End Quality.

(** ** Loops that draw random numbers *)

Section Loops.
Import Py Random.

Lemma bind_ok {A B} (m : M A) (k : A -> M B) (g g2 : rng) (b : B) :
  bind m k g = Ok (b, g2) ->
  exists (a : A) (g1 : rng), m g = Ok (a, g1) /\ k a g1 = Ok (b, g2).
Proof.
  unfold bind. destruct (m g) as [[a g1]|e]; [|discriminate].
  intros H. now exists a, g1.
Qed.

Lemma randint_ok (a b : Z) (g : rng) :
  a <= b ->
  exists (r : Z) (g1 : rng), randint a b g = Ok (r, g1) /\ a <= r <= b.
Proof.
  intros Hab. unfold randint.
  destruct (Z.ltb_spec b a) as [Hlt|_]; [lia|].
  eexists _, _. split; [reflexivity|].
  pose proof (Z.mod_pos_bound (draws g (cursor g)) (b - a + 1)). lia.
Qed.

(** A loop whose body keeps [P] keeps [P], when it ends normally. *)
Lemma for_each_inv {A St} (P : St -> Prop) (body : A -> St -> M St) :
  (forall x s g s1 g1, P s -> body x s g = Ok (s1, g1) -> P s1) ->
  forall xs s g s1 g1,
    P s -> for_each xs body s g = Ok (s1, g1) -> P s1.
Proof.
  intros Hbody xs. induction xs as [|x xs IH]; intros s g s1 g1 Hs Hrun.
  - cbn in Hrun. injection Hrun as <- _. exact Hs.
  - cbn in Hrun. apply bind_ok in Hrun as (s' & g' & Hx & Hrest).
    eapply IH; [|exact Hrest]. eapply Hbody; eassumption.
Qed.

(** A loop whose body always ends normally and steps an indexed
    invariant ends normally after [length xs] steps. *)
Lemma for_each_total {A St} (P : nat -> St -> Prop)
      (body : A -> St -> M St) (xs : list A) :
  (forall k x s g,
      In x xs ->
      P k s -> exists s1 g1, body x s g = Ok (s1, g1) /\ P (S k) s1) ->
  forall k s g,
    P k s ->
    exists s1 g1,
      for_each xs body s g = Ok (s1, g1) /\ P (k + length xs)%nat s1.
Proof.
  induction xs as [|x xs IH]; intros Hbody k s g Hs.
  - exists s, g. split; [reflexivity|]. now rewrite Nat.add_0_r.
  - destruct (Hbody k x s g (or_introl eq_refl) Hs) as (s' & g' & Hx & Hs').
    destruct (IH (fun k y s g Hy => Hbody k y s g (or_intror Hy))
                 (S k) s' g' Hs')
      as (s1 & g1 & Hrest & Hs1).
    exists s1, g1. split.
    + cbn. unfold bind at 1. now rewrite Hx.
    + simpl length. now rewrite Nat.add_succ_r.
Qed.

End Loops.

(** ** Construction of the curve engine *)

Section Construction.
Import Py Qt Random Mystify.

Lemma init_control_point_ok (width height : Z) (speed : Q)
      (j : nat) (shape : Shape) (g : rng) (k : nat) :
  200 <= width -> 200 <= height ->
  points_and_velocities k shape ->
  exists shape1 g1,
    init_control_point width height speed j shape g = Ok (shape1, g1) /\
    points_and_velocities (S k) shape1.
Proof.
  intros Hw Hh [Hp Hv]. unfold init_control_point.
  destruct (randint_ok 100 (width - 100) g ltac:(lia))
    as (x & g1 & Ex & _).
  destruct (randint_ok 100 (height - 100) g1 ltac:(lia))
    as (y & g2 & Ey & _).
  unfold bind at 1. rewrite Ex. unfold bind at 1. rewrite Ey.
  eexists _, _. split; [reflexivity|].
  unfold points_and_velocities. cbn [control_points velocities].
  rewrite !length_app, Hp, Hv. simpl. lia.
Qed.

(** Body of the inner loop leaves the colour of the shape alone. *)
Lemma init_control_point_hue (width height : Z) (speed : Q)
      (j : nat) (shape shape1 : Shape) (g g1 : rng) :
  init_control_point width height speed j shape g = Ok (shape1, g1) ->
  color_hue shape1 = color_hue shape.
Proof.
  unfold init_control_point. intros E.
  repeat (apply bind_ok in E as (? & ? & _ & E)).
  now injection E as <- _.
Qed.

Lemma init_control_points_ok (width height : Z) (speed : Q) (n : Z)
      (shape : Shape) (g : rng) :
  200 <= width -> 200 <= height ->
  points_and_velocities 0 shape ->
  exists shape1 g1,
    for_each (range n) (init_control_point width height speed) shape g
    = Ok (shape1, g1) /\
    points_and_velocities (Z.to_nat n) shape1 /\
    color_hue shape1 = color_hue shape.
Proof.
  intros Hw Hh H0.
  destruct (for_each_total
              (fun k s => points_and_velocities k s /\
                          color_hue s = color_hue shape)
              (init_control_point width height speed)) with
    (xs := range n) (k := 0%nat) (s := shape) (g := g)
    as (shape1 & g1 & Eloop & Hshape & Hhue).
  - intros k x s gx _ [Hk Hc].
    destruct (init_control_point_ok width height speed x s gx k Hw Hh Hk)
      as (s1 & gy & E1 & H1).
    exists s1, gy. split; [exact E1|]. split; [exact H1|].
    rewrite <- Hc. eapply init_control_point_hue, E1.
  - now split.
  - exists shape1, g1. split; [exact Eloop|]. split; [|exact Hhue].
    unfold range in Hshape. now rewrite length_seq in Hshape.
Qed.

(** Body of the outer loop: one more shape with its empty trail. *)
Lemma init_shape_ok (width height : Z) (speed : Q) (shape_complexity : Z)
      (i : nat) (acc : list Shape * list (list QPainterPath)) (g : rng) :
  200 <= width -> 200 <= height ->
  exists shape g1,
    init_shape width height speed shape_complexity i acc g
    = Ok ((fst acc ++ [shape], snd acc ++ [[]]), g1) /\
    points_and_velocities (Z.to_nat (Z.max 3 (shape_complexity / 2))) shape /\
    exists (hue : Z), color_hue shape = float hue /\ 0 <= hue <= 360.
Proof.
  intros Hw Hh. unfold init_shape.
  destruct (randint_ok 0 360 g ltac:(lia)) as (hue & g1 & Ehue & Hhue).
  unfold bind at 1. rewrite Ehue.
  unfold bind at 1, uniform at 1, bind at 1, random at 1, bind at 1.
  cbn [next ret].
  unfold bind at 1, uniform at 1, bind at 1, random at 1, bind at 1.
  cbn [next ret].
  unfold bind at 1, uniform at 1, bind at 1, random at 1, bind at 1.
  cbn [next ret].
  unfold bind at 1.
  match goal with
  | |- context [for_each ?xs ?body ?s0 ?g0] =>
      destruct (init_control_points_ok width height speed
                  (Z.max 3 (shape_complexity / 2)) s0 g0 Hw Hh)
        as (shape & g5 & Eloop & Hshape & Hcolor);
        [now split|]
  end.
  rewrite Eloop.
  exists shape, g5. split; [reflexivity|]. split; [exact Hshape|].
  exists hue. split; [exact Hcolor | exact Hhue].
Qed.

(** [init_shapes] on a screen of at least 200 by 200 pixels ends
    normally with [num_shapes] shapes, an empty trail per shape, and
    [max(3, shape_complexity // 2)] control points and velocities in
    each shape; only [shapes] and [shape_trails] are assigned. *)
Lemma init_shapes_ok (width height : Z) (w : MystifyWidget) (g : rng) :
  200 <= width -> 200 <= height ->
  exists shapes1 trails1 g1,
    init_shapes width height w g = Ok (with_shapes shapes1 trails1 w, g1) /\
    length shapes1 = Z.to_nat (num_shapes w) /\
    trails1 = repeat [] (Z.to_nat (num_shapes w)) /\
    Forall (points_and_velocities
              (Z.to_nat (Z.max 3 (shape_complexity w / 2)))) shapes1 /\
    Forall (fun shape => exists hue : Z,
                color_hue shape = float hue /\ 0 <= hue <= 360) shapes1.
Proof.
  intros Hw Hh. unfold init_shapes.
  destruct (for_each_total
              (fun k acc =>
                 length (fst acc) = k /\ snd acc = repeat [] k /\
                 Forall (points_and_velocities
                           (Z.to_nat (Z.max 3 (shape_complexity w / 2))))
                        (fst acc) /\
                 Forall (fun shape => exists hue : Z,
                             color_hue shape = float hue /\ 0 <= hue <= 360)
                        (fst acc))
              (init_shape width height (speed w) (shape_complexity w))) with
    (xs := range (num_shapes w)) (k := 0%nat)
    (s := ([], []) : list Shape * list (list QPainterPath)) (g := g)
    as ([shapes1 trails1] & g1 & Eloop & Hlen & Htrails & Hpoints & Hhues).
  - intros k x acc gx _ (Hk & Ht & Hp & Hc).
    destruct (init_shape_ok width height (speed w) (shape_complexity w)
                            x acc gx Hw Hh)
      as (shape & gy & E & Hshape & Hhue).
    eexists _, gy. split; [exact E|]. cbn [fst snd].
    repeat split.
    + rewrite length_app, Hk. simpl. lia.
    + rewrite Ht. symmetry. apply repeat_cons.
    + apply Forall_app. split; [exact Hp|]. now constructor.
    + apply Forall_app. split; [exact Hc|]. now constructor.
  - cbn. repeat split; constructor.
  - cbn [fst snd] in *.
    unfold range in Hlen, Htrails. rewrite length_seq in Hlen, Htrails.
    exists shapes1, trails1, g1. unfold bind. rewrite Eloop.
    repeat split; assumption.
Qed.

(** [__init__] on such a screen. *)
Lemma init_ok (settings : Settings) (start_time drift_start_time : Q)
      (width height : Z) (g : rng) :
  200 <= width -> 200 <= height ->
  exists w g1,
    __init__ settings start_time drift_start_time width height g
    = Ok (w, g1) /\
    length (shapes w) = Z.to_nat (get (mystify_shapes settings) 3) /\
    shape_trails w
    = repeat [] (Z.to_nat (get (mystify_shapes settings) 3)) /\
    Forall (points_and_velocities
              (Z.to_nat (Z.max 3 (get (mystify_complexity settings) 6 / 2))))
           (shapes w) /\
    Forall (fun shape => exists hue : Z,
                color_hue shape = float hue /\ 0 <= hue <= 360) (shapes w) /\
    quality_level w = 1.0%Q /\
    usb_interrupt_baseline w = None /\
    is_emergency_throttled w = false.
Proof.
  intros Hw Hh. unfold __init__.
  match goal with
  | |- context [init_shapes width height ?w0] =>
      destruct (init_shapes_ok width height w0 g Hw Hh)
        as (shapes1 & trails1 & g1 & E & Hlen & Htrails & Hp & Hc)
  end.
  eexists _, g1. unfold bind. rewrite E. split; [reflexivity|].
  cbn in *. repeat split; assumption.
Qed.

End Construction.

(** ** The animation step *)

Section Animation.
Import Py Qt Random Mystify.

(** What moving one control point leaves alone. *)
Lemma move_control_point_frame (width height : Z) (m : Q) (j : nat)
      (shape shape1 : Shape) (g g1 : rng) :
  move_control_point width height m j shape g = Ok (shape1, g1) ->
  g1 = g /\
  length (control_points shape1) = length (control_points shape) /\
  length (velocities shape1) = length (velocities shape) /\
  color_hue shape1 = color_hue shape /\
  color_shift shape1 = color_shift shape /\
  curve_tension shape1 = curve_tension shape.
Proof.
  unfold move_control_point.
  destruct (control_points shape !! j) as [point|]; [|discriminate].
  destruct (velocities shape !! j) as [velocity|]; [|discriminate].
  destruct (bounce width _ _ _) as [new_x vx].
  destruct (bounce height _ _ _) as [new_y vy].
  intros E. injection E as <- <-. cbn.
  rewrite !length_insert. repeat split; reflexivity.
Qed.

Lemma move_control_point_ok (width height : Z) (m : Q) (j : nat)
      (shape : Shape) (g : rng) :
  (j < length (control_points shape))%nat ->
  length (velocities shape) = length (control_points shape) ->
  exists shape1, move_control_point width height m j shape g = Ok (shape1, g).
Proof.
  intros Hj Hv. unfold move_control_point.
  destruct (lookup_lt_is_Some_2 (control_points shape) j Hj) as [p ->].
  destruct (lookup_lt_is_Some_2 (velocities shape) j ltac:(lia)) as [v ->].
  destruct (bounce width _ _ _) as [new_x vx].
  destruct (bounce height _ _ _) as [new_y vy].
  eexists. reflexivity.
Qed.

Lemma move_control_points_frame (width height : Z) (m : Q) (js : list nat)
      (shape shape1 : Shape) (g g1 : rng) :
  for_each js (move_control_point width height m) shape g = Ok (shape1, g1) ->
  same_outline shape shape1.
Proof.
  apply (for_each_inv (same_outline shape)).
  - intros j s gx s1 gy (Hp & Hv & Hh & Hs) E.
    apply move_control_point_frame in E as (_ & Hp1 & Hv1 & Hh1 & Hs1 & _).
    unfold same_outline. repeat split; congruence.
  - unfold same_outline. auto.
Qed.

Lemma move_control_points_ok (width height : Z) (m : Q)
      (shape : Shape) (g : rng) :
  length (velocities shape) = length (control_points shape) ->
  exists shape1 g1,
    for_each (seq 0 (length (control_points shape)))
             (move_control_point width height m) shape g = Ok (shape1, g1).
Proof.
  intros Hv.
  destruct (for_each_total
              (fun (_ : nat) s => same_outline shape s)
              (move_control_point width height m)
              (seq 0 (length (control_points shape)))) with
    (k := 0%nat) (s := shape) (g := g) as (shape1 & g1 & E & _).
  - intros k j s gx Hj (Hp & Hv1 & Hh & Hs).
    apply in_seq in Hj.
    destruct (move_control_point_ok width height m j s gx) as [s1 E];
      [lia | lia |].
    exists s1, gx. split; [exact E|].
    apply move_control_point_frame in E as (_ & Hp1 & Hv2 & Hh1 & Hs1 & _).
    unfold same_outline. repeat split; congruence.
  - unfold same_outline. auto.
  - now exists shape1, g1.
Qed.

(** The hue after [evolve_shape]: reduced modulo 360 on a hue-update
    frame, untouched otherwise. *)
Lemma evolve_shape_ok (w : MystifyWidget) (shape : Shape) (g : rng) :
  exists shape1 g1,
    evolve_shape w shape g = Ok (shape1, g1) /\
    control_points shape1 = control_points shape /\
    velocities shape1 = velocities shape /\
    color_hue shape1 =
    if Qltb 0.7 (quality_level w) || (frame_count w mod 3 =? 0)
    then fmod (color_hue shape + color_shift shape) 360
    else color_hue shape.
Proof.
  unfold evolve_shape, uniform, random.
  cbv beta iota delta [bind next ret].
  eexists _, _. split; [reflexivity|]. cbn. auto.
Qed.

Lemma evolve_shape_hue (w : MystifyWidget) (shape shape1 : Shape)
      (g g1 : rng) :
  evolve_shape w shape g = Ok (shape1, g1) ->
  hue_in_range (color_hue shape) -> hue_in_range (color_hue shape1).
Proof.
  destruct (evolve_shape_ok w shape g) as (s & gx & E & _ & _ & Hhue).
  rewrite E. intros [= <- <-] Hin. rewrite Hhue.
  destruct (_ || _); [|exact Hin].
  apply fmod_range. reflexivity.
Qed.

Lemma step_of_refl (w : MystifyWidget) : step_of w w.
Proof.
  exists (shapes w), (shape_trails w). destruct w. cbn. auto.
Qed.

Lemma step_of_trans (w w1 w2 : MystifyWidget) :
  step_of w w1 -> step_of w1 w2 -> step_of w w2.
Proof.
  intros (s1 & t1 & -> & Hs1 & Ht1 & Hh1) (s2 & t2 & -> & Hs2 & Ht2 & Hh2).
  exists s2, t2. cbn in *. repeat split; auto; congruence.
Qed.

Lemma update_shape_frame (width height start_idx : Z) (idx : nat)
      (w w1 : MystifyWidget) (g g1 : rng) :
  update_shape width height start_idx idx w g = Ok (w1, g1) ->
  step_of w w1.
Proof.
  unfold update_shape.
  set (i := Z.to_nat _).
  destruct (shapes w !! i) as [shape|] eqn:Hshape; [|discriminate].
  intros E.
  apply bind_ok in E as (trails & g2 & Etrails & E).
  apply bind_ok in E as (shape1 & g3 & Emove & E).
  apply bind_ok in E as (shape2 & g4 & Eevolve & E).
  injection E as <- <-.
  exists (<[i := shape2]> (shapes w)), trails.
  split; [reflexivity|]. split; [apply length_insert|]. split.
  - destruct (stores_curve w).
    + destruct (shape_trails w !! i); [|discriminate].
      injection Etrails as <- _. apply length_insert.
    + now injection Etrails as <- _.
  - intros Hhues. apply Forall_insert; [exact Hhues|].
    apply move_control_points_frame in Emove as (_ & _ & Hh & _).
    eapply evolve_shape_hue; [exact Eevolve|]. rewrite Hh.
    eapply Forall_lookup_1 in Hhues; [exact Hhues | exact Hshape].
Qed.

(** [_update_shape_animations], when it ends normally. *)
Lemma update_shape_animations_frame (width height : Z)
      (w w1 : MystifyWidget) (g g1 : rng) :
  _update_shape_animations width height w g = Ok (w1, g1) ->
  step_of w w1.
Proof.
  unfold _update_shape_animations.
  destruct (length (shapes w) =? 0)%nat; [discriminate|].
  apply (for_each_inv (step_of w)).
  - intros idx s gx s1 gy Hs E.
    apply update_shape_frame in E. eapply step_of_trans; eassumption.
  - apply step_of_refl.
Qed.

Lemma step_of_well_formed (w w1 : MystifyWidget) :
  well_formed w -> step_of w w1 ->
  Forall (fun shape => length (velocities shape)
                       = length (control_points shape)) (shapes w1) ->
  well_formed w1.
Proof.
  intros (Hne & Hlen & _) (s1 & t1 & -> & Hs & Ht & _) Hv.
  unfold well_formed. cbn [shapes shape_trails with_shapes] in *.
  split; [|split; [lia | exact Hv]].
  intros ->. destruct (shapes w); [congruence|discriminate].
Qed.

Lemma update_shape_ok (width height start_idx : Z) (idx : nat)
      (w : MystifyWidget) (g : rng) :
  well_formed w ->
  exists w1 g1,
    update_shape width height start_idx idx w g = Ok (w1, g1) /\
    well_formed w1.
Proof.
  intros Hwf. pose proof Hwf as (Hne & Hlen & Hvel).
  assert (Hn : 0 < Z.of_nat (length (shapes w))).
  { destruct (shapes w); [congruence|]. simpl length. lia. }
  pose proof (Z.mod_pos_bound (start_idx + Z.of_nat idx) _ Hn) as Hi.
  destruct (update_shape width height start_idx idx w g)
    as [[w1 g1]|e] eqn:E.
  - exists w1, g1. split; [reflexivity|].
    pose proof (update_shape_frame _ _ _ _ _ _ _ _ E) as Hstep.
    apply (step_of_well_formed w w1 Hwf Hstep).
    revert E. unfold update_shape.
    set (i := Z.to_nat _).
    destruct (shapes w !! i) as [shape|] eqn:Hshape; [|discriminate].
    intros E.
    apply bind_ok in E as (trails & g2 & _ & E).
    apply bind_ok in E as (shape1 & g3 & Emove & E).
    apply bind_ok in E as (shape2 & g4 & Eevolve & E).
    injection E as <- <-. cbn.
    apply Forall_insert; [exact Hvel|].
    apply move_control_points_frame in Emove as (Hp & Hv & _).
    destruct (evolve_shape_ok w shape1 g3) as (s & gx & E2 & Hcp & Hve & _).
    rewrite E2 in Eevolve. injection Eevolve as <- _.
    rewrite Hcp, Hve, Hp, Hv.
    eapply Forall_lookup_1 in Hvel; [exact Hvel | exact Hshape].
  - exfalso. revert E. unfold update_shape.
    set (i := Z.to_nat _).
    assert (Hlt : (i < length (shapes w))%nat) by (subst i; lia).
    destruct (lookup_lt_is_Some_2 (shapes w) i Hlt) as [shape Hshape].
    destruct (lookup_lt_is_Some_2 (shape_trails w) i ltac:(lia))
      as [trail Htrail].
    rewrite Hshape, Htrail.
    assert (Hv : length (velocities shape) = length (control_points shape)).
    { eapply Forall_lookup_1 in Hvel; [exact Hvel | exact Hshape]. }
    destruct (move_control_points_ok
                width height
                (if Qltb 0.5 (quality_level w)
                 then quality_level w else 0.5%Q)
                shape g Hv) as (shape1 & g3 & Emove).
    destruct (stores_curve w); unfold bind, ret;
      rewrite Emove; discriminate.
Qed.

(** The step ends normally on a well-formed engine. *)
Lemma update_shape_animations_ok (width height : Z)
      (w : MystifyWidget) (g : rng) :
  well_formed w ->
  exists w1 g1,
    _update_shape_animations width height w g = Ok (w1, g1) /\
    well_formed w1.
Proof.
  intros Hwf. unfold _update_shape_animations.
  destruct (Nat.eqb_spec (length (shapes w)) 0) as [E|_].
  { destruct Hwf as [Hne _]. destruct (shapes w); [congruence|discriminate]. }
  destruct (for_each_total
              (fun (_ : nat) s => well_formed s)
              (update_shape width height
                            (frame_count w mod Z.of_nat (length (shapes w))))
              (seq 0 (length (shapes w)))) with
    (k := 0%nat) (s := w) (g := g) as (w1 & g1 & E & Hw1).
  - intros _ idx s gx _ Hs. now apply update_shape_ok.
  - exact Hwf.
  - now exists w1, g1.
Qed.

End Animation.

(** ** The claims about the curve engine's governor and construction *)

Section Governor.
Import Py Qt Random Psutil Mystify.

(** [__init__] assigns 1.0 to the quality level, whenever it ends
    normally. *)
Lemma init_quality (settings : Settings) (start_time drift_start_time : Q)
      (width height : Z) (g g1 : rng) (w : MystifyWidget) :
  __init__ settings start_time drift_start_time width height g = Ok (w, g1) ->
  quality_level w = 1.0%Q.
Proof.
  unfold __init__, init_shapes. intros E.
  apply bind_ok in E as (w1 & g2 & E1 & E).
  apply bind_ok in E1 as (acc & g3 & _ & E1).
  injection E1 as <- _. now injection E as <- _.
Qed.

(** Claim C5.  The quality level is 1.0 after construction, and from
    any value in [0.3, 1.0] both [adaptive_performance_adjustment]
    (frame-time, CPU and memory branches, for every telemetry sample)
    and [_apply_performance_optimizations] (power-saving and
    energy-efficient clamps, at every time) leave it in [0.3, 1.0]. *)
Theorem C5_quality_level_stays_in_range
        (settings : Settings) (start_time drift_start_time : Q)
        (width height : Z) (g : rng)
        (w : MystifyWidget) (psutil : option sample) (now : Q) :
  quality_in_range (quality_level w) ->
  match __init__ settings start_time drift_start_time width height g with
  | Ok (w0, _) => quality_level w0 = 1.0%Q
  | Raise _ => True
  end /\
  quality_in_range 1.0 /\
  quality_in_range
    (quality_level (adaptive_performance_adjustment psutil w)) /\
  quality_in_range
    (quality_level (snd (_apply_performance_optimizations now w))).
Proof.
  intros Hq. split; [|split; [|split]].
  - destruct (__init__ _ _ _ _ _ _) as [[w0 g0]|e] eqn:E; [|exact I].
    eapply init_quality, E.
  - unfold quality_in_range. split; [discriminate | apply Qle_refl].
  - now apply adaptive_quality_in_range.
  - now apply optimizations_quality_in_range.
Qed.

Lemma C5_quality_level_stays_in_range_witness :
  quality_in_range
    (quality_level
       (adaptive_performance_adjustment (Some Sample.busy)
                                        (Sample.mystify 0.35))) /\
  quality_in_range
    (quality_level
       (snd (_apply_performance_optimizations 100 (Sample.mystify 0.35)))).
Proof.
  destruct (C5_quality_level_stays_in_range
              Sample.settings 0 0 1920 1080 Sample.rng360
              (Sample.mystify 0.35) (Some Sample.busy) 100)
    as (_ & _ & Hadjust & Hclamp).
  - vm_compute. split; discriminate.
  - split; [exact Hadjust | exact Hclamp].
Defined.

(** What the adaptive adjustment assigns: the quality level, the
    frame-skip ratio and the trail length. *)
Lemma adaptive_frame (psutil : option sample) (w : MystifyWidget) :
  let a := adaptive_performance_adjustment psutil w in
  a = with_quality_level (quality_level a)
        (with_frame_skip_ratio (frame_skip_ratio a)
           (with_trail_length (trail_length a) w)).
Proof.
  destruct w. unfold adaptive_performance_adjustment.
  destruct psutil as [readings|]; [|reflexivity].
  cbn [Mystify.frame_times Mystify.quality_level Mystify.frame_skip_ratio
       Mystify.trail_length].
  destruct frame_times0; case_conditionals; reflexivity.
Qed.

(** What the throttle check assigns: the flag and the timer interval. *)
Lemma mystify_throttle_frame (psutil : option cpu_reading)
      (w : MystifyWidget) :
  let t := Mystify.check_emergency_cpu_throttle psutil w in
  t = with_throttle (is_emergency_throttled t) (timer_interval t) w.
Proof.
  destruct w. unfold Mystify.check_emergency_cpu_throttle.
  destruct psutil as [[c|cs|]|]; try reflexivity;
    cbn [Mystify.is_emergency_throttled];
    destruct (Qltb _ _); destruct is_emergency_throttled0; reflexivity.
Qed.


(** A widget constructed with at least one shape is in the state the
    animation step expects, so the step ends normally on it. *)
Lemma init_well_formed (settings : Settings)
      (start_time drift_start_time : Q) (width height : Z) (g : rng) :
  200 <= width -> 200 <= height ->
  1 <= get (mystify_shapes settings) 3 ->
  exists w g1,
    __init__ settings start_time drift_start_time width height g
    = Ok (w, g1) /\
    well_formed w.
Proof.
  intros Hw Hh Hn.
  destruct (init_ok settings start_time drift_start_time width height g
                    Hw Hh)
    as (w & g1 & E & Hlen & Htrails & Hpoints & _).
  exists w, g1. split; [exact E|]. repeat split.
  - intros Hnil. rewrite Hnil in Hlen. simpl in Hlen. lia.
  - now rewrite Htrails, repeat_length, Hlen.
  - eapply Forall_impl; [exact Hpoints|].
    intros shape [Hp Hv]. congruence.
Qed.

(** The other operations of the engine do not assign the quality level. *)
Lemma other_operations_keep_quality
      (w : MystifyWidget) (reading : option cpu_reading)
      (now : Q) (source : option string) (width height : Z) (g : rng) :
  quality_level (Mystify.check_emergency_cpu_throttle reading w)
  = quality_level w /\
  quality_level (fst (Mystify.check_usb_activity now source w))
  = quality_level w /\
  match _update_shape_animations width height w g with
  | Ok (w1, _) => quality_level w1 = quality_level w
  | Raise _ => True
  end.
Proof.
  split; [|split].
  - now rewrite mystify_throttle_frame.
  - unfold Mystify.check_usb_activity. now case_conditionals.
  - destruct (_update_shape_animations width height w g)
      as [[w1 g1]|e] eqn:E; [|exact I].
    now apply update_shape_animations_frame in E as (s1 & t1 & -> & _).
Qed.


(** On a primary screen narrower or lower than 200 pixels the first
    control point cannot be placed: [random.randint(100, width - 100)]
    or [random.randint(100, height - 100)] has an empty range. *)
Lemma init_control_point_raises (width height : Z) (speed : Q)
      (j : nat) (shape : Shape) (g : rng) :
  width < 200 \/ height < 200 ->
  init_control_point width height speed j shape g = Raise ValueError.
Proof.
  intros Hsmall. unfold init_control_point.
  destruct (Z.lt_ge_cases width 200) as [Hw|Hw].
  - unfold bind at 1, randint at 1.
    destruct (Z.ltb_spec (width - 100) 100) as [_|Hge]; [reflexivity | lia].
  - destruct (randint_ok 100 (width - 100) g ltac:(lia))
      as (x & g1 & Ex & _).
    unfold bind at 1. rewrite Ex. unfold bind at 1, randint at 1.
    destruct (Z.ltb_spec (height - 100) 100) as [_|Hge]; [reflexivity | lia].
Qed.

Lemma init_shape_raises (width height : Z) (speed : Q) (shape_complexity : Z)
      (i : nat) (acc : list Shape * list (list QPainterPath)) (g : rng) :
  width < 200 \/ height < 200 ->
  init_shape width height speed shape_complexity i acc g = Raise ValueError.
Proof.
  intros Hsmall. unfold init_shape.
  destruct (randint_ok 0 360 g ltac:(lia)) as (hue & g1 & Ehue & _).
  unfold bind at 1. rewrite Ehue.
  unfold bind at 1, uniform at 1, bind at 1, random at 1, bind at 1.
  cbn [next ret].
  unfold bind at 1, uniform at 1, bind at 1, random at 1, bind at 1.
  cbn [next ret].
  unfold bind at 1, uniform at 1, bind at 1, random at 1, bind at 1.
  cbn [next ret].
  unfold bind at 1, range.
  destruct (Z.to_nat (Z.max 3 (shape_complexity / 2))) as [|n] eqn:En;
    [lia|].
  cbn [seq for_each]. unfold bind at 1.
  now rewrite init_control_point_raises.
Qed.

(** Construction with at least one shape fails on such a screen, for
    every entropy source. *)
Lemma init_raises_on_small_screen (settings : Settings)
      (start_time drift_start_time : Q) (width height : Z) (g : rng) :
  1 <= get (mystify_shapes settings) 3 ->
  width < 200 \/ height < 200 ->
  __init__ settings start_time drift_start_time width height g
  = Raise ValueError.
Proof.
  intros Hn Hsmall. unfold __init__, init_shapes.
  cbn [num_shapes speed shape_complexity]. unfold range.
  destruct (Z.to_nat (get (mystify_shapes settings) 3)) as [|n] eqn:En;
    [lia|].
  cbn [seq for_each]. unfold bind.
  now rewrite init_shape_raises.
Qed.

(** Claim C8 as stated fails: it puts no condition on the screen.  With
    the configuration of the claim on a primary screen of 199 by 1080
    pixels construction raises [ValueError] and produces no shape. *)
Lemma C8_small_screen_produces_no_shapes :
  ~ (forall (settings : Settings) (start_time drift_start_time : Q)
            (width height : Z) (g : rng),
        mystify_shapes settings = Some 3 ->
        mystify_complexity settings = Some 6 ->
        exists w g1,
          __init__ settings start_time drift_start_time width height g
          = Ok (w, g1) /\
          length (shapes w) = 3%nat).
Proof.
  intros H.
  destruct (H Sample.settings 0%Q 0%Q 199 1080 Sample.rng360
              eq_refl eq_refl) as (w & g1 & E & _).
  vm_compute in E. discriminate E.
Qed.

(** Claim C8, amended.  With [mystify_shapes = 3] and
    [mystify_complexity = 6], on a primary screen of at least 200 by 200
    pixels construction ends normally for every entropy source, with
    exactly 3 shapes, each with [max(3, 6 // 2) = 3] control points and
    3 velocities.  On a primary screen narrower or lower than 200
    pixels the range of the random start positions is empty:
    construction raises [ValueError] for every entropy source and
    produces no shape. *)
Theorem C8_three_shapes_of_three_points
        (settings : Settings) (start_time drift_start_time : Q)
        (width height : Z) (g : rng) :
  mystify_shapes settings = Some 3 ->
  mystify_complexity settings = Some 6 ->
  Z.max 3 (6 / 2) = 3 /\
  (200 <= width -> 200 <= height ->
   exists w g1,
     __init__ settings start_time drift_start_time width height g
     = Ok (w, g1) /\
     length (shapes w) = 3%nat /\
     length (shape_trails w) = 3%nat /\
     Forall (fun shape => length (control_points shape) = 3%nat /\
                          length (velocities shape) = 3%nat) (shapes w)) /\
  (width < 200 \/ height < 200 ->
   __init__ settings start_time drift_start_time width height g
   = Raise ValueError).
Proof.
  intros Hshapes Hcomplexity. split; [reflexivity|]. split.
  - intros Hw Hh.
    destruct (init_ok settings start_time drift_start_time width height g
                      Hw Hh)
      as (w & g1 & E & Hlen & Htrails & Hpoints & _).
    rewrite Hshapes in Hlen, Htrails. rewrite Hcomplexity in Hpoints.
    exists w, g1. split; [exact E|]. split; [exact Hlen|].
    split; [now rewrite Htrails|]. exact Hpoints.
  - apply init_raises_on_small_screen. rewrite Hshapes. cbn. lia.
Qed.

Lemma C8_three_shapes_of_three_points_witness :
  (exists w g1,
      __init__ Sample.settings 0 0 1920 1080 Sample.rng360 = Ok (w, g1) /\
      length (shapes w) = 3%nat /\
      length (shape_trails w) = 3%nat /\
      Forall (fun shape => length (control_points shape) = 3%nat /\
                           length (velocities shape) = 3%nat) (shapes w)) /\
  __init__ Sample.settings 0 0 240 135 Sample.rng360 = Raise ValueError.
Proof.
  destruct (C8_three_shapes_of_three_points
              Sample.settings 0 0 1920 1080 Sample.rng360 eq_refl eq_refl)
    as (_ & Hlarge & _).
  destruct (C8_three_shapes_of_three_points
              Sample.settings 0 0 240 135 Sample.rng360 eq_refl eq_refl)
    as (_ & _ & Hsmall).
  split; [apply Hlarge; lia | apply Hsmall; lia].
Defined.

(** Claim C10 against the code.  [init_shapes] draws the hue with
    [random.randint(0, 360)], which includes 360.  With an entropy
    source whose raw draws are 360 the three shapes start with hue
    360, outside [0, 360). *)
Theorem C10_initial_hue_can_be_360 :
  match __init__ Sample.settings 0 0 1920 1080 Sample.rng360 with
  | Ok (w, _) => map color_hue (shapes w) = [360%Q; 360%Q; 360%Q]
  | Raise _ => False
  end /\
  ~ hue_in_range 360.
Proof.
  split.
  - vm_compute. reflexivity.
  - intros [_ H]. exact (Qlt_irrefl _ H).
Qed.

(** The part of claim C10 that the code keeps: a hue drawn at
    construction is in [0, 360], and the animation step keeps hues in
    [0, 360). *)
Lemma update_keeps_hues_in_range (width height : Z)
      (w w1 : MystifyWidget) (g g1 : rng) :
  _update_shape_animations width height w g = Ok (w1, g1) ->
  hues_in_range (shapes w) -> hues_in_range (shapes w1).
Proof.
  intros E Hin.
  apply update_shape_animations_frame in E as (s1 & t1 & -> & _ & _ & H).
  exact (H Hin).
Qed.

End Governor.

(** ** Statistics drift *)

Section DriftFacts.
Import Py.
Local Open Scope Q_scope.


Lemma float_nonzero (n : Z) : n <> 0%Z -> ~ float n == 0.
Proof.
  intros Hn E. apply Hn. unfold float, Qeq in E. simpl in E. lia.
Qed.




End DriftFacts.

(** ** Rendering of a rain column *)

Section Rendering.
Import Py Qt Matrix.

Lemma int_mono (x y : Q) : (x <= y)%Q -> int x <= int y.
Proof.
  intros Hxy.
  destruct (Qlt_le_dec x 0) as [Hx|Hx]; destruct (Qlt_le_dec y 0) as [Hy|Hy].
  - rewrite !int_ceiling by now apply Qlt_le_weak.
    now apply Qceiling_resp_le.
  - rewrite int_ceiling by now apply Qlt_le_weak.
    rewrite int_floor by assumption.
    pose proof (Qceiling_resp_le x 0 (Qlt_le_weak _ _ Hx)) as H1.
    pose proof (Qfloor_resp_le 0 y Hy) as H2.
    change (Qceiling 0) with 0 in H1. change (Qfloor 0) with 0 in H2. lia.
  - exfalso. apply (Qlt_irrefl 0).
    apply Qle_lt_trans with y; [|exact Hy].
    now apply Qle_trans with x.
  - rewrite !int_floor by (try assumption; now apply Qle_trans with x).
    now apply Qfloor_resp_le.
Qed.

(** Every call issued by the loop of [draw_column] draws an entry of
    the column whose position passed the off-screen test. *)
Lemma draw_chars_visible (w : MatrixWidget) (screen_height : Z)
      (base_hue : Q) (column_x : Z) (entries : list (string * Q * Z)) :
  forall (i : nat) (calls : list draw_text) (e : option exn),
    draw_chars w screen_height base_hue column_x i entries = (calls, e) ->
    Forall (fun call =>
              exists (k : nat) (char : string) (pos : Q) (age : Z),
                entries !! k = Some (char, pos, age) /\
                text call = char /\ text_y call = int pos /\
                (-50 <= pos)%Q /\ (pos <= float screen_height + 50)%Q)
           calls.
Proof.
  induction entries as [|[[char pos] age] rest IH]; intros i calls e Hdraw.
  - cbn in Hdraw. injection Hdraw as <- _. constructor.
  - cbn [draw_chars] in Hdraw.
    destruct (Qltb pos (-50)) eqn:Hlow; cbn [orb] in Hdraw.
    { apply IH in Hdraw. eapply Forall_impl; [exact Hdraw|].
      intros call (k & c & p & a & Hk & H). exists (S k), c, p, a. auto. }
    destruct (Qltb (float screen_height + 50) pos) eqn:Hhigh.
    { apply IH in Hdraw. eapply Forall_impl; [exact Hdraw|].
      intros call (k & c & p & a & Hk & H). exists (S k), c, p, a. auto. }
    destruct (10 <? i)%nat; [injection Hdraw as <- _; constructor|].
    destruct (trail_color w base_hue i) as [color|err];
      [|injection Hdraw as <- _; constructor].
    destruct (draw_chars w screen_height base_hue column_x (S i) rest)
      as [calls1 e1] eqn:Hrest.
    injection Hdraw as <- _. constructor.
    + exists 0%nat, char, pos, age. cbn.
      apply Qltb_ge in Hlow. apply Qltb_ge in Hhigh. auto.
    + apply IH in Hrest. eapply Forall_impl; [exact Hrest|].
      intros call (k & c & p & a & Hk & H). exists (S k), c, p, a. auto.
Qed.

(** Claim C7.  Every [drawText] call that [draw_column] issues draws a
    character of the column whose position lies in
    [-50, screen_height + 50]; the vertical coordinate handed to the
    painter, [int(pos)], lies in the same interval. *)
Theorem C7_draw_column_skips_offscreen
        (current_time : Q) (screen_height : Z)
        (w : MatrixWidget) (column : MatrixColumn) :
  Forall (fun call =>
            exists (k : nat) (char : string) (pos : Q) (age : Z),
              characters column !! k = Some char /\
              char_positions column !! k = Some pos /\
              text call = char /\ text_y call = int pos /\
              ~ (pos < -50)%Q /\ ~ (float screen_height + 50 < pos)%Q /\
              -50 <= text_y call <= screen_height + 50)
         (fst (draw_column current_time screen_height w column)).
Proof.
  unfold draw_column.
  destruct (draw_chars _ _ _ _ _ _) as [calls e] eqn:Hdraw. cbn [fst].
  apply draw_chars_visible in Hdraw.
  eapply Forall_impl; [exact Hdraw|].
  intros call (k & char & pos & age & Hk & Htext & Hy & Hlow & Hhigh).
  exists k, char, pos, age.
  unfold zip3 in Hk.
  apply lookup_zip_with_Some in Hk
    as (cp & a & Hpair & Hcp & _).
  apply lookup_zip_with_Some in Hcp as (c & p & Hcp & Hc & Hp).
  subst cp. injection Hpair as -> -> ->.
  repeat split; try assumption.
  - now apply Qle_not_lt.
  - now apply Qle_not_lt.
  - rewrite Hy. change (-50) with (int (-50)). now apply int_mono.
  - rewrite Hy. rewrite <- (int_float (screen_height + 50)).
    apply int_mono. unfold float. rewrite inject_Z_plus. exact Hhigh.
Qed.

End Rendering.

(** * Further properties of the two widgets *)

(** ** The closed curve of a shape *)

Section Curve.
Import Py Qt Mystify.

(** With three or more control points the path is one closed loop of
    cubic segments: it starts at the first point, has one segment per
    point, segment [i] ends at point [i + 1] (wrapping round), so the
    last segment comes back to the first point, and the path is closed. *)
Theorem smooth_curve_is_closed_loop (points : list QPointF) (tension : Q) :
  (3 <= length points)%nat ->
  exists (first : QPointF) (segments : list path_element),
    points !! 0%nat = Some first /\
    create_smooth_curve points tension
    = moveTo first :: segments ++ [closeSubpath] /\
    length segments = length points /\
    (forall i : nat,
        (i < length points)%nat ->
        exists c1 c2 p,
          segments !! i = Some (cubicTo c1 c2 p) /\
          points !! ((i + 1) mod length points)%nat = Some p) /\
    exists c1 c2, last segments = Some (cubicTo c1 c2 first).
Proof.
  intros Hn. destruct points as [|first others]; [simpl in Hn; lia|].
  unfold create_smooth_curve. cbv beta iota zeta.
  set (points := first :: others) in *.
  destruct (Nat.ltb_spec (length points) 3) as [Hlt|_]; [lia|].
  match goal with
  | |- context [map ?f (seq 0 (length points))] => set (segment := f)
  end.
  assert (Hseg : forall i : nat,
             (i < length points)%nat ->
             exists c1 c2 p,
               map segment (seq 0 (length points)) !! i
               = Some (cubicTo c1 c2 p) /\
               points !! ((i + 1) mod length points)%nat = Some p).
  { intros i Hi. eexists _, _, _. split.
    - rewrite list_lookup_fmap, lookup_seq_lt by exact Hi. reflexivity.
    - cbn [Nat.add]. rewrite nth_lookup.
      destruct (lookup_lt_is_Some_2 points ((i + 1) mod length points))
        as [p Hp]; [|now rewrite Hp].
      apply Nat.mod_upper_bound. lia. }
  exists first, (map segment (seq 0 (length points))).
  split; [reflexivity|]. split; [reflexivity|].
  split; [now rewrite length_map, length_seq|].
  split; [exact Hseg|].
  destruct (Hseg (length points - 1)%nat ltac:(lia))
    as (c1 & c2 & p & Hlast & Hp).
  exists c1, c2. rewrite last_lookup, length_map, length_seq.
  replace (Nat.pred (length points)) with (length points - 1)%nat by lia.
  rewrite Hlast. f_equal. f_equal.
  replace ((length points - 1 + 1) mod length points)%nat with 0%nat in Hp.
  - now injection Hp.
  - replace (length points - 1 + 1)%nat with (length points) by lia.
    symmetry. apply Nat.Div0.mod_same.
Qed.

Lemma smooth_curve_is_closed_loop_witness :
  exists (first : QPointF) (segments : list path_element),
    Mystify.control_points Sample.triangle !! 0%nat = Some first /\
    create_smooth_curve (Mystify.control_points Sample.triangle) 0.5
    = moveTo first :: segments ++ [closeSubpath] /\
    length segments = 3%nat.
Proof.
  destruct (smooth_curve_is_closed_loop
              (Mystify.control_points Sample.triangle) 0.5)
    as (first & segments & H0 & Hpath & Hlen & _).
  - simpl. lia.
  - exists first, segments. auto.
Defined.

End Curve.

(** ** The shape invariant of the curve engine *)

Section ShapeInvariant.
Import Py Qt Random Mystify.
Local Open Scope Q_scope.

Lemma random_range (g g1 : rng) (u : Q) :
  random g = Ok (u, g1) -> 0 <= u /\ u < 1.
Proof.
  unfold random, bind, next, ret. intros [= <- _].
  pose proof (Z.mod_pos_bound (draws g (cursor g)) (2 ^ 53)%Z
                              ltac:(now apply Z.pow_pos_nonneg)) as [Hlo Hhi].
  unfold Qle, Qlt. cbn [Qnum Qden].
  rewrite Pos2Z.inj_pow. change (Z.pos 2 ^ Z.pos 53)%Z with (2 ^ 53)%Z.
  lia.
Qed.

Lemma uniform_between (a b : Q) (g g1 : rng) (v : Q) :
  a <= b -> uniform a b g = Ok (v, g1) -> a <= v /\ v <= b.
Proof.
  intros Hab E. unfold uniform in E.
  apply bind_ok in E as (u & g2 & Hu & E). injection E as <- _.
  apply random_range in Hu as [Hlo Hhi]. split; nra.
Qed.

Lemma uniform_symmetric (s : Q) (g g1 : rng) (v : Q) :
  uniform (- s) s g = Ok (v, g1) -> Qabs v <= Qabs s.
Proof.
  intros E. unfold uniform in E.
  apply bind_ok in E as (u & g2 & Hu & E). injection E as <- _.
  apply random_range in Hu as [Hlo Hhi].
  apply Qabs_Qle_condition.
  destruct (Qlt_le_dec s 0) as [Hs|Hs].
  - rewrite (Qabs_neg s) by now apply Qlt_le_weak. split; nra.
  - rewrite (Qabs_pos s) by exact Hs. split; nra.
Qed.

(** Reflection at a screen edge: the new coordinate is on the screen and
    the speed along the axis is unchanged. *)
Lemma clamp_range (hi x : Q) :
  0 <= hi -> 0 <= max 0 (min hi x) /\ max 0 (min hi x) <= hi.
Proof.
  intros Hhi. unfold max, min.
  repeat match goal with
         | |- context [Qltb ?a ?b] => destruct (Qltb_spec a b)
         end; split; lra.
Qed.

Lemma bounce_on_screen (limit : Z) (position velocity m : Q) :
  (0 <= limit)%Z ->
  let r := bounce limit position velocity m in
  (0 <= fst r /\ fst r <= inject_Z limit) /\
  Qabs (snd r) == Qabs velocity.
Proof.
  intros Hlimit. unfold bounce, float.
  assert (Hl : 0 <= inject_Z limit)
    by (change 0 with (inject_Z 0); now rewrite <- Zle_Qle).
  set (new := position + velocity * m).
  destruct (Qleb new 0 || Qleb (inject_Z limit) new) eqn:Hedge;
    cbn [fst snd].
  - split; [now apply clamp_range | apply Qabs_opp].
  - split; [|reflexivity].
    apply orb_false_iff in Hedge as [Hlow Hhigh]. unfold Qleb in *.
    assert (H1 : ~ new <= 0)
      by (intros H; apply Qle_bool_iff in H; congruence).
    assert (H2 : ~ inject_Z limit <= new)
      by (intros H; apply Qle_bool_iff in H; congruence).
    split; lra.
Qed.

Lemma move_control_point_invariant (width height : Z) (speed m : Q)
      (j : nat) (shape shape1 : Shape) (g g1 : rng) :
  (0 <= width)%Z -> (0 <= height)%Z ->
  move_control_point width height m j shape g = Ok (shape1, g1) ->
  shape_invariant width height speed shape ->
  shape_invariant width height speed shape1.
Proof.
  intros Hw Hh. unfold move_control_point.
  destruct (control_points shape !! j) as [point|] eqn:Hp; [|discriminate].
  destruct (velocities shape !! j) as [velocity|] eqn:Hv; [|discriminate].
  pose proof (bounce_on_screen width (px point) (px velocity) m Hw) as Hx.
  pose proof (bounce_on_screen height (py point) (py velocity) m Hh) as Hy.
  destruct (bounce width _ _ _) as [new_x vx].
  destruct (bounce height _ _ _) as [new_y vy].
  cbn [fst snd] in Hx, Hy. destruct Hx as [Hx Hvx]. destruct Hy as [Hy Hvy].
  intros [= <- _] (Hpoints & Hvels & Htension).
  unfold shape_invariant. cbn [control_points velocities curve_tension].
  split; [|split; [|exact Htension]].
  - apply Forall_insert; [exact Hpoints|]. unfold in_screen. cbn. tauto.
  - apply Forall_insert; [exact Hvels|].
    eapply Forall_lookup_1 in Hvels; [|exact Hv].
    destruct Hvels as [H1 H2]. unfold within_speed. cbn [px py].
    rewrite Hvx, Hvy. now split.
Qed.

Lemma evolve_shape_invariant (width height : Z) (speed : Q)
      (w : MystifyWidget) (shape shape1 : Shape) (g g1 : rng) :
  evolve_shape w shape g = Ok (shape1, g1) ->
  shape_invariant width height speed shape ->
  shape_invariant width height speed shape1.
Proof.
  unfold evolve_shape. intros E (Hpoints & Hvels & _).
  apply bind_ok in E as (step & g2 & _ & E). injection E as <- _.
  unfold shape_invariant. cbn [control_points velocities curve_tension].
  split; [exact Hpoints|]. split; [exact Hvels|].
  unfold max, min.
  destruct (Qltb_spec (curve_tension shape + step) 1.0) as [H1|H1];
    [destruct (Qltb_spec 0.2 (curve_tension shape + step)) as [H2|H2]
    |destruct (Qltb_spec 0.2 1.0) as [H2|H2]];
    split; lra.
Qed.

Lemma update_shape_invariant (width height start_idx : Z) (idx : nat)
      (w w1 : MystifyWidget) (g g1 : rng) :
  (0 <= width)%Z -> (0 <= height)%Z ->
  update_shape width height start_idx idx w g = Ok (w1, g1) ->
  shapes_invariant width height w -> shapes_invariant width height w1.
Proof.
  intros Hw Hh. unfold update_shape.
  set (i := Z.to_nat _).
  destruct (shapes w !! i) as [shape|] eqn:Hshape; [|discriminate].
  intros E Hinv.
  apply bind_ok in E as (trails & g2 & _ & E).
  apply bind_ok in E as (shape1 & g3 & Emove & E).
  apply bind_ok in E as (shape2 & g4 & Eevolve & E).
  injection E as <- _.
  unfold shapes_invariant in *. cbn [shapes speed with_shapes].
  apply Forall_insert; [exact Hinv|].
  eapply evolve_shape_invariant; [exact Eevolve|].
  eapply Forall_lookup_1 in Hinv; [|exact Hshape].
  eapply (for_each_inv (shape_invariant width height (speed w)));
    [|exact Hinv|exact Emove].
  intros j s gx s1 gy Hs Ej.
  eapply move_control_point_invariant; eassumption.
Qed.

(** The animation step keeps the shape invariant. *)
Lemma update_shape_animations_invariant (width height : Z)
      (w w1 : MystifyWidget) (g g1 : rng) :
  (0 <= width)%Z -> (0 <= height)%Z ->
  _update_shape_animations width height w g = Ok (w1, g1) ->
  shapes_invariant width height w -> shapes_invariant width height w1.
Proof.
  intros Hw Hh. unfold _update_shape_animations.
  destruct (length (shapes w) =? 0)%nat; [discriminate|].
  intros E Hinv.
  eapply (for_each_inv (shapes_invariant width height));
    [|exact Hinv|exact E].
  intros idx s gx s1 gy Hs Ei.
  eapply update_shape_invariant; eassumption.
Qed.

End ShapeInvariant.

(** ** Construction and ticks keep the shape invariant *)

Section EngineInvariant.
Import Py Qt Random Psutil Mystify MystifyTick.
Local Open Scope Q_scope.

Lemma randint_range (a b r : Z) (g g1 : rng) :
  randint a b g = Ok (r, g1) -> (a <= r <= b)%Z.
Proof.
  unfold randint. destruct (Z.ltb_spec b a) as [Hlt|Hle]; [discriminate|].
  unfold bind, randbelow, next, ret.
  case_conditionals; try discriminate; intros [= <- _];
    pose proof (Z.mod_pos_bound (draws g (cursor g)) (b - a + 1)); lia.
Qed.

Lemma init_control_point_invariant (width height : Z) (speed : Q)
      (j : nat) (shape shape1 : Shape) (g g1 : rng) :
  init_control_point width height speed j shape g = Ok (shape1, g1) ->
  shape_invariant width height speed shape ->
  shape_invariant width height speed shape1.
Proof.
  unfold init_control_point. intros E (Hpoints & Hvels & Htension).
  apply bind_ok in E as (x & g2 & Hx & E).
  apply bind_ok in E as (y & g3 & Hy & E).
  apply bind_ok in E as (vx & g4 & Hvx & E).
  apply bind_ok in E as (vy & g5 & Hvy & E).
  apply bind_ok in E as (cvx & g6 & _ & E).
  apply bind_ok in E as (cvy & g7 & _ & E).
  injection E as <- _.
  apply randint_range in Hx, Hy.
  apply uniform_symmetric in Hvx, Hvy.
  unfold shape_invariant. cbn [control_points velocities curve_tension].
  split; [|split; [|exact Htension]].
  - apply Forall_app. split; [exact Hpoints|]. constructor; [|constructor].
    unfold in_screen, float. cbn [px py].
    change 0 with (inject_Z 0). rewrite <- !Zle_Qle. lia.
  - apply Forall_app. split; [exact Hvels|]. constructor; [|constructor].
    split; assumption.
Qed.

Lemma init_shape_invariant (width height : Z) (speed : Q)
      (shape_complexity : Z) (i : nat)
      (acc acc1 : list Shape * list (list QPainterPath)) (g g1 : rng) :
  init_shape width height speed shape_complexity i acc g = Ok (acc1, g1) ->
  Forall (shape_invariant width height speed) (fst acc) ->
  Forall (shape_invariant width height speed) (fst acc1).
Proof.
  unfold init_shape. intros E Hacc.
  apply bind_ok in E as (hue & g2 & _ & E).
  apply bind_ok in E as (shift & g3 & _ & E).
  apply bind_ok in E as (size & g4 & _ & E).
  apply bind_ok in E as (tension & g5 & Htension & E).
  apply bind_ok in E as (shape & g6 & Eloop & E).
  injection E as <- _. cbn [fst].
  apply Forall_app. split; [exact Hacc|]. constructor; [|constructor].
  eapply (for_each_inv (shape_invariant width height speed));
    [| |exact Eloop].
  - intros j s gx s1 gy Hs Ej.
    eapply init_control_point_invariant; eassumption.
  - apply uniform_between in Htension; [|lra].
    unfold shape_invariant. cbn [control_points velocities curve_tension].
    split; [constructor|]. split; [constructor|]. lra.
Qed.

Lemma init_invariant (settings : Settings) (start_time drift_start_time : Q)
      (width height : Z) (w : MystifyWidget) (g g1 : rng) :
  __init__ settings start_time drift_start_time width height g = Ok (w, g1) ->
  shapes_invariant width height w.
Proof.
  unfold __init__. intros E.
  apply bind_ok in E as (w1 & g2 & Einit & E). injection E as <- _.
  unfold init_shapes in Einit.
  apply bind_ok in Einit as (acc & g3 & Eloop & E). injection E as <- _.
  unfold shapes_invariant. cbn [shapes speed with_shapes with_throttle].
  eapply (for_each_inv
            (fun acc : list Shape * list (list QPainterPath) =>
               Forall (shape_invariant width height _) (fst acc)));
    [| |exact Eloop].
  - intros i s gx s1 gy Hs Ei. eapply init_shape_invariant; eassumption.
  - constructor.
Qed.

(** Steps that leave the shapes, the trails and the speed alone keep the
    invariant when they keep the quality level in range. *)
Lemma engine_invariant_frame (n : nat) (width height : Z)
      (w w1 : MystifyWidget) :
  shapes w1 = shapes w -> shape_trails w1 = shape_trails w ->
  speed w1 = speed w -> quality_in_range (quality_level w1) ->
  engine_invariant n width height w -> engine_invariant n width height w1.
Proof.
  intros Hs Ht Hv Hq (Hn & Hwf & Hinv & _).
  unfold engine_invariant, well_formed, shapes_invariant in *.
  rewrite Hs, Ht, Hv. tauto.
Qed.

Lemma throttle_keeps_invariant (n : nat) (width height : Z)
      (reading : option cpu_reading) (w : MystifyWidget) :
  engine_invariant n width height w ->
  engine_invariant n width height
                   (Mystify.check_emergency_cpu_throttle reading w).
Proof.
  intros Hinv.
  apply (engine_invariant_frame n width height w); try exact Hinv;
    rewrite mystify_throttle_frame; try reflexivity.
  apply Hinv.
Qed.

Lemma adaptive_keeps_invariant (n : nat) (width height : Z)
      (readings : option sample) (w : MystifyWidget) :
  engine_invariant n width height w ->
  engine_invariant n width height
                   (adaptive_performance_adjustment readings w).
Proof.
  intros Hinv.
  apply (engine_invariant_frame n width height w); try exact Hinv;
    try (rewrite adaptive_frame; reflexivity).
  apply adaptive_quality_in_range, Hinv.
Qed.

Lemma optimizations_keep_invariant (n : nat) (width height : Z) (now : Q)
      (w : MystifyWidget) :
  engine_invariant n width height w ->
  engine_invariant n width height
                   (snd (_apply_performance_optimizations now w)).
Proof.
  intros Hinv.
  apply (engine_invariant_frame n width height w); try exact Hinv;
    try (unfold _apply_performance_optimizations;
         case_conditionals; reflexivity).
  apply optimizations_quality_in_range, Hinv.
Qed.

Lemma begin_tick_keeps_invariant (n : nat) (width height : Z)
      (i : tick_input) (t : Ticking) :
  engine_invariant n width height (core t) ->
  engine_invariant n width height (core (begin_tick i t)).
Proof.
  intros Hinv. unfold begin_tick. cbn [core].
  set (c1 := if Qgeb _ emergency_check_interval then _ else core t).
  assert (H1 : engine_invariant n width height c1).
  { subst c1. destruct (Qgeb _ _); [|exact Hinv].
    now apply throttle_keeps_invariant. }
  clearbody c1.
  set (c2 := with_frame_times _ c1).
  assert (H2 : engine_invariant n width height c2).
  { apply (engine_invariant_frame n width height c1); try reflexivity;
      [apply H1 | exact H1]. }
  clearbody c2.
  destruct (Qgeb _ performance_check_interval); [|exact H2].
  now apply adaptive_keeps_invariant.
Qed.

(** The animation step keeps the whole invariant and always ends
    normally. *)
Lemma animations_keep_invariant (n : nat) (width height : Z)
      (w : MystifyWidget) (g : rng) :
  (0 <= width)%Z -> (0 <= height)%Z ->
  engine_invariant n width height w ->
  exists w1 g1,
    _update_shape_animations width height w g = Ok (w1, g1) /\
    engine_invariant n width height w1.
Proof.
  intros Hw Hh (Hn & Hwf & Hinv & Hq).
  destruct (update_shape_animations_ok width height w g Hwf)
    as (w1 & g1 & E & Hwf1).
  exists w1, g1. split; [exact E|].
  pose proof (update_shape_animations_invariant _ _ _ _ _ _ Hw Hh E Hinv)
    as Hinv1.
  apply update_shape_animations_frame in E as (s1 & t1 & -> & Hs & _).
  repeat split; try apply Hwf1; try exact Hinv1; try apply Hq.
  cbn [shapes with_shapes]. congruence.
Qed.

Lemma stats_display_core (now : Q) (psutil : option stats_sample)
      (t : Ticking) :
  core (_update_stats_display now psutil t) = core t.
Proof. unfold _update_stats_display. now case_conditionals. Qed.

Lemma performance_tracking_keeps_invariant (n : nat) (width height : Z)
      (now : Q) (t : Ticking) :
  engine_invariant n width height (core t) ->
  engine_invariant n width height (core (_update_performance_tracking now t)).
Proof.
  intros Hinv. unfold _update_performance_tracking.
  destruct (Qgeb _ _); cbn [core with_core];
    (apply (engine_invariant_frame n width height (core t));
     try reflexivity; [apply Hinv | exact Hinv]).
Qed.

(** One timer tick on a screen of constant size ends normally and keeps
    the invariant. *)
Lemma update_animation_keeps_invariant (n : nat) (width height : Z)
      (i : tick_input) (t : Ticking) (g : rng) :
  (0 <= width)%Z -> (0 <= height)%Z -> on_screen width height i ->
  engine_invariant n width height (core t) ->
  exists t1 repaint g1,
    update_animation i t g = Ok ((t1, repaint), g1) /\
    engine_invariant n width height (core t1).
Proof.
  intros Hw Hh [Ewidth Eheight] Hinv. unfold update_animation.
  pose proof (begin_tick_keeps_invariant _ _ _ i t Hinv) as H1.
  pose proof (optimizations_keep_invariant _ _ _ (current_time i) _ H1) as H2.
  destruct (_apply_performance_optimizations _ _) as [skip c].
  cbn [snd] in H2. destruct skip.
  - eexists _, _, _. split; [reflexivity|]. exact H2.
  - rewrite stats_display_core. cbn [core with_core].
    rewrite Ewidth, Eheight.
    destruct (animations_keep_invariant n width height c g Hw Hh H2)
      as (c1 & g1 & E & H3).
    unfold bind. rewrite E. eexists _, _, _. split; [reflexivity|].
    now apply performance_tracking_keeps_invariant.
Qed.

(** With at least one shape configured, on a screen of at least 200 by
    200 pixels, construction ends normally in a state that satisfies the
    engine invariant: the configured number of shapes, a trail for each,
    every control point on the screen, every velocity within the
    configured speed along both axes, every tension in [0.2, 1.0], and
    the quality level in [0.3, 1.0]. *)
Theorem construction_establishes_invariant
        (settings : Settings) (start_time drift_start_time : Q)
        (width height : Z) (g : rng) :
  (200 <= width)%Z -> (200 <= height)%Z ->
  (1 <= get (mystify_shapes settings) 3)%Z ->
  exists w g1,
    __init__ settings start_time drift_start_time width height g
    = Ok (w, g1) /\
    speed w = float (get (mystify_speed settings) 2%Z) /\
    engine_invariant (Z.to_nat (get (mystify_shapes settings) 3%Z))
                     width height w.
Proof.
  intros Hw Hh Hn.
  destruct (init_well_formed settings start_time drift_start_time
                             width height g Hw Hh Hn)
    as (w & g1 & E & Hwf).
  destruct (init_ok settings start_time drift_start_time width height g
                    Hw Hh)
    as (w' & g1' & E' & Hlen & _ & _ & _ & Hq & _).
  rewrite E in E'. injection E' as <- <-.
  exists w, g1. split; [exact E|]. split.
  - unfold __init__ in E.
    apply bind_ok in E as (w1 & g2 & Einit & E). injection E as <- _.
    unfold init_shapes in Einit.
    apply bind_ok in Einit as (acc & g3 & _ & E). now injection E as <- _.
  - split; [exact Hlen|]. split; [exact Hwf|].
    split; [eapply init_invariant, E|].
    rewrite Hq. unfold quality_in_range. lra.
Qed.

Lemma construction_establishes_invariant_witness :
  exists w g1,
    __init__ Sample.settings 0 0 1920 1080 Sample.rng360 = Ok (w, g1) /\
    speed w = 2 /\ engine_invariant 3 1920 1080 w.
Proof.
  apply (construction_establishes_invariant
           Sample.settings 0 0 1920 1080 Sample.rng360);
    [lia | lia | cbn; lia].
Defined.

(** Timer ticks on a screen of constant size: from a state that
    satisfies the engine invariant, every sequence of calls of
    [update_animation] ends normally, whatever the clock, the telemetry
    and the entropy source give, and ends in a state that satisfies the
    invariant again. *)
Theorem ticks_keep_invariant (n : nat) (width height : Z)
        (inputs : list tick_input) (t : Ticking) (g : rng) :
  (0 <= width)%Z -> (0 <= height)%Z ->
  Forall (on_screen width height) inputs ->
  engine_invariant n width height (core t) ->
  exists t1 repaints g1,
    run_ticks inputs t g = Ok ((t1, repaints), g1) /\
    length repaints = length inputs /\
    engine_invariant n width height (core t1).
Proof.
  intros Hw Hh Hon. revert t g.
  induction Hon as [|i rest Hi _ IH]; intros t g Hinv.
  - exists t, [], g. split; [reflexivity|]. split; [reflexivity|exact Hinv].
  - destruct (update_animation_keeps_invariant n width height i t g
                Hw Hh Hi Hinv) as (t1 & repaint & g1 & E & H1).
    destruct (IH t1 g1 H1) as (t2 & repaints & g2 & Erest & Hlen & H2).
    exists t2, (repaint :: repaints), g2.
    cbn [run_ticks]. unfold bind. rewrite E. cbn [fst snd].
    rewrite Erest. cbn [fst snd]. unfold ret.
    split; [reflexivity|]. split; [cbn; lia | exact H2].
Qed.

Lemma sample_engine_invariant :
  engine_invariant 3 1920 1080 (Sample.mystify 1).
Proof.
  unfold engine_invariant, well_formed, shapes_invariant, shape_invariant,
    in_screen, within_speed, quality_in_range.
  cbn. repeat split; try discriminate;
    repeat constructor; try (apply Qle_bool_imp_le; reflexivity).
Qed.

Lemma ticks_keep_invariant_witness :
  exists t1 repaints g1,
    run_ticks [Scenario.tick 0.1; Scenario.tick 0.2]
              (Scenario.ticking (Sample.mystify 1)) Sample.rng360
    = Ok ((t1, repaints), g1) /\
    length repaints = 2%nat /\
    engine_invariant 3 1920 1080 (core t1).
Proof.
  apply (ticks_keep_invariant 3 1920 1080); [lia | lia | |].
  - repeat constructor.
  - exact sample_engine_invariant.
Defined.

End EngineInvariant.

(** ** The timer tick of the curve engine *)

Section Tick.
Import Py Qt Random Psutil Mystify MystifyTick.
Local Open Scope Q_scope.

Lemma record_frame_time_window (delta_time : Q) (frame_times : list Q) :
  (length frame_times <= 60)%nat ->
  (length (record_frame_time delta_time frame_times) <= 60)%nat /\
  last (record_frame_time delta_time frame_times) = Some delta_time.
Proof.
  intros Hlen. unfold record_frame_time.
  destruct (Nat.ltb_spec 60 (length (frame_times ++ [delta_time])))
    as [Hfull|Hfree].
  - rewrite length_app in Hfull. cbn [length] in Hfull.
    destruct frame_times as [|x xs]; [cbn in Hfull; lia|].
    cbn [app tail]. rewrite length_app. cbn [length] in *.
    split; [lia|]. apply last_snoc.
  - split; [exact Hfree | apply last_snoc].
Qed.

(** [_apply_performance_optimizations] assigns the quality level and the
    time of the last activity check only. *)
Lemma optimizations_frame (now : Q) (w : MystifyWidget) :
  let c := snd (_apply_performance_optimizations now w) in
  shapes c = shapes w /\ shape_trails c = shape_trails w /\
  settings c = settings w /\ frame_count c = frame_count w /\
  frame_times c = frame_times w.
Proof.
  unfold _apply_performance_optimizations.
  case_conditionals; repeat split; reflexivity.
Qed.

(** What the part of the tick before the frame-skip test leaves alone,
    and what it does to the window of frame times. *)
Lemma begin_tick_frame (i : tick_input) (t : Ticking) :
  let c := core (begin_tick i t) in
  shapes c = shapes (core t) /\
  shape_trails c = shape_trails (core t) /\
  settings c = settings (core t) /\
  frame_count c = frame_count (core t) /\
  frame_times c
  = record_frame_time (current_time i - last_update t)
                      (frame_times (core t)).
Proof.
  cbv zeta. unfold begin_tick. cbn [core].
  set (c1 := if Qgeb _ emergency_check_interval then _ else core t).
  assert (H1 : shapes c1 = shapes (core t) /\
               shape_trails c1 = shape_trails (core t) /\
               settings c1 = settings (core t) /\
               frame_count c1 = frame_count (core t) /\
               frame_times c1 = frame_times (core t)).
  { subst c1. destruct (Qgeb _ _); [|repeat split; reflexivity].
    rewrite mystify_throttle_frame. repeat split; reflexivity. }
  destruct H1 as (<- & <- & <- & <- & <-). clearbody c1.
  destruct (Qgeb _ performance_check_interval);
    [rewrite adaptive_frame|]; repeat split; reflexivity.
Qed.

Lemma prelude_frame (i : tick_input) (t : Ticking) :
  let c := snd (_apply_performance_optimizations
                  (current_time i) (core (begin_tick i t))) in
  shapes c = shapes (core t) /\
  shape_trails c = shape_trails (core t) /\
  settings c = settings (core t) /\
  frame_count c = frame_count (core t) /\
  frame_times c
  = record_frame_time (current_time i - last_update t)
                      (frame_times (core t)).
Proof.
  cbv zeta.
  destruct (optimizations_frame (current_time i) (core (begin_tick i t)))
    as (-> & -> & -> & -> & ->).
  apply begin_tick_frame.
Qed.

(** The frame-skip test: a frame is skipped exactly in power-saving mode
    on an odd frame counter. *)
Lemma skip_test (now : Q) (w : MystifyWidget) :
  fst (_apply_performance_optimizations now w)
  = get (power_saving_mode (settings w)) false
    && negb (frame_count w mod 2 =? 0)%Z.
Proof.
  unfold _apply_performance_optimizations.
  destruct (_ && _); reflexivity.
Qed.

(** A tick that [_apply_performance_optimizations] skips: no repaint, no
    random draw, and the shapes, the trails and the frame counter stay as
    they are. *)
Lemma skipped_tick (i : tick_input) (t : Ticking) (g : rng) :
  power_saving_mode (settings (core t)) = Some true ->
  (frame_count (core t) mod 2 =? 0)%Z = false ->
  exists t1,
    update_animation i t g = Ok ((t1, false), g) /\
    shapes (core t1) = shapes (core t) /\
    shape_trails (core t1) = shape_trails (core t) /\
    settings (core t1) = settings (core t) /\
    frame_count (core t1) = frame_count (core t).
Proof.
  intros Hmode Hodd. unfold update_animation.
  pose proof (prelude_frame i t) as Hframe. cbv zeta in Hframe.
  pose proof (skip_test (current_time i) (core (begin_tick i t))) as Hskip.
  destruct (begin_tick_frame i t) as (_ & _ & Hset' & Hcount' & _).
  rewrite Hset', Hcount', Hmode, Hodd in Hskip. cbn in Hskip.
  destruct (_apply_performance_optimizations _ _) as [skip c].
  cbn [fst snd] in *. subst skip.
  destruct Hframe as (Hs & Ht & Hset & Hcount & _).
  eexists. split; [reflexivity|]. cbn [core with_core]. tauto.
Qed.

Lemma skipped_ticks (inputs : list tick_input) :
  forall (t : Ticking) (g : rng),
    power_saving_mode (settings (core t)) = Some true ->
    (frame_count (core t) mod 2 =? 0)%Z = false ->
    exists t1,
      run_ticks inputs t g
      = Ok ((t1, repeat false (length inputs)), g) /\
      shapes (core t1) = shapes (core t) /\
      shape_trails (core t1) = shape_trails (core t) /\
      frame_count (core t1) = frame_count (core t).
Proof.
  induction inputs as [|i rest IH]; intros t g Hmode Hodd.
  - exists t. repeat split; reflexivity.
  - destruct (skipped_tick i t g Hmode Hodd)
      as (t1 & E & Hs & Ht & Hset & Hcount).
    destruct (IH t1 g) as (t2 & Erest & Hs2 & Ht2 & Hcount2).
    { now rewrite Hset. }
    { now rewrite Hcount. }
    exists t2. cbn [run_ticks]. unfold bind. rewrite E. cbn [fst snd].
    rewrite Erest. cbn [fst snd length repeat]. unfold ret.
    split; [reflexivity|]. repeat split; congruence.
Qed.

Lemma well_formed_frame (w w1 : MystifyWidget) :
  shapes w1 = shapes w -> shape_trails w1 = shape_trails w ->
  well_formed w -> well_formed w1.
Proof. unfold well_formed. now intros -> ->. Qed.

Lemma Qgeb_false (a b : Q) : Qgeb a b = false <-> a < b.
Proof.
  unfold Qgeb. split.
  - intros H. apply Qnot_le_lt. intros Hle.
    apply Qle_bool_iff in Hle. congruence.
  - intros H. destruct (Qle_bool b a) eqn:E; [|reflexivity].
    apply Qle_bool_iff in E. exfalso. exact (Qlt_not_le _ _ H E).
Qed.

(** A tick that is not skipped: the animation step runs on the state the
    prelude leaves, a repaint is requested, and the frame counter is
    stepped or reset. *)
Lemma drawn_tick (i : tick_input) (t : Ticking) (g : rng) :
  fst (_apply_performance_optimizations
         (current_time i) (core (begin_tick i t))) = false ->
  well_formed (core t) ->
  exists t1 g1,
    update_animation i t g = Ok ((t1, true), g1) /\
    length (shapes (core t1)) = length (shapes (core t)) /\
    frame_times (core t1)
    = record_frame_time (current_time i - last_update t)
                        (frame_times (core t)) /\
    frame_count (core t1)
    = (if Qgeb (current_time i - last_fps_update t) 1.0
       then 0 else frame_count (core t) + 1)%Z /\
    settings (core t1) = settings (core t).
Proof.
  intros Hskip Hwf. unfold update_animation.
  pose proof (prelude_frame i t) as Hframe. cbv zeta in Hframe.
  destruct (_apply_performance_optimizations _ _) as [skip c].
  cbn [fst snd] in *. subst skip.
  destruct Hframe as (Hs & Ht & Hset & Hcount & Htimes).
  set (u := _update_stats_display _ _ _).
  assert (Hu : core u = c /\ last_fps_update u = last_fps_update t).
  { subst u. unfold _update_stats_display.
    case_conditionals; split; reflexivity. }
  destruct Hu as [Hcore Hfps]. rewrite Hcore.
  destruct (update_shape_animations_ok
              (screen_width i) (screen_height i) c g) as (c1 & g1 & E & _).
  { now apply (well_formed_frame (core t)). }
  unfold bind. rewrite E. eexists _, g1. split; [reflexivity|].
  apply update_shape_animations_frame in E as (s1 & t1 & -> & Hlen & _).
  unfold _update_performance_tracking.
  cbn [core with_core last_fps_update frame_count with_shapes].
  rewrite Hfps, Hcount.
  destruct (Qgeb _ _); cbn; rewrite <- Hs; auto.
Qed.

(** The window of frame times over a tick, drawn or skipped: from a
    window of at most 60 entries the tick ends normally with a window of
    at most 60 entries whose last entry is the time since the previous
    tick, and the tick moves [last_update] to the current time. *)
Theorem frame_time_window_bounded (i : tick_input) (t : Ticking) (g : rng) :
  well_formed (core t) ->
  (length (frame_times (core t)) <= 60)%nat ->
  exists t1 repaint g1,
    update_animation i t g = Ok ((t1, repaint), g1) /\
    (length (frame_times (core t1)) <= 60)%nat /\
    last (frame_times (core t1)) = Some (current_time i - last_update t).
Proof.
  intros Hwf Hlen.
  destruct (record_frame_time_window
              (current_time i - last_update t) _ Hlen) as [Hwindow Hlast].
  destruct (fst (_apply_performance_optimizations
                   (current_time i) (core (begin_tick i t)))) eqn:Hskip.
  - unfold update_animation.
    pose proof (prelude_frame i t) as Hframe. cbv zeta in Hframe.
    destruct (_apply_performance_optimizations _ _) as [skip c].
    cbn [fst snd] in *. subst skip.
    destruct Hframe as (_ & _ & _ & _ & Htimes).
    eexists _, _, _. split; [reflexivity|]. cbn [core with_core].
    now rewrite Htimes.
  - destruct (drawn_tick i t g Hskip Hwf)
      as (t1 & g1 & E & _ & Htimes & _).
    exists t1, true, g1. split; [exact E|]. now rewrite Htimes.
Qed.

Lemma sample_well_formed : well_formed (Sample.mystify 1).
Proof.
  unfold well_formed. cbn. repeat split; try discriminate.
  repeat constructor.
Qed.

Lemma frame_time_window_bounded_witness :
  exists t1 repaint g1,
    update_animation (Scenario.tick 0.1)
                     (Scenario.ticking (Sample.mystify 1)) Sample.rng360
    = Ok ((t1, repaint), g1) /\
    (length (frame_times (core t1)) <= 60)%nat /\
    last (frame_times (core t1)) = Some (0.1 - 0).
Proof.
  apply (frame_time_window_bounded
           (Scenario.tick 0.1) (Scenario.ticking (Sample.mystify 1))
           Sample.rng360).
  - exact sample_well_formed.
  - cbn. lia.
Defined.

(** Power-saving mode as the code has it.  The frame-skip test returns
    before [_update_performance_tracking], the only place that steps the
    frame counter, so once the counter is odd it stays odd.  From a
    fresh counter the first tick draws a frame and leaves the counter at
    1; every later tick is skipped: no repaint is requested, no random
    number is drawn, and the shapes and trails stay as the first frame
    left them. *)
Theorem power_saving_draws_one_frame
        (i : tick_input) (rest : list tick_input) (t : Ticking) (g : rng) :
  power_saving_mode (settings (core t)) = Some true ->
  frame_count (core t) = 0%Z ->
  current_time i - last_fps_update t < 1.0 ->
  well_formed (core t) ->
  exists t1 g1 t2,
    update_animation i t g = Ok ((t1, true), g1) /\
    frame_count (core t1) = 1%Z /\
    run_ticks (i :: rest) t g
    = Ok ((t2, true :: repeat false (length rest)), g1) /\
    shapes (core t2) = shapes (core t1) /\
    shape_trails (core t2) = shape_trails (core t1) /\
    frame_count (core t2) = 1%Z.
Proof.
  intros Hmode Hcount Hfps Hwf.
  destruct (drawn_tick i t g) as (t1 & g1 & E & _ & _ & Hcount1 & Hset1).
  { rewrite skip_test.
    destruct (begin_tick_frame i t) as (_ & _ & -> & -> & _).
    now rewrite Hmode, Hcount. }
  { exact Hwf. }
  apply Qgeb_false in Hfps. rewrite Hfps, Hcount in Hcount1.
  destruct (skipped_ticks rest t1 g1)
    as (t2 & Erest & Hs & Ht & Hcount2).
  { now rewrite Hset1. }
  { now rewrite Hcount1. }
  exists t1, g1, t2. split; [exact E|]. split; [exact Hcount1|].
  cbn [run_ticks]. unfold bind. rewrite E. cbn [fst snd].
  rewrite Erest. cbn [fst snd]. unfold ret.
  split; [reflexivity|]. split; [exact Hs|]. split; [exact Ht|].
  now rewrite Hcount2.
Qed.

Lemma saver_well_formed : well_formed Scenario.saver.
Proof.
  unfold well_formed. vm_compute. repeat split; try discriminate.
  repeat constructor.
Qed.

Lemma power_saving_draws_one_frame_witness :
  exists t1 g1 t2,
    update_animation (Scenario.tick 0.1) (Scenario.ticking Scenario.saver)
                     Sample.rng360 = Ok ((t1, true), g1) /\
    frame_count (core t1) = 1%Z /\
    run_ticks [Scenario.tick 0.1; Scenario.tick 0.2; Scenario.tick 0.3]
              (Scenario.ticking Scenario.saver) Sample.rng360
    = Ok ((t2, [true; false; false]), g1) /\
    shapes (core t2) = shapes (core t1) /\
    shape_trails (core t2) = shape_trails (core t1) /\
    frame_count (core t2) = 1%Z.
Proof.
  apply (power_saving_draws_one_frame
           (Scenario.tick 0.1) [Scenario.tick 0.2; Scenario.tick 0.3]
           (Scenario.ticking Scenario.saver) Sample.rng360).
  - reflexivity.
  - reflexivity.
  - reflexivity.
  - exact saver_well_formed.
Defined.

End Tick.

(** ** The CPU samples of the statistics overlay *)

Section Stats.
Import Py Qt Psutil Mystify MystifyTick.
Local Open Scope Q_scope.

(** The sample window holds the last ten readings at most, whatever it
    held before, and ends with the new reading. *)
Lemma record_cpu_sample_window (cpu_percent : Q) (samples : list Q) :
  let window := record_cpu_sample cpu_percent samples in
  length window = Nat.min 10 (S (length samples)) /\
  window `suffix_of` samples ++ [cpu_percent] /\
  last window = Some cpu_percent.
Proof.
  cbv zeta. unfold record_cpu_sample, last_ten.
  destruct (Nat.ltb_spec 10 (length (samples ++ [cpu_percent])))
    as [Hfull|Hfree]; rewrite length_app in *; cbn [length] in *.
  - split; [rewrite length_skipn, ?length_app; cbn [length]; lia|].
    split; [apply suffix_drop|].
    rewrite skipn_app.
    replace (length samples + 1 - 10 - length samples)%nat with 0%nat
      by lia.
    cbn [skipn]. apply last_snoc.
  - split; [rewrite ?length_app; cbn [length]; lia|].
    split; [reflexivity | apply last_snoc].
Qed.

(** A due update of the statistics (overlay on, [psutil] available, at
    least a second since the last update) leaves in [stats_cpu_samples]
    the last ten entries at most of the old list followed by the new
    reading, whatever the length of the old list: the window is cut to
    ten in one step, unlike the window of frame times.  The new reading
    is 0.0 when [psutil] returns no number.  The time of the update is
    recorded and the part of the widget that the animation uses is left
    alone. *)
Theorem stats_window_keeps_last_ten
        (now : Q) (readings : stats_sample) (t : Ticking) :
  show_stats (settings (core t)) = Some true ->
  1.0 <= now - last_stats_update t ->
  let t1 := _update_stats_display now (Some readings) t in
  length (stats_cpu_samples t1)
  = Nat.min 10 (S (length (stats_cpu_samples t))) /\
  stats_cpu_samples t1
    `suffix_of` stats_cpu_samples t ++ [recorded_cpu readings] /\
  last (stats_cpu_samples t1) = Some (recorded_cpu readings) /\
  last_stats_update t1 = now /\
  core t1 = core t.
Proof.
  intros Hshow Hdue. cbv zeta. unfold _update_stats_display.
  rewrite Hshow. cbn [get negb].
  assert (E : Qgeb (now - last_stats_update t) 1.0 = true)
    by (unfold Qgeb; now apply Qle_bool_iff).
  rewrite E. cbn [stats_cpu_samples last_stats_update core].
  fold (recorded_cpu readings).
  destruct (record_cpu_sample_window (recorded_cpu readings)
                                     (stats_cpu_samples t))
    as (Hlen & Hsuffix & Hlast).
  repeat split; assumption.
Qed.

Lemma stats_window_keeps_last_ten_witness :
  let t := Scenario.ticking Scenario.saver in
  let crowded :=
    {| core := core t; last_update := last_update t;
       last_emergency_check := last_emergency_check t;
       last_performance_check := last_performance_check t;
       skip_frame_counter := skip_frame_counter t;
       fps := fps t; last_fps_update := last_fps_update t;
       stats_cpu_samples := [1; 2; 3; 4; 5; 6; 7; 8; 9; 10; 11; 12];
       displayed_cpu := displayed_cpu t;
       displayed_memory := displayed_memory t;
       displayed_process_cpu := displayed_process_cpu t;
       displayed_process_memory := displayed_process_memory t;
       last_stats_update := last_stats_update t |} in
  let t1 := _update_stats_display
              1 (stats_reading (Scenario.tick 1)) crowded in
  length (stats_cpu_samples t1) = 10%nat /\
  last (stats_cpu_samples t1) = Some 20 /\
  last_stats_update t1 = 1.
Proof.
  cbv zeta.
  match goal with
  | |- context [_update_stats_display 1 _ ?t0] =>
      destruct (stats_window_keeps_last_ten
                  1 {| stats_cpu := CpuNumber 20; stats_memory_percent := 10;
                       process_cpu := 1; process_memory_mb := 64 |} t0)
        as (Hlen & _ & Hlast & Hnow & _)
  end.
  - reflexivity.
  - apply Qle_bool_imp_le. reflexivity.
  - split; [exact Hlen|]. split; [exact Hlast | exact Hnow].
Defined.

End Stats.

(** ** Round trips of the governor *)

Section EpisodeRoundTrip.
Import Py.
Context {S : Type} (step : Q -> S -> S) (throttled : S -> S)
        (steady : S -> Prop).
Hypothesis enter : forall c w, steady w -> hot c -> step c w = throttled w.
Hypothesis stay_hot :
  forall c w, steady w -> hot c -> step c (throttled w) = throttled w.
Hypothesis leave :
  forall c w, steady w -> calm c -> step c (throttled w) = w.
Hypothesis stay_calm : forall c w, steady w -> calm c -> step c w = w.

Lemma hot_run_throttles (w : S) (cs : list Q) :
  steady w -> cs <> [] -> Forall hot cs -> final step w cs = throttled w.
Proof.
  intros Hw Hne Hhot. destruct Hhot as [|c cs Hc Hcs]; [congruence|].
  rewrite final_cons, (enter c w Hw Hc). clear Hne.
  induction Hcs as [|c' cs Hc' _ IH]; [reflexivity|].
  now rewrite final_cons, (stay_hot c' w Hw Hc').
Qed.

Lemma calm_run_releases (w : S) (cs : list Q) :
  steady w -> cs <> [] -> Forall calm cs -> final step (throttled w) cs = w.
Proof.
  intros Hw Hne Hcalm. destruct Hcalm as [|c cs Hc Hcs]; [congruence|].
  rewrite final_cons, (leave c w Hw Hc). clear Hne.
  induction Hcs as [|c' cs Hc' _ IH]; [reflexivity|].
  now rewrite final_cons, (stay_calm c' w Hw Hc').
Qed.

Lemma episodes_round_trip (w : S) (episodes : list episode) :
  steady w -> Forall well_formed_episode episodes ->
  final step w (samples_of episodes) = w.
Proof.
  intros Hw Hwf.
  induction Hwf as [|[high low] es (Hh & Hl & Hhot & Hcalm) _ IH];
    [reflexivity|].
  cbn [fst snd] in *.
  change (samples_of ((high, low) :: es))
    with ((high ++ low) ++ samples_of es).
  rewrite !final_app, (hot_run_throttles w high Hw Hh Hhot),
    (calm_run_releases w low Hw Hl Hcalm).
  exact IH.
Qed.

End EpisodeRoundTrip.

Section GovernorRoundTrip.
Import Py Psutil.

Lemma mystify_init_steady (settings : Mystify.Settings)
      (start_time drift_start_time : Q) (width height : Z)
      (g g1 : Random.rng) (w : Mystify.MystifyWidget) :
  Mystify.__init__ settings start_time drift_start_time width height g
  = Ok (w, g1) ->
  mystify_steady w.
Proof.
  unfold Mystify.__init__. intros E.
  apply bind_ok in E as (w1 & g2 & Einit & E). injection E as <- _.
  unfold Mystify.init_shapes in Einit.
  apply bind_ok in Einit as (acc & g3 & _ & E). injection E as <- _.
  split; reflexivity.
Qed.

Lemma matrix_init_steady (usb_check_time drift_start_time : Q) :
  matrix_steady (Matrix.__init__ usb_check_time drift_start_time).
Proof. split; reflexivity. Qed.

(** Load episodes are round trips.  On an engine that runs at its
    configured frame rate, every sequence of load episodes ends in
    exactly the state it started from: the release assigns the timer
    interval that construction assigned, and nothing else was touched. *)
Theorem throttle_episodes_restore_widget
        (mw : Mystify.MystifyWidget) (xw : Matrix.MatrixWidget)
        (episodes : list episode) :
  mystify_steady mw -> matrix_steady xw ->
  Forall well_formed_episode episodes ->
  final mystify_throttle_step mw (samples_of episodes) = mw /\
  final matrix_throttle_step xw (samples_of episodes) = xw.
Proof.
  intros Hmw Hxw Hwf. split.
  - apply (episodes_round_trip mystify_throttle_step
             (Mystify.with_throttle true 1000) mystify_steady);
      try assumption;
      intros c w [Hflag Hinterval] Hc;
      unfold mystify_throttle_step, Mystify.check_emergency_cpu_throttle,
        Mystify.emergency_cpu_threshold.
    + apply Qltb_lt in Hc. rewrite Hc, Hflag. reflexivity.
    + apply Qltb_lt in Hc. rewrite Hc. reflexivity.
    + apply Qltb_ge in Hc. rewrite Hc.
      destruct w; cbn in *; subst; reflexivity.
    + apply Qltb_ge in Hc. rewrite Hc, Hflag. reflexivity.
  - apply (episodes_round_trip matrix_throttle_step
             (Matrix.with_throttle true 1000) matrix_steady);
      try assumption;
      intros c w [Hflag Hinterval] Hc;
      unfold matrix_throttle_step, Matrix.check_emergency_cpu_throttle,
        Matrix.emergency_cpu_threshold.
    + apply Qltb_lt in Hc. rewrite Hc, Hflag. reflexivity.
    + apply Qltb_lt in Hc. rewrite Hc. reflexivity.
    + apply Qltb_ge in Hc. rewrite Hc.
      destruct w; cbn in *; subst; reflexivity.
    + apply Qltb_ge in Hc. rewrite Hc, Hflag. reflexivity.
Qed.

Lemma throttle_episodes_restore_widget_witness :
  final mystify_throttle_step (Sample.mystify 1)
        (samples_of Sample.episodes) = Sample.mystify 1 /\
  final matrix_throttle_step Sample.matrix (samples_of Sample.episodes)
  = Sample.matrix.
Proof.
  apply (throttle_episodes_restore_widget
           (Sample.mystify 1) Sample.matrix Sample.episodes).
  - split; reflexivity.
  - split; reflexivity.
  - unfold Sample.episodes, well_formed_episode, hot, calm.
    repeat constructor; cbn; try discriminate;
      repeat constructor; try (apply Qle_bool_imp_le; reflexivity).
Defined.

End GovernorRoundTrip.

Section Knobs.
Import Py Psutil Mystify.
Local Open Scope Z_scope.

Lemma int_shrinks (n : Z) : 0 <= n -> int (float n * 0.8) <= n.
Proof.
  intros Hn. rewrite <- (int_float n) at 2. apply int_mono.
  unfold float. assert (H : (0 <= inject_Z n)%Q)
    by (change 0%Q with (inject_Z 0); now rewrite <- Zle_Qle).
  lra.
Qed.

(** The two knobs of the adaptive adjustment only turn one way: the
    frame-skip ratio never falls and stays at most 4, the trail length
    never grows and stays at least 10.  No reading turns them back. *)
Theorem adaptive_knobs_turn_one_way
        (psutil : option sample) (w : MystifyWidget) :
  frame_skip_ratio w <= 4 -> 10 <= trail_length w ->
  let a := adaptive_performance_adjustment psutil w in
  frame_skip_ratio w <= frame_skip_ratio a <= 4 /\
  10 <= trail_length a <= trail_length w.
Proof.
  intros Hskip Htrail. cbv zeta.
  pose proof (int_shrinks (trail_length w) ltac:(lia)) as Hshrink.
  unfold adaptive_performance_adjustment.
  destruct psutil as [readings|]; [|lia].
  cbv zeta.
  set (w1 := match frame_times w with [] => w | _ => _ end).
  assert (H1 : frame_skip_ratio w1 = frame_skip_ratio w /\
               trail_length w1 = trail_length w).
  { subst w1. destruct (frame_times w); [now split|].
    case_conditionals; now split. }
  destruct H1 as [E1 E2]. clearbody w1.
  rewrite <- E1 in *. rewrite <- E2 in *.
  case_conditionals;
    cbn [frame_skip_ratio trail_length with_quality_level
         with_frame_skip_ratio with_trail_length];
    lia.
Qed.

Lemma adaptive_knobs_turn_one_way_witness :
  let a := adaptive_performance_adjustment
             (Some {| cpu_percent := CpuNumber 80; memory_percent := 90 |})
             (Sample.mystify 1) in
  1 <= frame_skip_ratio a <= 4 /\ 10 <= trail_length a <= 50.
Proof.
  apply (adaptive_knobs_turn_one_way
           (Some {| cpu_percent := CpuNumber 80; memory_percent := 90 |})
           (Sample.mystify 1)); cbn; lia.
Defined.

End Knobs.

Section SettingsUpdate.
Import Py Psutil MatrixEvents.

(** A settings update during a load episode lifts the throttle: it
    restarts the timer at the configured rate and leaves the throttle
    flag set, so the checks that follow, which only act on a change of
    the flag, keep the configured rate for as long as the CPU stays
    above 90 per cent. *)
Theorem settings_update_lifts_throttle
        (new : SettingsUpdate) (speed : Z) (w : Matrix.MatrixWidget)
        (samples : list Q) :
  Matrix.is_emergency_throttled w = true ->
  Forall hot samples ->
  let w1 := final matrix_throttle_step (update_settings new speed w)
                  samples in
  Matrix.is_emergency_throttled w1 = true /\
  Matrix.timer_interval w1
  = Matrix.fps_interval
      (Matrix.get (Matrix.target_fps (merge new (Matrix.settings w))) 60).
Proof.
  intros Hflag Hhot. cbv zeta.
  assert (Hstart : Matrix.is_emergency_throttled (update_settings new speed w)
                   = true) by exact Hflag.
  assert (Hinterval : Matrix.timer_interval (update_settings new speed w)
                      = Matrix.fps_interval
                          (Matrix.get (Matrix.target_fps
                                         (merge new (Matrix.settings w))) 60))
    by reflexivity.
  revert Hstart Hinterval. generalize (update_settings new speed w).
  induction Hhot as [|c cs Hc _ IH]; intros u Hstart Hinterval.
  - now split.
  - rewrite final_cons.
    assert (Hstep : matrix_throttle_step c u = u).
    { unfold matrix_throttle_step, Matrix.check_emergency_cpu_throttle,
        Matrix.emergency_cpu_threshold.
      apply Qltb_lt in Hc. now rewrite Hc, Hstart. }
    rewrite Hstep. now apply IH.
Qed.

Lemma settings_update_lifts_throttle_witness :
  let w1 := final matrix_throttle_step
                  (update_settings Scenario.faster 25
                     (Matrix.with_throttle true 1000 Sample.matrix))
                  [95%Q; 99%Q] in
  Matrix.is_emergency_throttled w1 = true /\
  Matrix.timer_interval w1 = 33.
Proof.
  apply (settings_update_lifts_throttle
           Scenario.faster 25 (Matrix.with_throttle true 1000 Sample.matrix)
           [95%Q; 99%Q]).
  - reflexivity.
  - repeat constructor.
Defined.

End SettingsUpdate.

(** ** Painting the trails *)

Section Paint.
Import Py Qt MystifyPaint.

Lemma draw_trail_from_paths (isEmpty : QPainterPath -> bool) (p : Palette)
      (shape : Mystify.Shape) (trail_len budget : nat) :
  forall (j : nat) (entries : list QPainterPath),
    map path (draw_trail_from isEmpty p shape trail_len budget j entries)
    = List.filter (fun c => negb (isEmpty c)) (firstn budget entries).
Proof.
  induction budget as [|budget IH]; intros j [|curve_path rest];
    try reflexivity.
  cbn [draw_trail_from firstn List.filter].
  rewrite map_app, IH. unfold draw_curve.
  destruct (isEmpty curve_path); reflexivity.
Qed.

(** The paths that [paintEvent] draws for a shape are the non-empty ones
    among the first [trail_segments] entries of its trail, in order.
    New curves are appended to the trail, so when the quality level
    makes [trail_segments] smaller than the trail it is the newest
    curves that are left out. *)
Theorem paint_draws_oldest_curves
        (isEmpty : QPainterPath -> bool) (p : Palette) (quality_level : Q)
        (shape : Mystify.Shape) (trail : list QPainterPath) :
  (2 <= length trail)%nat ->
  map path (draw_trail isEmpty p quality_level shape trail)
  = List.filter (fun c => negb (isEmpty c))
      (firstn (Z.to_nat (trail_segments (length trail) quality_level))
              trail) /\
  3 <= trail_segments (length trail) quality_level.
Proof.
  intros Hlen. unfold draw_trail.
  destruct (Nat.ltb_spec (length trail) 2) as [Hlt|_]; [lia|].
  split; [apply draw_trail_from_paths|]. unfold trail_segments. lia.
Qed.

Lemma paint_draws_oldest_curves_witness :
  map path (draw_trail (fun c => match c with [] => true | _ => false end)
                       Scenario.palette 0.5 Sample.triangle Scenario.trail)
  = firstn 3 Scenario.trail /\
  3 <= trail_segments (length Scenario.trail) 0.5.
Proof.
  destruct (paint_draws_oldest_curves
              (fun c => match c with [] => true | _ => false end)
              Scenario.palette 0.5 Sample.triangle Scenario.trail)
    as [Hpaths Hsegments].
  - cbn. lia.
  - split; [exact Hpaths | exact Hsegments].
Defined.

Lemma int_below (x : Q) (n : Z) :
  (0 <= x)%Q -> (x < inject_Z n)%Q -> int x <= n - 1.
Proof.
  intros H0 Hn. rewrite (int_floor x H0).
  pose proof (Qfloor_le x) as Hfloor.
  assert (H : (inject_Z (Qfloor x) < inject_Z n)%Q)
    by (eapply Qle_lt_trans; eassumption).
  rewrite <- Zlt_Qlt in H. lia.
Qed.

Lemma fade_factor_range (n j : nat) :
  (j < n)%nat -> (0 <= fade_factor n j /\ fade_factor n j < 1)%Q.
Proof.
  intros Hj. unfold fade_factor, float.
  assert (Hn : (0 < inject_Z (Z.of_nat n))%Q)
    by (change 0%Q with (inject_Z 0); rewrite <- Zlt_Qlt; lia).
  assert (H0 : (0 <= inject_Z (Z.of_nat j))%Q)
    by (change 0%Q with (inject_Z 0); rewrite <- Zle_Qle; lia).
  assert (H1 : (inject_Z (Z.of_nat j) < inject_Z (Z.of_nat n))%Q)
    by (rewrite <- Zlt_Qlt; lia).
  split.
  - apply Qle_shift_div_l; [exact Hn | lra].
  - apply Qlt_shift_div_r; [exact Hn | lra].
Qed.

Lemma fade_factor_mono (n j1 j2 : nat) :
  (j1 <= j2)%nat -> (j2 < n)%nat ->
  (fade_factor n j1 <= fade_factor n j2)%Q.
Proof.
  intros H12 Hj. unfold fade_factor, float.
  assert (Hn : (0 < inject_Z (Z.of_nat n))%Q)
    by (change 0%Q with (inject_Z 0); rewrite <- Zlt_Qlt; lia).
  assert (H1 : (inject_Z (Z.of_nat j1) <= inject_Z (Z.of_nat j2))%Q)
    by (rewrite <- Zle_Qle; lia).
  apply Qle_shift_div_l; [exact Hn|].
  unfold Qdiv. rewrite <- Qmult_assoc, (Qmult_comm (/ _)), Qmult_inv_r;
    [lra | lra].
Qed.

Lemma shape_color_alpha (p : Palette) (shape : Mystify.Shape) (fade : Q) :
  alpha_of (get_shape_color p shape fade) = base_alpha fade.
Proof.
  unfold get_shape_color, with_alpha.
  destruct (primary_color p) as [[r g] b].
  destruct (secondary_color p) as [[r' g'] b'].
  case_conditionals; reflexivity.
Qed.

(** The fade along a trail as the code computes it.  Entry [j] of a
    trail of [n] curves is drawn with alpha
    [max(50, min(255, int(255 * (1 - j / n))))] and a pen of width
    [max(1, int(3 * j / n))]: the alpha stays in [50, 255] and does not
    rise with [j], the width is 1 or 2 and does not fall with [j].  The
    newest curves are thus the most transparent ones, in every colour
    mode. *)
Theorem trail_fades_towards_newest
        (p : Palette) (shape : Mystify.Shape) (n j1 j2 : nat) :
  (j1 <= j2)%nat -> (j2 < n)%nat ->
  let older := get_shape_color p shape (fade_factor n j1) in
  let newer := get_shape_color p shape (fade_factor n j2) in
  50 <= alpha_of newer <= alpha_of older /\ alpha_of older <= 255 /\
  1 <= stroke_width (fade_factor n j1) <= stroke_width (fade_factor n j2) /\
  stroke_width (fade_factor n j2) <= 2.
Proof.
  intros H12 Hj. cbv zeta. rewrite !shape_color_alpha.
  pose proof (fade_factor_mono n j1 j2 H12 Hj) as Hmono.
  destruct (fade_factor_range n j2 Hj) as [H0 H1].
  destruct (fade_factor_range n j1 ltac:(lia)) as [H0' _].
  set (f1 := fade_factor n j1) in *. set (f2 := fade_factor n j2) in *.
  unfold base_alpha, stroke_width.
  assert (Halpha : int (255 * (1 - f2)) <= int (255 * (1 - f1)))
    by (apply int_mono; lra).
  assert (Hwidth : int (3 * f1) <= int (3 * f2)) by (apply int_mono; lra).
  assert (Htop : int (3 * f2) <= 3 - 1)
    by (apply int_below; [lra | change (inject_Z 3) with 3%Q; lra]).
  lia.
Qed.

Lemma trail_fades_towards_newest_witness :
  let older := get_shape_color Scenario.palette Sample.triangle
                               (fade_factor 6 0) in
  let newer := get_shape_color Scenario.palette Sample.triangle
                               (fade_factor 6 5) in
  50 <= alpha_of newer <= alpha_of older /\ alpha_of older <= 255 /\
  1 <= stroke_width (fade_factor 6 0) <= stroke_width (fade_factor 6 5) /\
  stroke_width (fade_factor 6 5) <= 2.
Proof.
  apply (trail_fades_towards_newest
           Scenario.palette Sample.triangle 6 0 5); lia.
Defined.

End Paint.

(** ** The columns of the rain engine *)

Section RainColumns.
Import Py Qt Random Rain.
Local Open Scope Q_scope.

Lemma uniform_ok (a b : Q) (g : rng) :
  a <= b ->
  exists v g1, uniform a b g = Ok (v, g1) /\ a <= v /\ v <= b.
Proof.
  intros Hab.
  destruct (uniform a b g) as [[v g1]|e] eqn:E.
  - exists v, g1. split; [reflexivity|]. eapply uniform_between; eassumption.
  - discriminate.
Qed.

Lemma choice_ok {A} (seq : list A) (g : rng) :
  seq <> [] ->
  exists a g1, choice seq g = Ok (a, g1) /\ In a seq.
Proof.
  intros Hne. destruct seq as [|d rest]; [congruence|].
  unfold choice, bind, randbelow, next, ret.
  eexists _, _. split; [reflexivity|].
  apply nth_In.
  pose proof (Z.mod_pos_bound (draws g (cursor g))
                              (Z.of_nat (length (d :: rest)))
                              ltac:(cbn [length]; lia)).
  lia.
Qed.

(** A loop over [range]: the body always ends normally and steps an
    invariant indexed by the loop variable. *)
Lemma for_each_seq_total {St} (P : nat -> St -> Prop)
      (body : nat -> St -> M St) (n : nat) :
  forall (a : nat) (s : St) (g : rng),
    (forall k s g,
        (a <= k < a + n)%nat -> P k s ->
        exists s1 g1, body k s g = Ok (s1, g1) /\ P (S k) s1) ->
    P a s ->
    exists s1 g1,
      for_each (seq a n) body s g = Ok (s1, g1) /\ P (a + n)%nat s1.
Proof.
  induction n as [|n IH]; intros a s g Hbody Hs.
  - exists s, g. split; [reflexivity|]. now rewrite Nat.add_0_r.
  - destruct (Hbody a s g ltac:(lia) Hs) as (s' & g' & Ea & Hs').
    destruct (IH (S a) s' g') as (s1 & g1 & Erest & Hs1).
    + intros k sk gk Hk. apply Hbody. lia.
    + exact Hs'.
    + exists s1, g1. cbn [seq for_each]. unfold bind. rewrite Ea.
      split; [exact Erest|]. now rewrite Nat.add_succ_r.
Qed.

Lemma character_set_nonempty (c : Column) : get_character_set c <> [].
Proof. unfold get_character_set. destruct (use_katakana c); discriminate. Qed.

(** The loop of [reset_column]. *)
Lemma add_characters_ok (head char_height : Z) (matrix_chars : list string)
      (n : nat) (g : rng) :
  matrix_chars <> [] ->
  exists characters g1,
    for_each (seq 0 n) (add_character head char_height matrix_chars)
             ([], [], []) g
    = Ok ((characters,
           map (fun i => float (head - Z.of_nat i * char_height)) (seq 0 n),
           map Z.of_nat (seq 0 n)), g1) /\
    length characters = n /\
    Forall (fun char => In char matrix_chars) characters.
Proof.
  intros Hne.
  destruct (for_each_seq_total
              (fun k (acc : list string * list Q * list Z) =>
                 snd (fst acc)
                 = map (fun i => float (head - Z.of_nat i * char_height))
                       (seq 0 k) /\
                 snd acc = map Z.of_nat (seq 0 k) /\
                 length (fst (fst acc)) = k /\
                 Forall (fun char => In char matrix_chars) (fst (fst acc)))
              (add_character head char_height matrix_chars) n
              0%nat ([], [], []) g)
    as ([[characters positions] ages] & g1 & E & Hp & Ha & Hlen & Hin).
  - intros k [[characters positions] ages] gk _ (Hp & Ha & Hlen & Hin).
    cbn [fst snd] in *. unfold add_character.
    destruct (choice_ok matrix_chars gk Hne) as (char & g1 & Echar & Hchar).
    unfold bind. rewrite Echar. eexists _, g1. split; [reflexivity|].
    cbn [fst snd]. rewrite seq_S, !map_app, Hp, Ha, length_app, Hlen.
    cbn [map length Nat.add]. repeat split; try reflexivity; try lia.
    apply Forall_app. split; [exact Hin | now constructor].
  - cbn. repeat split; constructor.
  - cbn [fst snd Nat.add] in *. subst positions ages.
    exists characters, g1. repeat split; assumption.
Qed.

Lemma reset_column_ok (c : Column) (g : rng) :
  exists (c1 : Column) (g1 : rng) (head : Z) (n : nat),
    reset_column c g = Ok (c1, g1) /\
    Matrix.head_position (base c1) = float head /\
    (-100 <= head <= -20)%Z /\
    Matrix.length_ (base c1) = Z.of_nat n /\ (3 <= n <= 15)%nat /\
    (0.3 <= Matrix.speed (base c1) /\ Matrix.speed (base c1) <= 1.5) /\
    length (Matrix.characters (base c1)) = n /\
    Forall (fun char => In char (get_character_set c))
           (Matrix.characters (base c1)) /\
    Matrix.char_positions (base c1)
    = map (fun i => float (head - Z.of_nat i * Matrix.char_height (base c)))
          (seq 0 n) /\
    Matrix.char_ages (base c1) = map Z.of_nat (seq 0 n) /\
    c1 = with_drop (Matrix.head_position (base c1)) (Matrix.speed (base c1))
                   (Matrix.length_ (base c1)) (Matrix.characters (base c1))
                   (Matrix.char_positions (base c1))
                   (Matrix.char_ages (base c1)) c.
Proof.
  unfold reset_column.
  destruct (randint_ok (-100) (-20) g ltac:(lia))
    as (head & g1 & Ehead & Hhead).
  destruct (uniform_ok 0.3 1.5 g1 ltac:(lra)) as (v & g2 & Ev & Hv).
  destruct (randint_ok 3 15 g2 ltac:(lia)) as (len & g3 & Elen & Hlen).
  destruct (add_characters_ok head (Matrix.char_height (base c))
              (get_character_set c) (Z.to_nat len) g3
              (character_set_nonempty c))
    as (characters & g4 & Eloop & Hn & Hin).
  exists (with_drop (float head) v len characters
            (map (fun i => float (head - Z.of_nat i
                                         * Matrix.char_height (base c)))
                 (seq 0 (Z.to_nat len)))
            (map Z.of_nat (seq 0 (Z.to_nat len))) c),
    g4, head, (Z.to_nat len).
  split.
  - unfold bind at 1. rewrite Ehead. unfold bind at 1. rewrite Ev.
    unfold bind at 1. rewrite Elen. unfold bind at 1, range.
    rewrite Eloop. reflexivity.
  - cbn [base with_drop Matrix.head_position Matrix.length_ Matrix.speed
         Matrix.characters Matrix.char_positions Matrix.char_ages].
    repeat split; try assumption; try lia; try apply Hv.
Qed.

(** One step of a loop that maps [f] over a list in place. *)
Lemma map_in_place_step {A} (f : A -> A) (l : list A) (k : nat) (x : A) :
  l !! k = Some x ->
  (map f (firstn k l) ++ skipn k l) !! k = Some x /\
  <[k := f x]> (map f (firstn k l) ++ skipn k l)
  = map f (firstn (S k) l) ++ skipn (S k) l.
Proof.
  intros Hk. pose proof (lookup_lt_Some _ _ _ Hk) as Hlt.
  assert (Hlen : length (map f (firstn k l)) = k)
    by (rewrite length_map, length_take; lia).
  split.
  - rewrite lookup_app_r by lia. rewrite Hlen, Nat.sub_diag, lookup_drop.
    now rewrite Nat.add_0_r.
  - rewrite insert_app_r_alt by lia. rewrite Hlen, Nat.sub_diag.
    rewrite (drop_S l x k Hk). cbn [insert list_insert].
    rewrite (take_S_r l k x Hk), map_app, <- app_assoc. reflexivity.
Qed.

(** The loop of [update] over lists of equal length. *)
Lemma advance_characters_ok (movement : Q) (matrix_chars : list string)
      (characters : list string) (positions : list Q) (ages : list Z)
      (g : rng) :
  matrix_chars <> [] ->
  length characters = length positions ->
  length ages = length positions ->
  exists characters1 g1,
    for_each (seq 0 (length positions))
             (advance_character movement matrix_chars)
             (characters, positions, ages) g
    = Ok ((characters1,
           map (fun pos => pos + movement) positions,
           map (fun age => (age + 1)%Z) ages), g1) /\
    length characters1 = length characters /\
    Forall (fun char => In char characters \/ In char matrix_chars)
           characters1.
Proof.
  intros Hne Hchars Hages.
  destruct (for_each_seq_total
              (fun k (acc : list string * list Q * list Z) =>
                 snd (fst acc)
                 = map (fun pos => pos + movement) (firstn k positions)
                   ++ skipn k positions /\
                 snd acc
                 = map (fun age => (age + 1)%Z) (firstn k ages)
                   ++ skipn k ages /\
                 length (fst (fst acc)) = length characters /\
                 Forall (fun char => In char characters \/
                                     In char matrix_chars) (fst (fst acc)))
              (advance_character movement matrix_chars) (length positions)
              0%nat (characters, positions, ages) g)
    as ([[characters1 positions1] ages1] & g1 & E & Hp & Ha & Hlen & Hin).
  - intros k [[cs ps] ags] gk [_ Hk] (Hp & Ha & Hlen & Hin).
    cbn [fst snd Nat.add] in *. subst ps ags. unfold advance_character.
    destruct (lookup_lt_is_Some_2 positions k Hk) as [pos Hpos].
    destruct (lookup_lt_is_Some_2 ages k ltac:(lia)) as [age Hage].
    destruct (map_in_place_step (fun pos => pos + movement)
                                positions k pos Hpos) as [-> ->].
    destruct (map_in_place_step (fun age => (age + 1)%Z)
                                ages k age Hage) as [-> ->].
    unfold bind at 1, random at 1, bind at 1, next at 1, ret at 1.
    destruct (Qltb _ 0.02).
    + unfold bind at 1.
      match goal with
      | |- context [choice matrix_chars ?g0] =>
          destruct (choice_ok matrix_chars g0 Hne)
            as (char & g1 & Echar & Hchar)
      end.
      rewrite Echar.
      destruct (Nat.ltb_spec k (length cs)) as [_|Hge]; [|lia].
      eexists _, _. split; [reflexivity|]. cbn [fst snd].
      repeat split; try reflexivity.
      * now rewrite length_insert.
      * apply Forall_insert; [exact Hin | now right].
    + eexists _, _. split; [reflexivity|]. cbn [fst snd].
      repeat split; try reflexivity; assumption.
  - cbn [fst snd firstn skipn map app]. repeat split; try reflexivity.
    apply List.Forall_forall. intros char Hchar. now left.
  - cbn [fst snd Nat.add] in *.
    rewrite firstn_all, skipn_all, app_nil_r in Hp.
    rewrite <- Hages, firstn_all, skipn_all, app_nil_r in Ha.
    subst positions1 ages1. exists characters1, g1.
    split; [exact E|]. split; assumption.
Qed.

(** A reset gives the column a fresh drop, for every entropy source:
    the head between 100 and 20 pixels above the screen, a speed in
    [0.3, 1.5], between 3 and 15 characters of the configured glyph
    set, character [i] placed [i] character heights above the head with
    age [i].  The geometry and the update clock of the column stay as
    they are. *)
Theorem reset_column_gives_fresh_drop (c : Column) (g : rng) :
  exists (c1 : Column) (g1 : rng) (head : Z) (n : nat),
    reset_column c g = Ok (c1, g1) /\
    Matrix.head_position (base c1) = float head /\
    (-100 <= head <= -20)%Z /\
    Matrix.length_ (base c1) = Z.of_nat n /\ (3 <= n <= 15)%nat /\
    (0.3 <= Matrix.speed (base c1) /\ Matrix.speed (base c1) <= 1.5) /\
    length (Matrix.characters (base c1)) = n /\
    Forall (fun char => In char (get_character_set c))
           (Matrix.characters (base c1)) /\
    Matrix.char_positions (base c1)
    = map (fun i => float (head - Z.of_nat i * Matrix.char_height (base c)))
          (seq 0 n) /\
    Matrix.char_ages (base c1) = map Z.of_nat (seq 0 n) /\
    c1 = with_drop (Matrix.head_position (base c1)) (Matrix.speed (base c1))
                   (Matrix.length_ (base c1)) (Matrix.characters (base c1))
                   (Matrix.char_positions (base c1))
                   (Matrix.char_ages (base c1)) c.
Proof. exact (reset_column_ok c g). Qed.

Lemma update_ok (now delta_time : Q) (c : Column) (g : rng) :
  drop_aligned c ->
  exists r g1,
    update now delta_time c g = Ok (r, g1) /\
    drop_aligned (snd r) /\
    if Qltb (now * 1000 - last_update c) (float (update_interval c))
    then r = (false, c) /\ g1 = g
    else
      let movement := Matrix.speed (base c) * delta_time * 60 in
      let head := Matrix.head_position (base c) + movement in
      fst r = Qltb (float (Matrix.screen_height (base c)) + 100) head /\
      Matrix.head_position (base (snd r)) = head /\
      Matrix.char_positions (base (snd r))
      = map (fun pos => pos + movement) (Matrix.char_positions (base c)) /\
      Matrix.char_ages (base (snd r))
      = map (fun age => (age + 1)%Z) (Matrix.char_ages (base c)) /\
      Matrix.screen_height (base (snd r)) = Matrix.screen_height (base c) /\
      Matrix.x (base (snd r)) = Matrix.x (base c) /\
      last_update (snd r) = now * 1000.
Proof.
  intros [Hchars Hages]. unfold update.
  destruct (Qltb (now * 1000 - last_update c) (float (update_interval c))).
  - exists (false, c), g. repeat split; assumption.
  - destruct (advance_characters_ok
                (Matrix.speed (base c) * delta_time * 60)
                (get_character_set c) (Matrix.characters (base c))
                (Matrix.char_positions (base c)) (Matrix.char_ages (base c))
                g (character_set_nonempty c) Hchars Hages)
      as (characters1 & g1 & E & Hlen & _).
    unfold bind. rewrite E. eexists _, g1. split; [reflexivity|].
    cbn [fst snd base last_update Matrix.head_position
         Matrix.char_positions Matrix.char_ages Matrix.characters
         Matrix.screen_height Matrix.x].
    split; [|repeat split; reflexivity].
    unfold drop_aligned.
    cbn [base Matrix.char_positions Matrix.char_ages Matrix.characters].
    rewrite !length_map. split; congruence.
Qed.

(** An update of a column with an aligned drop always ends normally.
    Before [update_interval] milliseconds have passed it changes
    nothing and draws no random number.  Otherwise the drop moves as a
    whole: the head and every character go down by
    [speed * delta_time * 60], every age grows by one, and the result
    asks for a reset exactly if the head is more than 100 pixels below
    the screen. *)
Theorem update_moves_drop_as_a_whole
        (now delta_time : Q) (c : Column) (g : rng) :
  drop_aligned c ->
  exists r g1,
    update now delta_time c g = Ok (r, g1) /\
    drop_aligned (snd r) /\
    if Qltb (now * 1000 - last_update c) (float (update_interval c))
    then r = (false, c) /\ g1 = g
    else
      let movement := Matrix.speed (base c) * delta_time * 60 in
      let head := Matrix.head_position (base c) + movement in
      fst r = Qltb (float (Matrix.screen_height (base c)) + 100) head /\
      Matrix.head_position (base (snd r)) = head /\
      Matrix.char_positions (base (snd r))
      = map (fun pos => pos + movement) (Matrix.char_positions (base c)) /\
      Matrix.char_ages (base (snd r))
      = map (fun age => (age + 1)%Z) (Matrix.char_ages (base c)) /\
      Matrix.screen_height (base (snd r)) = Matrix.screen_height (base c) /\
      Matrix.x (base (snd r)) = Matrix.x (base c) /\
      last_update (snd r) = now * 1000.
Proof. exact (update_ok now delta_time c g). Qed.

Lemma update_moves_drop_as_a_whole_witness :
  exists r g1,
    update 1 0.1 Scenario.rain_column Sample.rng360 = Ok (r, g1) /\
    drop_aligned (snd r) /\
    fst r = false /\
    Matrix.head_position (base (snd r)) = 1100 + 1 * 0.1 * 60 /\
    Matrix.char_ages (base (snd r)) = [1; 2; 3; 4]%Z.
Proof.
  destruct (update_moves_drop_as_a_whole 1 0.1 Scenario.rain_column Sample.rng360)
    as (r & g1 & E & Haligned & Hmove).
  - split; reflexivity.
  - exists r, g1. split; [exact E|]. split; [exact Haligned|].
    cbn in Hmove. destruct Hmove as (Hflag & Hhead & _ & Hages & _).
    split; [now rewrite Hflag|]. split; [exact Hhead | exact Hages].
Defined.

Lemma reset_on_track (c : Column) (g : rng) :
  (0 <= Matrix.screen_height (base c))%Z ->
  exists c1 g1 (head : Z),
    reset_column c g = Ok (c1, g1) /\
    column_on_track c1 /\
    Matrix.screen_height (base c1) = Matrix.screen_height (base c) /\
    Matrix.x (base c1) = Matrix.x (base c) /\
    Matrix.head_position (base c1) = float head /\
    (-100 <= head <= -20)%Z /\
    Matrix.char_positions (base c1) !! 0%nat = Some (float head).
Proof.
  intros Hheight.
  destruct (reset_column_ok c g)
    as (c1 & g1 & head & n & E & Hhead & Hrange & _ & Hn & _ & Hlen & _
        & Hpos & Hages & Hc1).
  exists c1, g1, head. split; [exact E|].
  assert (Hscreen : Matrix.screen_height (base c1)
                    = Matrix.screen_height (base c))
    by (rewrite Hc1; reflexivity).
  split; [|split; [exact Hscreen|split; [rewrite Hc1; reflexivity|]]].
  - split; [|split].
    + unfold drop_aligned.
      rewrite Hlen, Hpos, Hages, !length_map, length_seq. now split.
    + now rewrite Hscreen.
    + rewrite Hhead, Hscreen. unfold float.
      assert (H1 : inject_Z head <= inject_Z (-20))
        by (rewrite <- Zle_Qle; lia).
      assert (H2 : inject_Z 0 <= inject_Z (Matrix.screen_height (base c)))
        by (rewrite <- Zle_Qle; lia).
      change (inject_Z (-20)) with (-20) in H1.
      change (inject_Z 0) with 0 in H2. lra.
  - split; [exact Hhead|]. split; [exact Hrange|].
    rewrite Hpos. destruct n as [|n]; [lia|].
    cbn [seq map lookup list_lookup]. do 2 f_equal. lia.
Qed.

Lemma update_column_on_track (now delta_time : Q) (c : Column) (g : rng) :
  column_on_track c ->
  exists c1 g1,
    update_column now delta_time c g = Ok (c1, g1) /\
    column_on_track c1 /\
    Matrix.x (base c1) = Matrix.x (base c).
Proof.
  intros (Haligned & Hheight & Hhead). unfold update_column.
  destruct (update_ok now delta_time c g Haligned)
    as ([flag c'] & g' & E & Haligned' & Hcases).
  unfold bind. rewrite E. cbn [fst snd] in *.
  destruct (Qltb (now * 1000 - last_update c) (float (update_interval c))).
  - destruct Hcases as [[= -> ->] ->]. exists c, g.
    split; [reflexivity|]. split; [|reflexivity]. now split.
  - cbv zeta in Hcases.
    destruct Hcases as (Hflag & Hhead' & _ & _ & Hscreen & Hx & _).
    destruct flag.
    + destruct (reset_on_track c' g' ltac:(now rewrite Hscreen))
        as (c1 & g1 & head & E1 & Htrack & _ & Hx1 & _).
      exists c1, g1. split; [exact E1|]. split; [exact Htrack|]. congruence.
    + exists c', g'. split; [reflexivity|]. split; [|exact Hx].
      split; [exact Haligned'|]. split; [now rewrite Hscreen|].
      symmetry in Hflag. apply Qltb_ge in Hflag.
      rewrite Hhead', Hscreen. exact Hflag.
Qed.

(** The loop over the columns in [update_animation]: from columns that
    are on track it ends normally for every clock and entropy source,
    with the same number of columns at the same places, all on track
    again: no head is ever left more than 100 pixels below the
    screen. *)
Theorem update_columns_keep_track
        (clock : nat -> Q) (delta_time : Q) (columns : list Column)
        (i : nat) (g : rng) :
  Forall column_on_track columns ->
  exists columns1 g1,
    update_columns clock delta_time i columns g = Ok (columns1, g1) /\
    length columns1 = length columns /\
    map (fun c => Matrix.x (base c)) columns1
    = map (fun c => Matrix.x (base c)) columns /\
    Forall column_on_track columns1.
Proof.
  intros Htrack. revert i g.
  induction Htrack as [|c rest Hc _ IH]; intros i g.
  - exists [], g. repeat split; constructor.
  - destruct (update_column_on_track (clock i) delta_time c g Hc)
      as (c1 & g1 & E & Hc1 & Hx).
    destruct (IH (S i) g1) as (rest1 & g2 & Erest & Hlen & Hxs & Hrest).
    exists (c1 :: rest1), g2. cbn [update_columns]. unfold bind.
    rewrite E, Erest. split; [reflexivity|].
    cbn [length map]. rewrite Hlen, Hx, Hxs.
    repeat split. now constructor.
Qed.

Lemma sample_column_on_track : column_on_track Scenario.rain_column.
Proof.
  split; [split; reflexivity|]. split; [cbn; lia|].
  apply Qle_bool_imp_le. reflexivity.
Qed.

Lemma update_columns_keep_track_witness :
  exists columns1 g1,
    update_columns (fun _ => 1) 0.1 0 [Scenario.rain_column; Scenario.rain_column]
                   Sample.rng360 = Ok (columns1, g1) /\
    length columns1 = 2%nat /\
    map (fun c => Matrix.x (base c)) columns1 = [40; 40]%Z /\
    Forall column_on_track columns1.
Proof.
  apply (update_columns_keep_track
           (fun _ => 1) 0.1 [Scenario.rain_column; Scenario.rain_column] 0%nat
           Sample.rng360).
  repeat constructor; apply sample_column_on_track.
Defined.

Lemma new_column_ok (x screen_height char_height : Z) (katakana : bool)
      (g : rng) :
  char_height <> 0%Z -> (0 <= screen_height)%Z ->
  exists c g1 (head : Z),
    new_column x screen_height char_height katakana g = Ok (c, g1) /\
    column_on_track c /\
    Matrix.screen_height (base c) = screen_height /\
    Matrix.head_position (base c) = float head /\
    (-100 <= head <= -20)%Z /\
    Matrix.char_positions (base c) !! 0%nat = Some (float head).
Proof.
  intros Hchar Hheight. unfold new_column.
  destruct (Z.eqb_spec char_height 0) as [|_]; [contradiction|].
  destruct (uniform_ok 0.3 1.5 g ltac:(lra)) as (v & g1 & Ev & _).
  destruct (randint_ok 3 15 g1 ltac:(lia)) as (len & g2 & Elen & _).
  destruct (randint_ok 100 250 g2 ltac:(lia)) as (ms & g3 & Ems & _).
  unfold bind at 1. rewrite Ev. unfold bind at 1. rewrite Elen.
  unfold bind at 1. rewrite Ems.
  match goal with
  | |- context [reset_column ?c0 g3] =>
      destruct (reset_on_track c0 g3 Hheight)
        as (c & g4 & head & E & Htrack & Hscreen & _ & Hhead & Hrange & Hpos)
  end.
  cbn [base Matrix.screen_height] in Hscreen.
  exists c, g4, head. split; [exact E|]. split; [exact Htrack|].
  split; [exact Hscreen|]. split; [exact Hhead|]. split; [exact Hrange|].
  exact Hpos.
Qed.

Lemma add_column_ok (height char_height : Z) (katakana : bool)
      (column_spacing : Q) (i : nat) (columns : list Column) (g : rng) :
  char_height <> 0%Z -> (0 <= height)%Z ->
  exists c g1,
    add_column height char_height katakana column_spacing i columns g
    = Ok (columns ++ [c], g1) /\
    column_on_track c /\ staggered height c.
Proof.
  intros Hchar Hheight. unfold add_column.
  destruct (new_column_ok (int (float (Z.of_nat i) * column_spacing))
                          height char_height katakana g Hchar Hheight)
    as (c & g1 & head & E & (Haligned & _ & _) & Hscreen & Hhead & Hrange
        & Hpos).
  destruct (randint_ok 0 height g1 Hheight) as (stagger & g2 & Es & Hs).
  unfold bind. rewrite E, Es. eexists _, g2. split; [reflexivity|].
  split; [split; [exact Haligned|split]|].
  - cbn [base Matrix.screen_height]. now rewrite Hscreen.
  - cbn [base Matrix.screen_height Matrix.head_position].
    rewrite Hhead, Hscreen. unfold float.
    assert (H1 : inject_Z head <= inject_Z (-20))
      by (rewrite <- Zle_Qle; lia).
    assert (H2 : inject_Z 0 <= inject_Z stagger)
      by (rewrite <- Zle_Qle; lia).
    assert (H3 : inject_Z 0 <= inject_Z height)
      by (rewrite <- Zle_Qle; lia).
    change (inject_Z (-20)) with (-20) in H1.
    change (inject_Z 0) with 0 in H2, H3. lra.
  - exists head, stagger.
    cbn [base Matrix.char_positions Matrix.head_position].
    rewrite Hhead. repeat split; try assumption; lia.
Qed.

(** [setup_columns] on a widget with an area and a font with non-zero
    metrics ends normally for every entropy source and replaces the
    columns by [max(20, (width // char_width) // 2)] new ones, all on
    track.  The stagger is subtracted from the head position only: the
    characters of every drop stay where the reset put them, the first
    one between 100 and 20 pixels above the screen, whatever the
    stagger of the column. *)
Theorem setup_columns_staggers_heads_only
        (width height char_width char_height : Z) (katakana : bool)
        (columns : list Column) (g : rng) :
  (0 < width)%Z -> (0 < height)%Z ->
  char_width <> 0%Z -> char_height <> 0%Z ->
  exists columns1 g1,
    setup_columns width height char_width char_height katakana columns g
    = Ok (columns1, g1) /\
    length columns1 = Z.to_nat (num_columns width char_width) /\
    (20 <= length columns1)%nat /\
    Forall column_on_track columns1 /\
    Forall (staggered height) columns1.
Proof.
  intros Hwidth Hheight Hcw Hch. unfold setup_columns.
  destruct (Z.leb_spec width 0) as [|_]; [lia|].
  destruct (Z.leb_spec height 0) as [|_]; [lia|].
  destruct (Z.eqb_spec char_width 0) as [|_]; [contradiction|].
  cbn [orb].
  destruct (for_each_total
              (fun k (acc : list Column) =>
                 length acc = k /\ Forall column_on_track acc /\
                 Forall (staggered height) acc)
              (add_column height char_height katakana
                 (float width / float (num_columns width char_width)))
              (range (num_columns width char_width)))
    with (k := 0%nat) (s := [] : list Column) (g := g)
    as (columns1 & g1 & E & Hlen & Htrack & Hstagger).
  - intros k i acc gk _ (Hlen & Htrack & Hstagger).
    destruct (add_column_ok height char_height katakana
                (float width / float (num_columns width char_width))
                i acc gk Hch ltac:(lia))
      as (c & g1 & E & Hc & Hs).
    exists (acc ++ [c]), g1. split; [exact E|].
    rewrite length_app. cbn [length].
    split; [lia|]. split; apply Forall_app; split;
      try assumption; now constructor.
  - repeat split; constructor.
  - unfold range in Hlen. rewrite length_seq in Hlen. cbn [Nat.add] in Hlen.
    exists columns1, g1. split; [exact E|]. split; [exact Hlen|].
    split; [|split; assumption].
    rewrite Hlen. unfold num_columns. lia.
Qed.

Lemma setup_columns_staggers_heads_only_witness :
  exists columns1 g1,
    setup_columns 1920 1080 12 20 true [] Sample.rng360
    = Ok (columns1, g1) /\
    length columns1 = 80%nat /\
    (20 <= length columns1)%nat /\
    Forall column_on_track columns1 /\
    Forall (staggered 1080) columns1.
Proof.
  apply (setup_columns_staggers_heads_only
           1920 1080 12 20 true [] Sample.rng360); lia.
Defined.

End RainColumns.

(** ** Input events of the rain engine *)

Section Events.
Import Py Qt MatrixEvents.

(** [F] is the one key that does not end the screensaver: it emits
    nothing and flips what [settings.get('show_stats', False)] returns,
    so that two presses restore it; the columns, the timer and the
    throttle are untouched.  Every other key emits [exit_requested] once
    and changes nothing. *)
Theorem key_f_toggles_and_other_keys_exit (k : key) (w : Matrix.MatrixWidget) :
  let r := keyPressEvent k w in
  let shown (u : Matrix.MatrixWidget) :=
    Matrix.get (Matrix.show_stats (Matrix.settings u)) false in
  match k with
  | Key_F =>
      snd r = [] /\
      shown (fst r) = negb (shown w) /\
      shown (fst (keyPressEvent Key_F (fst r))) = shown w /\
      Matrix.columns (fst r) = Matrix.columns w /\
      Matrix.timer_interval (fst r) = Matrix.timer_interval w /\
      Matrix.is_emergency_throttled (fst r) = Matrix.is_emergency_throttled w
  | _ => r = (w, [exit_requested])
  end.
Proof.
  destruct k; cbv zeta; cbn; try reflexivity.
  repeat split; try reflexivity. apply negb_involutive.
Qed.

Lemma mouse_moves_from (reference : Z * Z) (positions : list (Z * Z)) :
  mouse_moves positions (Some reference)
  = map (fun p => snd (mouseMoveEvent p (Some reference))) positions.
Proof.
  induction positions as [|p rest IH]; [reflexivity|].
  cbn [mouse_moves map].
  assert (Hstate : fst (mouseMoveEvent p (Some reference)) = Some reference)
    by (unfold mouseMoveEvent; now destruct (_ || _)).
  destruct (mouseMoveEvent p (Some reference)) as [state signals].
  cbn [fst snd] in *. subst state. now rewrite IH.
Qed.

(** The mouse threshold is measured from the first position ever
    reported, which is recorded and never replaced: the first event
    emits nothing, and each later event emits [exit_requested] exactly
    if it lies more than 5 pixels from that first position along an
    axis, however small the step from the event before it was. *)
Theorem mouse_exit_measured_from_first_position
        (first : Z * Z) (later : list (Z * Z)) :
  mouse_moves (first :: later) None
  = [] :: map (fun p =>
                 if (5 <? Z.abs (fst p - fst first))
                    || (5 <? Z.abs (snd p - snd first))
                 then [exit_requested] else [])
              later.
Proof.
  cbn [mouse_moves mouseMoveEvent]. f_equal.
  rewrite mouse_moves_from. apply map_ext. intros p.
  unfold mouseMoveEvent. now destruct (_ || _).
Qed.

End Events.

(** ** The drift of the statistics readout *)

Section DriftTrack.
Import Py.
Local Open Scope Q_scope.

Lemma Qfloor_shift (y : Q) (k : Z) :
  Qfloor (y + inject_Z k) = (Qfloor y + k)%Z.
Proof.
  pose proof (Qfloor_le y) as H1. pose proof (Qlt_floor y) as H2.
  pose proof (Qfloor_le (y + inject_Z k)) as H3.
  pose proof (Qlt_floor (y + inject_Z k)) as H4.
  assert (Ha : inject_Z (Qfloor y + k)
               < inject_Z (Qfloor (y + inject_Z k) + 1)).
  { rewrite inject_Z_plus. eapply Qle_lt_trans; [|exact H4]. lra. }
  assert (Hb : inject_Z (Qfloor (y + inject_Z k))
               < inject_Z (Qfloor y + 1 + k)).
  { eapply Qle_lt_trans; [exact H3|].
    rewrite (inject_Z_plus (Qfloor y + 1) k). lra. }
  rewrite <- Zlt_Qlt in Ha, Hb. lia.
Qed.

Lemma fmod_compat (x x' d : Q) : x == x' -> fmod x d == fmod x' d.
Proof.
  intros Hx. unfold fmod.
  assert (E : x / d == x' / d) by (now rewrite Hx).
  rewrite (Qfloor_comp _ _ E). now rewrite Hx.
Qed.

(** Python's float remainder has the period of its divisor. *)
Lemma fmod_period (x d : Q) (k : Z) :
  ~ d == 0 -> fmod (x + inject_Z k * d) d == fmod x d.
Proof.
  intros Hd. unfold fmod.
  assert (E : (x + inject_Z k * d) / d == x / d + inject_Z k)
    by (field; exact Hd).
  rewrite E, Qfloor_shift, inject_Z_plus. ring.
Qed.

Lemma drift_periodic (stats_drift : bool) (now start : Q)
      (cycle margin screen_width screen_height : Z) (k : Z) :
  Drift.calculate_drift_position
    stats_drift (now + float (k * cycle)) start cycle margin
    screen_width screen_height
  = Drift.calculate_drift_position
      stats_drift now start cycle margin screen_width screen_height.
Proof.
  unfold Drift.calculate_drift_position.
  destruct stats_drift; [|reflexivity]. cbn [negb].
  destruct (Z.eqb_spec cycle 0) as [|Hcycle]; [reflexivity|].
  pose proof (float_nonzero cycle Hcycle) as Hne. cbv zeta.
  set (p1 := fmod (now + float (k * cycle) - start) (float cycle)
             / float cycle).
  set (p2 := fmod (now - start) (float cycle) / float cycle).
  assert (Hp : p1 == p2).
  { subst p1 p2.
    assert (E : now + float (k * cycle) - start
                == now - start + inject_Z k * float cycle)
      by (unfold float; rewrite inject_Z_mult; ring).
    rewrite (fmod_compat _ _ _ E), fmod_period by exact Hne.
    reflexivity. }
  assert (H25 : Qltb p1 0.25 = Qltb p2 0.25) by (now rewrite Hp).
  assert (H50 : Qltb p1 0.5 = Qltb p2 0.5) by (now rewrite Hp).
  assert (H75 : Qltb p1 0.75 = Qltb p2 0.75) by (now rewrite Hp).
  rewrite H25, H50, H75. clearbody p1 p2.
  destruct (Qltb p2 0.25); [|destruct (Qltb p2 0.5);
                             [|destruct (Qltb p2 0.75)]];
    f_equal; f_equal; apply int_proper; rewrite Hp; reflexivity.
Qed.

(** The drift of the readout is periodic in both widgets: the position
    at any time, before or after the start of the drift, is the position
    a whole number of cycles later. *)
Theorem drift_position_is_periodic
        (mw : Mystify.MystifyWidget) (xw : Matrix.MatrixWidget)
        (now : Q) (k screen_width screen_height : Z) :
  Mystify.calculate_drift_position
    (now + float (k * Mystify.drift_cycle_duration mw))
    screen_width screen_height mw
  = Mystify.calculate_drift_position now screen_width screen_height mw /\
  Matrix.calculate_drift_position
    (now + float (k * Matrix.drift_cycle_duration xw))
    screen_width screen_height xw
  = Matrix.calculate_drift_position now screen_width screen_height xw.
Proof.
  unfold Mystify.calculate_drift_position, Matrix.calculate_drift_position.
  split; apply drift_periodic.
Qed.

Lemma float_sub (a b : Z) : float a - float b == float (a - b).
Proof.
  unfold float, Z.sub. rewrite inject_Z_plus, inject_Z_opp. ring.
Qed.

(** On a screen that leaves room for the readout (300 by 80 pixels
    inside the margins) the drift position lies, at every time, on the
    border of the rectangle from [(margin, margin)] to
    [(width - margin - 300, height - margin - 80)]. *)
Theorem drift_position_on_track
        (now start : Q) (cycle margin screen_width screen_height : Z) :
  (0 < cycle)%Z ->
  (2 * margin + 300 <= screen_width)%Z ->
  (2 * margin + 80 <= screen_height)%Z ->
  exists x y : Z,
    Drift.calculate_drift_position true now start cycle margin
                                   screen_width screen_height
    = Ok (x, y) /\
    (margin <= x <= screen_width - margin - 300)%Z /\
    (margin <= y <= screen_height - margin - 80)%Z /\
    (y = margin \/ x = (screen_width - margin - 300)%Z \/
     y = (screen_height - margin - 80)%Z \/ x = margin).
Proof.
  intros Hcycle Hwidth Hheight. unfold Drift.calculate_drift_position.
  destruct (Z.eqb_spec cycle 0) as [|_]; [lia|]. cbn [negb]. cbv zeta.
  assert (Hd : 0 < float cycle)
    by (unfold float; change 0 with (inject_Z 0); rewrite <- Zlt_Qlt; lia).
  destruct (fmod_range (now - start) (float cycle) Hd) as [Hlo Hhi].
  set (p := fmod (now - start) (float cycle) / float cycle).
  assert (Hp : 0 <= p /\ p < 1).
  { subst p. split.
    - apply Qle_shift_div_l; [exact Hd | lra].
    - apply Qlt_shift_div_r; [exact Hd | lra]. }
  clearbody p. destruct Hp as [Hp0 Hp1].
  set (m := float margin).
  set (right := float screen_width - m - 300).
  set (bottom := float screen_height - m - 80).
  assert (Hright : right == float (screen_width - margin - 300)).
  { subst right m. rewrite float_sub.
    change 300 with (float 300). now rewrite float_sub. }
  assert (Hbottom : bottom == float (screen_height - margin - 80)).
  { subst bottom m. rewrite float_sub.
    change 80 with (float 80). now rewrite float_sub. }
  assert (Hmr : m <= right).
  { rewrite Hright. subst m. unfold float. rewrite <- Zle_Qle. lia. }
  assert (Hmb : m <= bottom).
  { rewrite Hbottom. subst m. unfold float. rewrite <- Zle_Qle. lia. }
  assert (Hint_m : int m = margin) by apply int_float.
  assert (Hint_r : int right = (screen_width - margin - 300)%Z)
    by (rewrite (int_proper _ _ Hright); apply int_float).
  assert (Hint_b : int bottom = (screen_height - margin - 80)%Z)
    by (rewrite (int_proper _ _ Hbottom); apply int_float).
  assert (Hw : float screen_width - 2 * m - 300 == right - m)
    by (subst right; ring).
  assert (Hh : float screen_height - 2 * m - 80 == bottom - m)
    by (subst bottom; ring).
  assert (Hbetween : forall v lo hi : Q,
             lo <= v -> v <= hi -> (int lo <= int v <= int hi)%Z)
    by (intros v lo hi H1 H2; split; now apply int_mono).
  destruct (Qltb_spec p 0.25) as [H25|H25];
    [|destruct (Qltb_spec p 0.5) as [H50|H50];
      [|destruct (Qltb_spec p 0.75) as [H75|H75]]];
    eexists _, _; (split; [reflexivity|]);
    match goal with
    | |- (_ <= int ?X <= _)%Z /\ (_ <= int ?Y <= _)%Z /\ _ =>
        assert (HX : m <= X /\ X <= right) by (rewrite ?Hw; split; nra);
        assert (HY : m <= Y /\ Y <= bottom) by (rewrite ?Hh; split; nra);
        destruct HX as [HX1 HX2]; destruct HY as [HY1 HY2];
        pose proof (Hbetween X m right HX1 HX2);
        pose proof (Hbetween Y m bottom HY1 HY2)
    end; lia.
Qed.

Lemma drift_position_on_track_witness :
  exists x y : Z,
    Drift.calculate_drift_position true 130 10 480 50 1920 1080
    = Ok (x, y) /\
    (50 <= x <= 1920 - 50 - 300)%Z /\
    (50 <= y <= 1080 - 50 - 80)%Z /\
    (y = 50%Z \/ x = (1920 - 50 - 300)%Z \/
     y = (1080 - 50 - 80)%Z \/ x = 50%Z).
Proof.
  apply (drift_position_on_track 130 10 480 50 1920 1080); lia.
Defined.

End DriftTrack.

(** ** The interrupt total *)

Section InterruptTotal.
Import Interrupts.

Lemma int_digits_nonneg (s : string) (acc : Z) :
  0 <= acc -> 0 <= int_digits s acc.
Proof.
  revert acc. induction s as [|c rest IH]; intros acc Hacc; [exact Hacc|].
  cbn [int_digits]. apply IH. lia.
Qed.

Lemma sum_columns_nonneg (is_usb : bool) (fields : list string) :
  forall counters : Z * Z,
    0 <= fst counters -> 0 <= snd counters ->
    0 <= fst (sum_columns is_usb fields counters) /\
    0 <= snd (sum_columns is_usb fields counters).
Proof.
  induction fields as [|f rest IH]; intros [u h] Hu Hh; [now split|].
  cbn [sum_columns]. destruct (isdigit f); [|now split].
  pose proof (int_digits_nonneg f 0 ltac:(lia)).
  destruct is_usb; apply IH; cbn [fst snd] in *; lia.
Qed.

(** The inner loop adds to the counters what it adds to zero counters,
    and that is not negative. *)
Lemma sum_columns_adds (is_usb : bool) (fields : list string) :
  forall counters : Z * Z,
    let added := sum_columns is_usb fields (0, 0) in
    sum_columns is_usb fields counters
    = (fst counters + fst added, snd counters + snd added) /\
    0 <= fst added /\ 0 <= snd added.
Proof.
  cbv zeta. intros counters.
  split; [|apply sum_columns_nonneg; cbn; lia].
  revert counters. induction fields as [|f rest IH]; intros [u h].
  - cbn. f_equal; lia.
  - cbn [sum_columns]. destruct (isdigit f); [|cbn; f_equal; lia].
    destruct is_usb.
    + rewrite (IH (u + int_digits f 0, h)), (IH (0 + int_digits f 0, 0)).
      cbn [fst snd]. f_equal; lia.
    + rewrite (IH (u, h + int_digits f 0)), (IH (0, 0 + int_digits f 0)).
      cbn [fst snd]. f_equal; lia.
Qed.

Lemma scan_line_adds (counters : Z * Z) (line : string) :
  fst (scan_line counters line) + snd (scan_line counters line)
  = fst counters + snd counters + line_total line /\
  0 <= line_total line.
Proof.
  unfold line_total, scan_line.
  destruct (existsb _ keywords); [|destruct counters; cbn; lia].
  destruct (split_ws line EmptyString) as [|name [|field fields]];
    try (destruct counters; cbn; lia).
  destruct (sum_columns_adds
              (existsb (fun keyword => contains keyword (lower line))
                       usb_keywords)
              (field :: fields) counters) as (-> & Hu & Hh).
  destruct (sum_columns _ _ (0, 0)) as [u h]. cbn [fst snd] in *. lia.
Qed.

Lemma scan_adds (lines : list string) :
  forall counters : Z * Z,
    let r := fold_left scan_line lines counters in
    fst r + snd r
    = fst counters + snd counters + fold_right Z.add 0 (map line_total lines).
Proof.
  induction lines as [|line rest IH]; intros counters; cbv zeta.
  - cbn. lia.
  - cbn [fold_left map fold_right]. rewrite IH.
    destruct (scan_line_adds counters line) as [-> _]. lia.
Qed.

(** The total that the activity poll compares with its baseline is the
    sum of what the lines of the table contribute one by one: no line
    contributes a negative number, a line that names no input device
    contributes nothing, and the order of the lines does not matter. *)
Theorem interrupt_total_is_sum_of_lines (content : string) :
  let lines := split_on "010" content EmptyString in
  total_interrupts content = fold_right Z.add 0 (map line_total lines) /\
  Forall (fun line => 0 <= line_total line) lines /\
  Forall (fun line =>
            existsb (fun keyword => contains keyword (lower line)) keywords
            = false -> line_total line = 0) lines /\
  0 <= total_interrupts content.
Proof.
  cbv zeta. set (lines := split_on "010" content EmptyString).
  assert (Htotal : total_interrupts content
                   = fold_right Z.add 0 (map line_total lines)).
  { unfold total_interrupts, scan. fold lines.
    pose proof (scan_adds lines (0, 0)) as H. cbv zeta in H.
    destruct (fold_left scan_line lines (0, 0)). cbn [fst snd] in H. lia. }
  assert (Hnonneg : Forall (fun line => 0 <= line_total line) lines).
  { apply List.Forall_forall. intros line _.
    apply (scan_line_adds (0, 0) line). }
  split; [exact Htotal|]. split; [exact Hnonneg|]. split.
  - apply List.Forall_forall. intros line _ Hnone.
    unfold line_total, scan_line. now rewrite Hnone.
  - rewrite Htotal. clear Htotal.
    induction Hnonneg as [|line rest Hline _ IH]; cbn; lia.
Qed.

End InterruptTotal.

(** ** The saved settings *)

Section Loader.
Import SavedSettings.
Local Open Scope string_scope.

Lemma last_assigned_snoc (key : string) (pairs : list (string * json))
      (member : string * json) :
  last_assigned key (pairs ++ [member])
  = if String.eqb (fst member) key then Some (snd member)
    else last_assigned key pairs.
Proof. unfold last_assigned. now rewrite fold_left_app. Qed.

(** A key holds the value of the last assignment made to it, or what it
    held before. *)
Lemma lookup_assigned (pairs : list (string * json))
      (settings : gmap string json) (key : string) :
  fold_left assign pairs settings !! key
  = match last_assigned key pairs with
    | Some v => Some v
    | None => settings !! key
    end.
Proof.
  induction pairs as [|member pairs IH] using rev_ind; [reflexivity|].
  rewrite fold_left_app, last_assigned_snoc. cbn [fold_left].
  unfold assign at 1.
  destruct (String.eqb_spec (fst member) key) as [->|Hne].
  - apply lookup_insert_eq.
  - rewrite lookup_insert_ne by exact Hne. exact IH.
Qed.




(** The frame rate of the curve engine run on its own.  The defaults of
    the loader hold ['fps': 60] beside ['target_fps': 15], and the
    constructor reads ['fps'] first: unless the configuration file
    assigns the key ["fps"] itself, the engine is constructed with a
    timer interval of [1000 // 60 = 16] ms, whatever ["target_fps"] the
    file holds. *)
Theorem standalone_frame_rate_ignores_target_fps (file : config_file) :
  lacks_fps file ->
  Mystify.configured_fps
    (mystify_settings (mystify_load_saved_settings file)) = 60 /\
  1000 / Mystify.configured_fps
           (mystify_settings (mystify_load_saved_settings file)) = 16.
Proof.
  intros Hfile.
  assert (E : mystify_load_saved_settings file !! "fps" = Some (JInt 60)).
  { unfold mystify_load_saved_settings, load.
    rewrite lookup_assigned. unfold lacks_fps in Hfile. rewrite Hfile.
    now vm_compute. }
  assert (Hfps : Mystify.configured_fps
                   (mystify_settings (mystify_load_saved_settings file))
                 = 60).
  { unfold Mystify.configured_fps, mystify_settings.
    cbn [Mystify.fps_key Mystify.target_fps].
    assert (Hint : int_setting (mystify_load_saved_settings file) "fps"
                   = Some 60) by (unfold int_setting; now rewrite E).
    rewrite Hint. reflexivity. }
  split; [exact Hfps|]. rewrite Hfps. reflexivity.
Qed.

Lemma standalone_frame_rate_ignores_target_fps_witness :
  Mystify.configured_fps
    (mystify_settings
       (mystify_load_saved_settings
          (Saved (JObject [("target_fps", JInt 30)])))) = 60 /\
  1000 / Mystify.configured_fps
           (mystify_settings
              (mystify_load_saved_settings
                 (Saved (JObject [("target_fps", JInt 30)])))) = 16.
Proof.
  apply (standalone_frame_rate_ignores_target_fps
           (Saved (JObject [("target_fps", JInt 30)]))).
  reflexivity.
Defined.

End Loader.

(** ** Drawing a column of the rain engine *)

Section ColumnColours.
Import Py Qt Matrix.

Lemma base_color_valid (name : string) : valid_color (base_color name).
Proof.
  unfold base_color.
  destruct (find _ base_colors) as [entry|] eqn:E; [|cbn; lia].
  apply find_some in E as [Hin _]. cbn in Hin.
  repeat (destruct Hin as [<-|Hin]; [cbn; lia|]). contradiction.
Qed.

(** The pens prepared by [setup_colors]: twenty valid fade colours and a
    valid head colour. *)
Lemma setup_colors_valid (w : MatrixWidget) :
  length (fade_colors (setup_colors w)) = 20%nat /\
  Forall valid_color (fade_colors (setup_colors w)) /\
  valid_color (head_color (setup_colors w)) /\
  settings (setup_colors w) = settings w.
Proof.
  unfold setup_colors. cbn [fade_colors head_color with_colors settings].
  split; [reflexivity|]. split; [|split; [cbn; lia | reflexivity]].
  pose proof (base_color_valid (color (settings w))) as Hbase.
  apply Forall_map, List.Forall_forall. intros i Hi.
  destruct (base_color _); cbn in *; lia.
Qed.

Lemma hue_valid (x : Q) : 0 <= int (fmod x 360) <= 359.
Proof.
  destruct (fmod_range x 360 ltac:(reflexivity)) as [Hlo Hhi].
  split.
  - change 0 with (int 0). now apply int_mono.
  - apply (int_below _ 360); assumption.
Qed.

Lemma trail_color_valid (w : MatrixWidget) (x : Q) (i : nat) :
  length (fade_colors w) = 20%nat ->
  Forall valid_color (fade_colors w) -> valid_color (head_color w) ->
  (i <= 10)%nat ->
  exists color,
    trail_color w (fmod x 360) i = Ok color /\ valid_color color.
Proof.
  intros Hlen Hfade Hhead Hi. unfold trail_color.
  destruct (i =? 0)%nat; destruct (rainbow (settings w)).
  - eexists. split; [reflexivity|]. cbn. pose proof (hue_valid x). lia.
  - eexists. split; [reflexivity | exact Hhead].
  - eexists. split; [reflexivity|]. cbn.
    pose proof (hue_valid (fmod x 360 + float (Z.of_nat i * 30))). lia.
  - rewrite Hlen. unfold item. rewrite Hlen.
    replace (Z.min (Z.of_nat i) (Z.of_nat 20 - 1)) with (Z.of_nat i) by lia.
    assert (E : (Z.of_nat i <? 0) = false) by lia.
    cbv zeta. rewrite E. cbv iota. rewrite E, Nat2Z.id.
    destruct (lookup_lt_is_Some_2 (fade_colors w) i ltac:(lia))
      as [color Hcolor].
    rewrite Hcolor. exists color. split; [reflexivity|].
    eapply Forall_lookup_1; eassumption.
Qed.

Lemma draw_chars_valid (w : MatrixWidget) (screen_height : Z) (x : Q)
      (column_x : Z) (entries : list (string * Q * Z)) :
  length (fade_colors w) = 20%nat ->
  Forall valid_color (fade_colors w) -> valid_color (head_color w) ->
  forall i : nat,
    let r := draw_chars w screen_height (fmod x 360) column_x i entries in
    snd r = None /\
    (length (fst r) <= 11 - i)%nat /\
    Forall (fun call => valid_color (pen call)) (fst r).
Proof.
  intros Hlen Hfade Hhead. cbv zeta.
  induction entries as [|[[char pos] age] rest IH]; intros i.
  - cbn. repeat split; [lia | constructor].
  - cbn [draw_chars].
    destruct (Qltb pos (-50) || Qltb (float screen_height + 50) pos).
    { destruct (IH (S i)) as (He & Hn & Hpens).
      split; [exact He|]. split; [lia | exact Hpens]. }
    destruct (Nat.ltb_spec 10 i) as [Hfar|Hnear].
    { cbn. repeat split; [lia | constructor]. }
    destruct (trail_color_valid w x i Hlen Hfade Hhead Hnear)
      as (color & -> & Hcolor).
    destruct (IH (S i)) as (He & Hn & Hpens).
    destruct (draw_chars _ _ _ _ _ rest) as [calls e].
    cbn [fst snd length] in *.
    split; [exact He|]. split; [lia|]. now constructor.
Qed.

(** Drawing a column with the pens that [setup_colors] prepared never
    fails and issues at most eleven [drawText] calls, each with a pen
    whose channels are in the ranges that Qt accepts, in rainbow mode as
    well as with the fade colours. *)
Theorem draw_column_pens_are_valid
        (current_time : Q) (screen_height : Z)
        (w : MatrixWidget) (column : MatrixColumn) :
  let r := draw_column current_time screen_height (setup_colors w) column in
  snd r = None /\
  (length (fst r) <= 11)%nat /\
  Forall (fun call => valid_color (pen call)) (fst r).
Proof.
  cbv zeta. unfold draw_column.
  destruct (setup_colors_valid w) as (Hlen & Hfade & Hhead & _).
  destruct (draw_chars_valid (setup_colors w) screen_height
              (current_time * 100 + float (x column)) (x column)
              (zip3 column) Hlen Hfade Hhead 0) as (He & Hn & Hpens).
  split; [exact He|]. split; [lia | exact Hpens].
Qed.

End ColumnColours.
